(** * Report-builder ingestion core: file classification, header discovery,
      column resolution, differential-expression summary and downsampling,
      annotation summary, upload handler, folders and steps.

    A shallow embedding of [src/unnamed/part_000] (the upload handler with
    [detectComparisonId] and [detectFileType], the list of files with
    [removeFile], [getDeliverablesStructure] and [generateTreeFromUploads],
    the steps with [nextStep] and [prevStep]) and of
    [src/components/StepWizard.tsx] (the marks of the wizard and the parsers
    [smartSheetToJson], [parseTableData], [parseDGESummary], [parseGTF],
    [parseComparisonDGE], [parseEnrichment]).

    Conventions.
    - File names and header names are ASCII strings ([String.string]);
      [toLowerCase] acts on the letters A-Z, the white space class of a regular
      expression is the ASCII one (tab, line feed, vertical tab, form feed,
      carriage return, space).
    - A regular expression of the source is written out as the string
      function that decides it; the expression is quoted above the function.
    - A number is [NaN], an infinity or a rational; the built-ins that read
      and print numbers ([parseFloat], [Number], [toFixed], [Math.log10],
      [localeCompare]) are the fields of the class [Runtime], and every
      property is proved for every runtime.  [Ref.runtime] is one runtime, on
      which the examples run.  What the engine decides besides, and the
      rounding of a sum, a difference or a quotient to a double, is held in
      the class [Engine] in the same way.
    - A row of a sheet is a list of optional values, [None] being a hole of
      the array; a row object is an association list in insertion order with
      the key order of [Object.keys].
    - A record field named [x] in the source is named [pt_x], [cp_x], [fs_x],
      [row_x], [cd_x], [ts_x] or [gs_x] after its record.

    The definitions come first, the properties after them. *)

From Stdlib Require Import List Bool Arith ZArith QArith Qabs Lia String Ascii.
From Stdlib Require Import Permutation Sorted DecimalString Qround.
Import ListNotations.

Local Open Scope string_scope.
Local Open Scope bool_scope.

(* ------------------------------------------------------------------ *)
(** ** JavaScript string primitives used by the sources *)

Module JsString.

Definition is_upper (c : ascii) : bool :=
  (65 <=? nat_of_ascii c)%nat && (nat_of_ascii c <=? 90)%nat.

Definition lower_char (c : ascii) : ascii :=
  if is_upper c then ascii_of_nat (nat_of_ascii c + 32) else c.

(** [s.toLowerCase()] *)
Fixpoint toLowerCase (s : string) : string :=
  match s with
  | EmptyString => EmptyString
  | String c t => String (lower_char c) (toLowerCase t)
  end.

(** [s.startsWith(p)] *)
Fixpoint startsWith (s p : string) : bool :=
  match p, s with
  | EmptyString, _ => true
  | String _ _, EmptyString => false
  | String a p', String b s' => Ascii.eqb a b && startsWith s' p'
  end.

(** [s.endsWith(p)]: some suffix of [s] is [p]. *)
Fixpoint endsWith (s p : string) : bool :=
  String.eqb s p ||
  match s with
  | EmptyString => false
  | String _ t => endsWith t p
  end.

(** [s.includes(p)]: [p] starts at some position of [s]. *)
Fixpoint includes (s p : string) : bool :=
  startsWith s p ||
  match s with
  | EmptyString => false
  | String _ t => includes t p
  end.

(** The class [\s] *)
Definition is_ws (c : ascii) : bool :=
  let n := nat_of_ascii c in
  ((9 <=? n)%nat && (n <=? 13)%nat) || (n =? 32)%nat.

(** The class [\d] *)
Definition is_digit (c : ascii) : bool :=
  (48 <=? nat_of_ascii c)%nat && (nat_of_ascii c <=? 57)%nat.

Fixpoint trimStart (s : string) : string :=
  match s with
  | EmptyString => EmptyString
  | String c t => if is_ws c then trimStart t else s
  end.

Fixpoint trimEnd (s : string) : string :=
  match s with
  | EmptyString => EmptyString
  | String c t =>
      match trimEnd t with
      | EmptyString => if is_ws c then EmptyString else String c EmptyString
      | t' => String c t'
      end
  end.

(** [s.trim()] *)
Definition trim (s : string) : string := trimEnd (trimStart s).

(** [xs.some(k => s.includes(k))] *)
Definition includes_any (s : string) (ks : list string) : bool :=
  existsb (includes s) ks.

End JsString.

Import JsString.

(* ------------------------------------------------------------------ *)
(** ** File classifier ([src/unnamed/part_000], lines 78-155) *)

Module Classifier.

(** The tags of [FileUploadStatus['type'] | 'unknown']. *)
Inductive FileKind : Set :=
| stats | mapping | dge_summary
| comparison_dge | comparison_go | comparison_kegg
| template | gtf_novel | gtf_merged | deliverable_only | unknown.

Definition FileKind_eqb (a b : FileKind) : bool :=
  match a, b with
  | stats, stats | mapping, mapping | dge_summary, dge_summary
  | comparison_dge, comparison_dge | comparison_go, comparison_go
  | comparison_kegg, comparison_kegg | template, template
  | gtf_novel, gtf_novel | gtf_merged, gtf_merged
  | deliverable_only, deliverable_only | unknown, unknown => true
  | _, _ => false
  end.

(** *** [detectComparisonId]

    [/(?:Comparison|Comp|C|Contrast|Group|G)\s*[-_]?\s*(\d+)/i]

    The three classes [\s], [[-_]] and [\d] are pairwise disjoint, so the
    greedy reading of the quantifiers is the only one: giving a character
    back never lets a later item match.  The alternatives are tried in the
    order written, at the leftmost position first. *)

Definition alternatives : list string :=
  ["Comparison"; "Comp"; "C"; "Contrast"; "Group"; "G"].

Definition is_sep (c : ascii) : bool :=
  Ascii.eqb c "-" || Ascii.eqb c "_".

(** [kw] read case-insensitively at the head of [s]; the rest of [s]. *)
Fixpoint strip_ci (kw s : string) : option string :=
  match kw, s with
  | EmptyString, _ => Some s
  | String _ _, EmptyString => None
  | String a kw', String b s' =>
      if Ascii.eqb (lower_char a) (lower_char b) then strip_ci kw' s' else None
  end.

(** [\s*] *)
Fixpoint skip_ws (s : string) : string :=
  match s with
  | EmptyString => EmptyString
  | String c t => if is_ws c then skip_ws t else s
  end.

(** [[-_]?] *)
Definition skip_sep (s : string) : string :=
  match s with
  | EmptyString => EmptyString
  | String c t => if is_sep c then t else s
  end.

(** [(\d+)]: the longest run of digits at the head. *)
Fixpoint take_digits (s : string) : string :=
  match s with
  | EmptyString => EmptyString
  | String c t => if is_digit c then String c (take_digits t) else EmptyString
  end.

(** [\s*[-_]?\s*(\d+)] *)
Definition tail_match (s : string) : option string :=
  match take_digits (skip_ws (skip_sep (skip_ws s))) with
  | EmptyString => None
  | ds => Some ds
  end.

Fixpoint first_alt (alts : list string) (s : string) : option string :=
  match alts with
  | [] => None
  | kw :: rest =>
      match strip_ci kw s with
      | Some t =>
          match tail_match t with
          | Some ds => Some ds
          | None => first_alt rest s
          end
      | None => first_alt rest s
      end
  end.

(** The expression matched at the head of [s]; the captured digits. *)
Definition match_here (s : string) : option string :=
  first_alt alternatives s.

(** [filename.match(...)]: the leftmost position that matches. *)
Fixpoint search (s : string) : option string :=
  match match_here s with
  | Some ds => Some ds
  | None =>
      match s with
      | EmptyString => None
      | String _ t => search t
      end
  end.

Definition detectComparisonId (filename : string) : option string :=
  match search filename with
  | Some ds => Some ("C" ++ ds)
  | None => None
  end.

(** *** [detectFileType] *)

Definition rule_binary (lower : string) : bool :=
  endsWith lower ".fastq" || endsWith lower ".fq" ||
  endsWith lower ".fastq.gz" || endsWith lower ".fq.gz" ||
  endsWith lower ".bam" || endsWith lower ".sam" || endsWith lower ".bai" ||
  endsWith lower ".fa" || endsWith lower ".fasta" || endsWith lower ".fna" ||
  endsWith lower ".pdf" || endsWith lower ".png" || endsWith lower ".jpg" ||
  endsWith lower ".jpeg" || endsWith lower ".svg".

Definition rule_template (lower : string) : bool :=
  endsWith lower ".html" || endsWith lower ".htm".

Definition rule_gtf (lower : string) : bool := endsWith lower ".gtf".

Definition rule_mapping (lower : string) : bool :=
  (includes lower "mapping" || includes lower "align" || includes lower "star" ||
   includes lower "bowtie" || includes lower "hisat") &&
  (includes lower "stat" || includes lower "summary" || includes lower "report" ||
   includes lower "log" || endsWith lower ".txt" || endsWith lower ".csv" ||
   endsWith lower ".xlsx").

Definition rule_stats (lower : string) : bool :=
  includes lower "multiqc" ||
  ((includes lower "stat" || includes lower "report" || includes lower "summary") &&
   (includes lower "data" || includes lower "raw" || includes lower "seq" ||
    includes lower "trim" || includes lower "qc" || includes lower "qual")).

Definition rule_dge_summary (lower : string) : bool :=
  (includes lower "summary" || includes lower "overview" || includes lower "all") &&
  (includes lower "dge" || includes lower "diff" || includes lower "deg").

Definition rule_go (lower : string) : bool :=
  (includes lower "go" &&
   (includes lower "enrich" || includes lower "term" || includes lower "result" ||
    includes lower "_go" || includes lower "go_")) ||
  includes lower "gene_ontology".

Definition rule_kegg (lower : string) : bool :=
  includes lower "kegg" || includes lower "pathway".

Definition dgeKeywords : list string :=
  ["dge"; "diff"; "deg"; "result"; "comp"; "contrast"; "vs"; "change"; "fc";
   "volcano"; "ma_plot"; "table"; "output"].

Definition rule_dge (lower : string) : bool :=
  includes_any lower dgeKeywords &&
  negb (includes lower "summary") && negb (includes lower "overview").

Definition rule_id_fallback (filename lower : string) : bool :=
  (match detectComparisonId filename with Some _ => true | None => false end) &&
  (endsWith lower "xlsx" || endsWith lower "csv" || endsWith lower "txt" ||
   endsWith lower "xls").

Definition rule_tabular (lower : string) : bool :=
  endsWith lower ".txt" || endsWith lower ".csv" || endsWith lower ".xlsx" ||
  endsWith lower ".xls" || endsWith lower ".tsv".

Definition detectFileType (filename : string) : FileKind :=
  let lower := toLowerCase filename in
  if rule_binary lower then deliverable_only
  else if rule_template lower then template
  else if rule_gtf lower then
    (if includes lower "novel" || includes lower "isoform" then gtf_novel
     else gtf_merged)
  else if rule_mapping lower then mapping
  else if rule_stats lower then stats
  else if rule_dge_summary lower then dge_summary
  else if rule_go lower then comparison_go
  else if rule_kegg lower then comparison_kegg
  else if rule_dge lower then comparison_dge
  else if rule_id_fallback filename lower then comparison_dge
  else if rule_tabular lower then deliverable_only
  else unknown.

End Classifier.

Import Classifier.

(* ------------------------------------------------------------------ *)
(** ** Numbers and values

    A JavaScript number is [NaN], an infinity or a finite value, held as the
    rational it denotes.  Comparison, negation, absolute value and minimum
    are exact on doubles; of a subtraction the sources only read the sign,
    which is exact as well.  The signed zero is not told apart. *)

Module JsNum.

Inductive num : Set :=
| NaN | NegInf | Fin (q : Q) | PosInf.

Definition zero : num := Fin 0.
Definition of_nat (n : nat) : num := Fin (inject_Z (Z.of_nat n)).

Definition isNaN (n : num) : bool :=
  match n with NaN => true | _ => false end.

Definition Qltb (x y : Q) : bool :=
  match (x ?= y)%Q with Lt => true | _ => false end.

(** [a < b] *)
Definition lt (a b : num) : bool :=
  match a, b with
  | NaN, _ | _, NaN => false
  | _, NegInf => false
  | NegInf, _ => true
  | PosInf, _ => false
  | Fin _, PosInf => true
  | Fin x, Fin y => Qltb x y
  end.

(** [a > b] *)
Definition gt (a b : num) : bool := lt b a.

(** [a === b] *)
Definition eq (a b : num) : bool :=
  match a, b with
  | NegInf, NegInf | PosInf, PosInf => true
  | Fin x, Fin y => Qeq_bool x y
  | _, _ => false
  end.

(** [-a] *)
Definition neg (a : num) : num :=
  match a with
  | NaN => NaN | NegInf => PosInf | PosInf => NegInf
  | Fin x => Fin (- x)
  end.

(** [Math.abs(a)] *)
Definition abs (a : num) : num :=
  match a with
  | NaN => NaN | NegInf | PosInf => PosInf
  | Fin x => Fin (Qabs.Qabs x)
  end.

(** [a - b] *)
Definition sub (a b : num) : num :=
  match a, b with
  | NaN, _ | _, NaN => NaN
  | PosInf, PosInf | NegInf, NegInf => NaN
  | PosInf, _ | _, NegInf => PosInf
  | NegInf, _ | _, PosInf => NegInf
  | Fin x, Fin y => Fin (x - y)
  end.

(** [Math.min(a, b)] *)
Definition min (a b : num) : num :=
  if isNaN a || isNaN b then NaN else if lt b a then b else a.

End JsNum.

Import JsNum.

(** The values a spreadsheet cell or a row field can hold. *)
Inductive value : Set :=
| VUndef | VNull | VBool (b : bool) | VNum (n : num) | VStr (s : string).

(** The built-ins of the engine that read or print numbers.  They are not
    code of the repository; the development is stated for every
    implementation of them. *)
Class Runtime : Type := {
  numToString : num -> string;        (* String(n) of a number *)
  parseFloatS : string -> num;        (* parseFloat(s) of a string *)
  parseIntS : string -> num;          (* parseInt(s) of a string *)
  toNumberS : string -> num;          (* Number(s) of a string *)
  toFixed3 : num -> string;           (* n.toFixed(3) *)
  log10 : num -> num;                 (* Math.log10(n) *)
  localeCompareNumeric : string -> string -> Z
                                      (* a.localeCompare(b, undefined, {numeric: true}) *)
}.

Module JsValue.
Section WithRuntime.
Context {rt : Runtime}.

(** [String(v)] *)
Definition toString (v : value) : string :=
  match v with
  | VUndef => "undefined"
  | VNull => "null"
  | VBool true => "true"
  | VBool false => "false"
  | VNum n => numToString n
  | VStr s => s
  end.

(** [parseFloat(v)]: the argument is converted to a string first. *)
Definition parseFloat (v : value) : num := parseFloatS (toString v).

(** [parseInt(String(v))] *)
Definition parseInt (v : value) : num := parseIntS (toString v).

(** [Number(v)] *)
Definition toNumber (v : value) : num :=
  match v with
  | VUndef => NaN
  | VNull => zero
  | VBool true => Fin 1
  | VBool false => zero
  | VNum n => n
  | VStr s => toNumberS s
  end.

End WithRuntime.

(** The truth value of [v] in a condition or under [||]. *)
Definition truthy (v : value) : bool :=
  match v with
  | VUndef | VNull => false
  | VBool b => b
  | VNum n => negb (isNaN n) && negb (JsNum.eq n zero)
  | VStr s => negb (String.eqb s "")
  end.

(** [a || b] *)
Definition or_else (a b : value) : value := if truthy a then a else b.

End JsValue.

(* ------------------------------------------------------------------ *)
(** ** Plain objects used as records of a row

    An object keeps its own properties in insertion order; assigning to a
    property it already has keeps the position.  [Object.keys] lists the
    array-index names first, in ascending order, then the other names in
    insertion order.  Assigning [undefined], a boolean, a number or text to
    [__proto__] has no effect.  Assigning [null] to it takes the prototype
    away, after which the name is an ordinary one: an object is followed up
    to there and no further, and what is stated of all the objects of a
    sheet leaves the sheets with a [__proto__] column out. *)

Module JsObject.

Definition obj : Set := list (string * value).

Definition empty : obj := [].

Fixpoint has (k : string) (o : obj) : bool :=
  match o with
  | [] => false
  | (k', _) :: o' => String.eqb k k' || has k o'
  end.

(** [o[k]] for an own property, [undefined] when there is none. *)
Fixpoint get (k : string) (o : obj) : value :=
  match o with
  | [] => VUndef
  | (k', v) :: o' => if String.eqb k k' then v else get k o'
  end.

Fixpoint put (k : string) (v : value) (o : obj) : obj :=
  match o with
  | [] => [(k, v)]
  | (k', v') :: o' =>
      if String.eqb k k' then (k', v) :: o' else (k', v') :: put k v o'
  end.

(** [o[k] = v], [v] a primitive, on an object that has its prototype *)
Definition set (k : string) (v : value) (o : obj) : obj :=
  if String.eqb k "__proto__" then o else put k v o.

Fixpoint all_digits (s : string) : bool :=
  match s with
  | EmptyString => true
  | String c t => is_digit c && all_digits t
  end.

Fixpoint digits_value (acc : N) (s : string) : N :=
  match s with
  | EmptyString => acc
  | String c t => digits_value (acc * 10 + (N_of_ascii c - 48))%N t
  end.

(** The array index a property name denotes, if any: a canonical decimal
    numeral below 2^32 - 1. *)
Definition array_index (s : string) : option N :=
  match s with
  | EmptyString => None
  | String c t =>
      if all_digits s && (negb (Ascii.eqb c "0") || String.eqb t "") then
        let n := digits_value 0 s in
        if (n <? 4294967295)%N then Some n else None
      else None
  end.

Fixpoint insert_index (e : N * string) (l : list (N * string)) : list (N * string) :=
  match l with
  | [] => [e]
  | e' :: l' => if (fst e <? fst e')%N then e :: l else e' :: insert_index e l'
  end.

Fixpoint index_names (o : obj) : list (N * string) :=
  match o with
  | [] => []
  | (k, _) :: o' =>
      match array_index k with
      | Some n => insert_index (n, k) (index_names o')
      | None => index_names o'
      end
  end.

Fixpoint other_names (o : obj) : list string :=
  match o with
  | [] => []
  | (k, _) :: o' =>
      match array_index k with
      | Some _ => other_names o'
      | None => k :: other_names o'
      end
  end.

(** [Object.keys(o)] *)
Definition keys (o : obj) : list string :=
  map snd (index_names o) ++ other_names o.

(** [o[k]] where [k] may be [undefined], which names the property
    ["undefined"]. *)
Definition get_opt (k : option string) (o : obj) : value :=
  match k with
  | Some k => get k o
  | None => get "undefined" o
  end.

End JsObject.

(* ------------------------------------------------------------------ *)
(** ** Sheets ([src/components/StepWizard.tsx], lines 151-186)

    [XLSX.utils.sheet_to_json(sheet, {header: 1})] gives the sheet as an
    array of rows, a row being an array of cell values with holes where the
    sheet has no cell. *)

Module Sheet.
Section WithRuntime.
Context {rt : Runtime}.

Definition cell : Set := option value.
Definition row : Set := list cell.
Definition rawgrid : Set := list row.

(** [row[idx]] *)
Definition cell_at (r : row) (idx : nat) : value :=
  match nth_error r idx with
  | Some (Some v) => v
  | _ => VUndef
  end.

(** The text an element contributes to [join]: nothing for a hole,
    [undefined] or [null]. *)
Definition join_text (c : cell) : string :=
  match c with
  | None | Some VUndef | Some VNull => ""
  | Some v => JsValue.toString v
  end.

(** [r.join(sep)] *)
Fixpoint join (sep : string) (r : row) : string :=
  match r with
  | [] => ""
  | [c] => join_text c
  | c :: r' => join_text c ++ sep ++ join sep r'
  end.

(** [rawData[i].join(' ').toLowerCase()] *)
Definition rowStr (r : row) : string := toLowerCase (join " " r).

(** [keywords.filter(k => rowStr.includes(k.toLowerCase())).length] *)
Definition matchCount (keywords : list string) (r : row) : nat :=
  List.length (filter (fun k => includes (rowStr r) (toLowerCase k)) keywords).

(** The loop body from row [i] on: the first row with [matchCount >= 1]. *)
Fixpoint scan (keywords : list string) (rows : list row) (i : nat) : option nat :=
  match rows with
  | [] => None
  | r :: rest =>
      if (1 <=? matchCount keywords r)%nat then Some i
      else scan keywords rest (S i)
  end.

(** [headerRowIndex] after the loop over [i < Math.min(rawData.length, 20)]. *)
Definition headerRowIndex (rawData : rawgrid) (keywords : list string) : nat :=
  match scan keywords (firstn (Nat.min (List.length rawData) 20) rawData) 0 with
  | Some i => i
  | None => 0
  end.

(** [rawData[headerRowIndex].map(h => String(h).trim())]; [map] keeps the
    holes. *)
Definition headersOf (r : row) : list (option string) :=
  map (option_map (fun h => trim (JsValue.toString h))) r.

(** [headers.forEach((h, idx) => { obj[h] = row[idx]; })] from column [idx]
    on; [forEach] skips the holes. *)
Fixpoint fill (headers : list (option string)) (idx : nat) (r : row)
    (o : JsObject.obj) : JsObject.obj :=
  match headers with
  | [] => o
  | None :: hs => fill hs (S idx) r o
  | Some h :: hs => fill hs (S idx) r (JsObject.set h (cell_at r idx) o)
  end.

Definition rowObject (headers : list (option string)) (r : row) : JsObject.obj :=
  fill headers 0 r JsObject.empty.

(** The loop over the rows below the header. *)
Fixpoint rowObjects (headers : list (option string)) (rows : list row)
    : list JsObject.obj :=
  match rows with
  | [] => []
  | r :: rest =>
      match r with
      | [] => rowObjects headers rest
      | _ => rowObject headers r :: rowObjects headers rest
      end
  end.

Definition smartSheetToJson (rawData : rawgrid) (keywords : list string)
    : list JsObject.obj :=
  match rawData with
  | [] => []
  | _ =>
      let headerRowIndex := headerRowIndex rawData keywords in
      let headers := headersOf (nth headerRowIndex rawData []) in
      rowObjects headers (skipn (headerRowIndex + 1) rawData)
  end.

End WithRuntime.
End Sheet.

(* ------------------------------------------------------------------ *)
(** ** Column resolution

    The patterns of the parsers are alternatives of literal texts, with an
    optional character here and there, tested without regard to case: a key
    matches when its lower-cased form contains one of the lower-case
    literals. *)

Module Columns.

(** [/l1|l2|.../i.test(k)] *)
Definition test_ci (literals : list string) (k : string) : bool :=
  includes_any (toLowerCase k) literals.

(** [/^l/i.test(k)] *)
Definition test_prefix_ci (l : string) (k : string) : bool :=
  startsWith (toLowerCase k) l.

(** [/^l$/i.test(k)] *)
Definition test_exact_ci (l : string) (k : string) : bool :=
  String.eqb (toLowerCase k) l.

(** A key in a condition: [undefined] and the empty string are false. *)
Definition key_truthy (k : option string) : bool :=
  match k with
  | None | Some EmptyString => false
  | Some _ => true
  end.

(** [a || b] on keys *)
Definition key_or (a b : option string) : option string :=
  if key_truthy a then a else b.

(** [keys[i]] *)
Definition key_at (keys : list string) (i : nat) : option string :=
  nth_error keys i.

End Columns.

Import Columns.

(* ------------------------------------------------------------------ *)
(** ** [Array.prototype.sort]

    The sort is stable; with a consistent comparator every stable sort
    gives the same array.  A comparator result that is [NaN] counts as
    zero. *)

Module JsSort.
Section Sort.
Variable A : Type.
Variable comparefn : A -> A -> num.

(** [comparefn(a, b) > 0]: [b] comes first. *)
Definition after (a b : A) : bool := gt (comparefn a b) zero.

Fixpoint insert (a : A) (l : list A) : list A :=
  match l with
  | [] => [a]
  | b :: l' => if after a b then b :: insert a l' else a :: l
  end.

Definition sort (l : list A) : list A := fold_right insert [] l.

End Sort.
Arguments after {A} comparefn a b.
Arguments insert {A} comparefn a l.
Arguments sort {A} comparefn l.
End JsSort.

(* ------------------------------------------------------------------ *)
(** ** [parseComparisonDGE] ([src/components/StepWizard.tsx], lines 274-375) *)

Module Dge.

Record ComparisonStats : Set := mkStats {
  total : nat; up : nat; down : nat;
  sigUp : nat; sigDown : nat; sigTotal : nat
}.

Definition noStats : ComparisonStats := mkStats 0 0 0 0 0 0.

(** The [point] of the loop, fields [x], [y], [maX], [sig], [label]. *)
Record point : Set := mkPoint {
  pt_x : num; pt_y : num; pt_maX : num; pt_sig : bool; pt_label : string
}.

(** A point of a chart, fields [x], [y], [sig], [label]. *)
Record chartPoint : Set := mkChartPoint {
  cp_x : num; cp_y : num; cp_sig : bool; cp_label : string
}.

Record DgeResult : Set := mkDgeResult {
  sigCount : nat;
  stats : ComparisonStats;
  maPoints : list chartPoint;
  volcanoPoints : list chartPoint
}.

Definition emptyResult : DgeResult := mkDgeResult 0 noStats [] [].

(** *** Smart column detection (lines 289-296) *)

(** [/log2?fc|foldchange|log2_fold_change/i] *)
Definition logFC_pattern : list string :=
  ["logfc"; "log2fc"; "foldchange"; "log2_fold_change"].

(** [/fdr|padj|adj\.?p|q_?value/i] *)
Definition fdr_pattern : list string :=
  ["fdr"; "padj"; "adjp"; "adj.p"; "qvalue"; "q_value"].

(** [/logcpm|log2?cpm|cpm/i] *)
Definition cpm_pattern : list string :=
  ["logcpm"; "logcpm"; "log2cpm"; "cpm"].

(** [/gene|transcript|id|symbol|name|target_id/i] *)
Definition id_pattern : list string :=
  ["gene"; "transcript"; "id"; "symbol"; "name"; "target_id"].

Definition logFCKeyOf (keys : list string) : option string :=
  key_or (find (test_ci logFC_pattern) keys) (key_at keys 1).

Definition fdrKeyOf (keys : list string) : option string :=
  key_or (find (test_ci fdr_pattern) keys) (key_at keys (List.length keys - 1)).

Definition cpmKeyOf (keys : list string) : option string :=
  find (test_ci cpm_pattern) keys.

Definition idKeyOf (keys : list string) : option string :=
  key_or (find (test_ci id_pattern) keys) (key_at keys 0).

(** *** The loop over the rows (lines 298-340) *)

Record acc : Set := mkAcc {
  a_stats : ComparisonStats;
  sigPoints : list point;
  nonSigPoints : list point
}.

Definition acc0 : acc := mkAcc noStats [] [].

Section WithRuntime.
Context {rt : Runtime}.

Section Visit.
Variables logFCKey fdrKey cpmKey idKey : option string.

Definition fcOf (row : JsObject.obj) : num :=
  JsValue.parseFloat (JsObject.get_opt logFCKey row).

Definition fdrOf (row : JsObject.obj) : num :=
  JsValue.parseFloat (JsObject.get_opt fdrKey row).

Definition cpmOf (row : JsObject.obj) : num :=
  if key_truthy cpmKey then JsValue.parseFloat (JsObject.get_opt cpmKey row)
  else zero.

Definition labelOf (row : JsObject.obj) : string :=
  JsValue.toString
    (JsValue.or_else (JsObject.get_opt idKey row) (VStr "Unknown")).

(** [fdr < 0.05 && Math.abs(fc) > 1] *)
Definition isSig (fc fdr : num) : bool :=
  lt fdr (Fin (5 # 100)) && gt (abs fc) (Fin 1).

(** [fdr === 0 ? 50 : Math.min(-Math.log10(fdr), 50)] *)
Definition negLogFdr (fdr : num) : num :=
  if JsNum.eq fdr zero then Fin 50 else JsNum.min (neg (log10 fdr)) (Fin 50).

(** [parseFloat(n.toFixed(3))] *)
Definition round3 (n : num) : num := parseFloatS (toFixed3 n).

Definition pointOf (row : JsObject.obj) : point :=
  let fc := fcOf row in
  let fdr := fdrOf row in
  mkPoint (round3 fc) (round3 (negLogFdr fdr))
          (if key_truthy cpmKey then round3 (cpmOf row) else round3 fc)
          (isSig fc fdr) (labelOf row).

Definition count (fc fdr : num) (st : ComparisonStats) : ComparisonStats :=
  let st := mkStats (S (total st)) (up st) (down st)
                    (sigUp st) (sigDown st) (sigTotal st) in
  let st :=
    if gt fc zero then
      mkStats (total st) (S (up st)) (down st) (sigUp st) (sigDown st) (sigTotal st)
    else if lt fc zero then
      mkStats (total st) (up st) (S (down st)) (sigUp st) (sigDown st) (sigTotal st)
    else st in
  if isSig fc fdr then
    let st := mkStats (total st) (up st) (down st)
                      (sigUp st) (sigDown st) (S (sigTotal st)) in
    if gt fc zero then
      mkStats (total st) (up st) (down st) (S (sigUp st)) (sigDown st) (sigTotal st)
    else
      mkStats (total st) (up st) (down st) (sigUp st) (S (sigDown st)) (sigTotal st)
  else st.

(** The body of [jsonData.forEach]. *)
Definition visit (a : acc) (row : JsObject.obj) : acc :=
  let fc := fcOf row in
  let fdr := fdrOf row in
  if isNaN fc || isNaN fdr then a
  else
    let st := count fc fdr (a_stats a) in
    let p := pointOf row in
    if isSig fc fdr then mkAcc st (sigPoints a ++ [p]) (nonSigPoints a)
    else mkAcc st (sigPoints a) (nonSigPoints a ++ [p]).

Definition visitAll (jsonData : list JsObject.obj) : acc :=
  fold_left visit jsonData acc0.

End Visit.
End WithRuntime.

(** *** Smart downsampling (lines 342-363) *)

Definition MAX_POINTS : nat := 5000.
Definition SIG_LIMIT : nat := 3000.

(** [(a, b) => b.y - a.y] *)
Definition byStrength (a b : point) : num := sub (pt_y b) (pt_y a).

(** The significant points kept. *)
Definition keptSig (sigPoints : list point) : list point :=
  if (List.length sigPoints <=? SIG_LIMIT)%nat then sigPoints
  else firstn SIG_LIMIT (JsSort.sort byStrength sigPoints).

(** [for (let i = 0; i < nonSigPoints.length; i += step)], at most [fuel]
    rounds. *)
Fixpoint sampleLoop (fuel : nat) (nonSigPoints : list point) (step i : nat)
    (finalPoints : list point) : list point :=
  match fuel with
  | O => finalPoints
  | S fuel' =>
      if (i <? List.length nonSigPoints)%nat then
        if (MAX_POINTS <=? List.length finalPoints)%nat then finalPoints
        else
          match nth_error nonSigPoints i with
          | Some p =>
              sampleLoop fuel' nonSigPoints step (i + step) (finalPoints ++ [p])
          | None => finalPoints
          end
      else finalPoints
  end.

Definition downsample (sigPoints nonSigPoints : list point) : list point :=
  let finalPoints := keptSig sigPoints in
  let slotsLeft := (Z.of_nat MAX_POINTS - Z.of_nat (List.length finalPoints))%Z in
  if (0 <? slotsLeft)%Z && (0 <? List.length nonSigPoints)%nat then
    let step :=
      Nat.max 1 (List.length nonSigPoints / Z.to_nat slotsLeft) in
    sampleLoop (List.length nonSigPoints) nonSigPoints step 0 finalPoints
  else finalPoints.

Definition volcanoOf (p : point) : chartPoint :=
  mkChartPoint (pt_x p) (pt_y p) (pt_sig p) (pt_label p).

Definition maOf (p : point) : chartPoint :=
  mkChartPoint (pt_maX p) (pt_x p) (pt_sig p) (pt_label p).

Section WithRuntime2.
Context {rt : Runtime}.

Definition dgeKeywords : list string :=
  ["logfc"; "fdr"; "pvalue"; "padj"; "foldchange"].

(** The function from [jsonData] on. *)
Definition summarize (jsonData : list JsObject.obj) : DgeResult :=
  match jsonData with
  | [] => emptyResult
  | row0 :: _ =>
      let keys := JsObject.keys row0 in
      let a := visitAll (logFCKeyOf keys) (fdrKeyOf keys) (cpmKeyOf keys)
                        (idKeyOf keys) jsonData in
      let finalPoints := downsample (sigPoints a) (nonSigPoints a) in
      mkDgeResult (sigTotal (a_stats a)) (a_stats a)
                  (map maOf finalPoints) (map volcanoOf finalPoints)
  end.

(** [parseComparisonDGE] on the first sheet of the workbook, [None] when the
    workbook has no sheet. *)
Definition parseComparisonDGE (firstSheet : option Sheet.rawgrid) : DgeResult :=
  match firstSheet with
  | None => emptyResult
  | Some rawData => summarize (Sheet.smartSheetToJson rawData dgeKeywords)
  end.

End WithRuntime2.
End Dge.

(* ------------------------------------------------------------------ *)
(** ** [parseEnrichment] ([src/components/StepWizard.tsx], lines 377-442) *)

Module Enrichment.

Record EnrichmentTerm : Set := mkTerm {
  term : string; count : num; pAdjust : num; category : option string
}.

Definition enrichmentKeywords : list string :=
  ["term"; "description"; "pathway"; "id"; "count"; "significant"; "n";
   "pvalue"; "p-value"; "p.adjust"; "fdr"; "qvalue"; "q-value"].

(** [if (!termKey) termKey = next] *)
Definition unless (k next : option string) : option string :=
  if negb (key_truthy k) then next else k.

(** The term column: [/description/i], [/term/i], [/pathway/i], [/id/i],
    [keys[0]]. *)
Definition termKeyOf (keys : list string) : option string :=
  let termKey := find (test_ci ["description"]) keys in
  let termKey := unless termKey (find (test_ci ["term"]) keys) in
  let termKey := unless termKey (find (test_ci ["pathway"]) keys) in
  let termKey := unless termKey (find (test_ci ["id"]) keys) in
  unless termKey (key_at keys 0).

(** The count column: [/^count/i], [/significant/i], [/^n$/i],
    [/gene_?count/i]. *)
Definition countKeyOf (keys : list string) : option string :=
  let countKey := find (test_prefix_ci "count") keys in
  let countKey := unless countKey (find (test_ci ["significant"]) keys) in
  let countKey := unless countKey (find (test_exact_ci "n") keys) in
  unless countKey (find (test_ci ["genecount"; "gene_count"]) keys).

(** [/ontology|category|namespace|type/i] *)
Definition catKeyOf (keys : list string) : option string :=
  find (test_ci ["ontology"; "category"; "namespace"; "type"]) keys.

(** [/p[-_.]?val|p[-_.]?adj|fdr|q[-_.]?val/i] *)
Definition pKeyOf (keys : list string) : option string :=
  find (test_ci ["pval"; "p-val"; "p_val"; "p.val";
                 "padj"; "p-adj"; "p_adj"; "p.adj"; "fdr";
                 "qval"; "q-val"; "q_val"; "q.val"]) keys.

Definition is_undefined (v : value) : bool :=
  match v with VUndef => true | _ => false end.

Section WithRuntime.
Context {rt : Runtime}.

(** The body of [jsonData.slice(0, 50).map]. *)
Definition termOf (termKey countKey catKey pKey : option string)
    (row : JsObject.obj) : EnrichmentTerm :=
  let term := JsValue.or_else (JsObject.get_opt termKey row) (VStr "Unknown") in
  let count :=
    if key_truthy countKey && negb (is_undefined (JsObject.get_opt countKey row))
    then
      let parsed := JsValue.parseInt (JsObject.get_opt countKey row) in
      if negb (isNaN parsed) then parsed else zero
    else zero in
  let pVal :=
    if key_truthy pKey && negb (is_undefined (JsObject.get_opt pKey row))
    then
      let parsed := JsValue.parseFloat (JsObject.get_opt pKey row) in
      if negb (isNaN parsed) then parsed else zero
    else zero in
  let category :=
    if key_truthy catKey then Some (JsValue.toString (JsObject.get_opt catKey row))
    else None in
  mkTerm (JsValue.toString term) count pVal category.

Definition extract (jsonData : list JsObject.obj) : list EnrichmentTerm :=
  match jsonData with
  | [] => []
  | row0 :: _ =>
      let keys := JsObject.keys row0 in
      map (termOf (termKeyOf keys) (countKeyOf keys) (catKeyOf keys) (pKeyOf keys))
          (firstn 50 jsonData)
  end.

Definition parseEnrichment (firstSheet : option Sheet.rawgrid)
    : list EnrichmentTerm :=
  match firstSheet with
  | None => []
  | Some rawData =>
      extract (Sheet.smartSheetToJson rawData enrichmentKeywords)
  end.

End WithRuntime.
End Enrichment.

(* ------------------------------------------------------------------ *)
(** ** The upload handler ([src/unnamed/part_000], lines 167-387)

    The handler keeps four pieces of state: the list of upload statuses,
    the processed data, the two transcript counts of the project statistics
    and the custom template.  The loop body pushes a pending status, works
    on the data, and ends by rewriting the statuses whose id is the file's:
    success, or error with the message of what was thrown.

    A file is its name together with what reading it gives: its text, and
    the rows of the first sheet of the workbook [XLSX.read] makes of it
    ([None] when the workbook has no sheet); either read may throw.
    [parseGTF] is a parameter.  The ids, drawn from [Math.random] by the
    source, come with the files. *)

Module Upload.

Inductive outcome (A : Type) : Type :=
| Returned (a : A)
| Threw (message : string).
Arguments Returned {A} a.
Arguments Threw {A} message.

Record File : Set := mkFile {
  file_name : string;
  file_text : outcome string;
  file_sheet : outcome (option Sheet.rawgrid)
}.

(** [TranscriptStat], fields [name], [count], [totalLen], [meanLen],
    [maxLen]. *)
Record TranscriptStat : Set := mkTranscriptStat {
  ts_name : string; ts_count : num;
  ts_totalLen : num; ts_meanLen : num; ts_maxLen : num
}.

Inductive Status : Set := pending | success | error.

(** [FileUploadStatus], fields [id], [name], [type], [assignedTo],
    [status], [message]. *)
Record FileUploadStatus : Set := mkStatus {
  fs_id : string;
  fs_name : string;
  fs_type : FileKind;
  fs_assignedTo : option string;
  fs_status : Status;
  fs_message : option string
}.

(** A row of [dgeSummaryTable], fields [comp], [desc], [total],
    [downTotal], [upTotal], [sigDown], [sigUp], [sig]. *)
Record SummaryRow : Set := mkRow {
  row_comp : value; row_desc : value;
  row_total : num; row_downTotal : num; row_upTotal : num;
  row_sigDown : num; row_sigUp : num; row_sig : num
}.

(** [ComparisonData], fields [id], [name], [description], [sigCount],
    [stats], [maPoints], [volcanoPoints], [goTerms], [keggPathways]. *)
Record ComparisonData : Set := mkComparison {
  cd_id : string;
  cd_name : string;
  cd_description : value;
  cd_sigCount : num;
  cd_stats : option Dge.ComparisonStats;
  cd_maPoints : list Dge.chartPoint;
  cd_volcanoPoints : list Dge.chartPoint;
  cd_goTerms : list Enrichment.EnrichmentTerm;
  cd_keggPathways : list Enrichment.EnrichmentTerm
}.

(** [Record<string, ComparisonData>]: the keys are "C" and digits, in
    insertion order. *)
Definition Comparisons : Set := list (string * ComparisonData).

Fixpoint lookup (k : string) (m : Comparisons) : option ComparisonData :=
  match m with
  | [] => None
  | (k', c) :: m' => if String.eqb k k' then Some c else lookup k m'
  end.

(** [{ ...m, [k]: c }] *)
Fixpoint store (k : string) (c : ComparisonData) (m : Comparisons) : Comparisons :=
  match m with
  | [] => [(k, c)]
  | (k', c') :: m' =>
      if String.eqb k k' then (k', c) :: m' else (k', c') :: store k c m'
  end.

Record ProcessedData : Set := mkProcessed {
  dataStatsTable : list Sheet.row;
  mappingStatsTable : list Sheet.row;
  transcriptStats : list TranscriptStat;
  dgeSummaryTable : list SummaryRow;
  comparisons : Comparisons
}.

(** What the loop body works on besides the statuses. *)
Record Data : Set := mkData {
  processedData : ProcessedData;
  novelIsoforms : num;
  mergedTranscripts : num;
  customTemplate : option string
}.

Record AppState : Set := mkApp {
  uploadStatus : list FileUploadStatus;
  data : Data
}.

Definition initialProcessed : ProcessedData := mkProcessed [] [] [] [] [].

(** How the loop body ends. *)
Inductive flow : Set :=
| UnknownKind          (* [continue] after "Type unknown, added to tree only" *)
| DeliverableOnly      (* [continue] after success *)
| Completed            (* the end of the [try] block *)
| Raised (message : string).

Definition is_comparison (kind : FileKind) : bool :=
  match kind with
  | comparison_dge | comparison_go | comparison_kegg => true
  | _ => false
  end.

(** [type.replace('comparison_', '').toUpperCase()] *)
Definition kind_tag (kind : FileKind) : string :=
  match kind with
  | comparison_dge => "DGE"
  | comparison_go => "GO"
  | comparison_kegg => "KEGG"
  | _ => ""
  end.

Definition missing_id_message (kind : FileKind) : string :=
  "Detected " ++ kind_tag kind ++
  " file but missing Comparison ID (e.g. 'C1', 'Comp1') in filename.".

(** *** Patterns of the summary rows *)

Definition is_line_end (c : ascii) : bool :=
  Ascii.eqb c "010" || Ascii.eqb c "013".

(** [.*b] at the head of [s]; the dot matches no line end. *)
Fixpoint dot_star_then (s b : string) : bool :=
  startsWith s b ||
  match s with
  | EmptyString => false
  | String c t => negb (is_line_end c) && dot_star_then t b
  end.

Fixpoint includes_then (s a b : string) : bool :=
  (match strip_ci a s with
   | Some rest => dot_star_then rest b
   | None => false
   end) ||
  match s with
  | EmptyString => false
  | String _ t => includes_then t a b
  end.

(** [/a.*b/i.test(k)] *)
Definition test_then_ci (a b : string) (k : string) : bool :=
  includes_then (toLowerCase k) a b.

(** [String(v).match(/\d+/)?.[0]]: the first run of digits. *)
Fixpoint first_digits (s : string) : option string :=
  match s with
  | EmptyString => None
  | String c t => if is_digit c then Some (take_digits s) else first_digits t
  end.

(** [s.replace(/\D/g, '')] *)
Fixpoint only_digits (s : string) : string :=
  match s with
  | EmptyString => EmptyString
  | String c t => if is_digit c then String c (only_digits t) else only_digits t
  end.

(** *** A sort whose comparator may throw

    The sort throws what the first call that fails throws.  Which pairs a
    sort passes to its comparator is the engine's own affair; the calls
    here are those of [JsSort.sort]. *)

Section ThrowingSort.
Variable A : Type.
Variable comparefn : A -> A -> outcome num.

Fixpoint insertE (a : A) (l : list A) : outcome (list A) :=
  match l with
  | [] => Returned [a]
  | b :: l' =>
      match comparefn a b with
      | Returned n =>
          if gt n zero then
            match insertE a l' with
            | Returned l'' => Returned (b :: l'')
            | Threw m => Threw m
            end
          else Returned (a :: l)
      | Threw m => Threw m
      end
  end.

Definition sortE (l : list A) : outcome (list A) :=
  fold_right (fun a sorted =>
                match sorted with
                | Returned s => insertE a s
                | Threw m => Threw m
                end)
             (Returned []) l.

End ThrowingSort.
Arguments insertE {A} comparefn a l.
Arguments sortE {A} comparefn l.

Section WithRuntime.
Context {rt : Runtime}.
Variable parseGTF : File -> outcome TranscriptStat.

(** *** The parsers, on a file *)

Definition bind {A B : Type} (x : outcome A) (f : A -> B) : outcome B :=
  match x with
  | Returned a => Returned (f a)
  | Threw m => Threw m
  end.

(** [row.length > 0 && row.some(cell => !!cell)] *)
Definition keepRow (r : Sheet.row) : bool :=
  (0 <? List.length r)%nat &&
  existsb (fun c => match c with
                    | Some v => JsValue.truthy v
                    | None => false
                    end) r.

Definition parseTableData (file : File) : outcome (list Sheet.row) :=
  bind (file_sheet file)
       (fun firstSheet => match firstSheet with
                          | None => []
                          | Some jsonData => filter keepRow jsonData
                          end).

Definition summaryKeywords : list string :=
  ["comparison"; "total"; "up"; "down"; "sig"; "regulated"].

Definition parseDGESummary (file : File) : outcome (list JsObject.obj) :=
  bind (file_sheet file)
       (fun firstSheet => match firstSheet with
                          | None => []
                          | Some rawData =>
                              Sheet.smartSheetToJson rawData summaryKeywords
                          end).

Definition parseComparisonDGE (file : File) : outcome Dge.DgeResult :=
  bind (file_sheet file) Dge.parseComparisonDGE.

Definition parseEnrichment (file : File)
    : outcome (list Enrichment.EnrichmentTerm) :=
  bind (file_sheet file) Enrichment.parseEnrichment.

(** *** The summary branch (lines 223-283) *)

(** [Number(r[key] || 0)] *)
Definition numberAt (key : option string) (r : JsObject.obj) : num :=
  JsValue.toNumber (JsValue.or_else (JsObject.get_opt key r) (VNum zero)).

(** [a === b] on keys *)
Definition key_eqb (a b : option string) : bool :=
  match a, b with
  | Some x, Some y => String.eqb x y
  | None, None => true
  | _, _ => false
  end.

(** The body of [raw.map]. *)
Definition summaryRowOf (r : JsObject.obj) : SummaryRow :=
  let keys := JsObject.keys r in
  let findKey (p : string -> bool) := find p keys in
  let compKey := key_or (findKey (test_ci ["comp"])) (key_at keys 0) in
  let descKey := findKey (test_ci ["desc"]) in
  let totalKey :=
    key_or (findKey (fun k => test_then_ci "total" "deg" k ||
                              test_then_ci "total" "gene" k))
           (findKey (test_exact_ci "total")) in
  let sigDownKey := key_or (findKey (test_then_ci "sig" "down"))
                           (findKey (test_then_ci "down" "sig")) in
  let sigUpKey := key_or (findKey (test_then_ci "sig" "up"))
                         (findKey (test_then_ci "up" "sig")) in
  let sigTotalKey :=
    key_or (key_or (findKey (test_then_ci "total" "sig"))
                   (findKey (test_prefix_ci "sig")))
           (findKey (test_then_ci "#" "sig")) in
  let downTotalKey := findKey (test_prefix_ci "down") in
  let downTotalKey :=
    if key_eqb downTotalKey sigDownKey then None else downTotalKey in
  let upTotalKey := findKey (test_prefix_ci "up") in
  let upTotalKey :=
    if key_eqb upTotalKey sigUpKey then None else upTotalKey in
  mkRow (JsValue.or_else (JsObject.get_opt compKey r) (VStr "Unknown"))
        (if key_truthy descKey then JsObject.get_opt descKey r
         else VStr "Test vs Control")
        (numberAt totalKey r) (numberAt downTotalKey r) (numberAt upTotalKey r)
        (numberAt sigDownKey r) (numberAt sigUpKey r) (numberAt sigTotalKey r).

(** The body of [summary.forEach]. *)
Definition mergeSummaryRow (nextComparisons : Comparisons) (row : SummaryRow)
    : Comparisons :=
  match first_digits (JsValue.toString (row_comp row)) with
  | None => nextComparisons
  | Some rowNum =>
      let targetId := "C" ++ rowNum in
      match lookup targetId nextComparisons with
      | Some c =>
          store targetId
                (mkComparison (cd_id c) (cd_name c)
                   (JsValue.or_else (row_desc row) (cd_description c))
                   (cd_sigCount c) (cd_stats c) (cd_maPoints c)
                   (cd_volcanoPoints c) (cd_goTerms c) (cd_keggPathways c))
                nextComparisons
      | None =>
          store targetId
                (mkComparison targetId ("Comparison " ++ rowNum)
                   (JsValue.or_else (row_desc row) (VStr "Test vs Control"))
                   (row_sig row) None [] [] [] [])
                nextComparisons
      end
  end.

Definition applySummary (summary : list SummaryRow) (prev : ProcessedData)
    : ProcessedData :=
  mkProcessed (dataStatsTable prev) (mappingStatsTable prev)
              (transcriptStats prev) summary
              (fold_left mergeSummaryRow summary (comparisons prev)).

(** *** The comparison branch (lines 288-376) *)

(** The first update: the comparison is created unless it is there. *)
Definition ensureComparison (compId : string) (prev : ProcessedData)
    : ProcessedData :=
  let compNum := only_digits compId in
  let defaultName :=
    match compNum with
    | EmptyString => compId
    | _ => "Comparison " ++ compNum
    end in
  let found :=
    find (fun row =>
            includes (JsValue.toString (row_comp row)) compNum ||
            includes (toLowerCase (JsValue.toString (row_comp row)))
                     (toLowerCase compId))
         (dgeSummaryTable prev) in
  let defaultDesc :=
    match found with
    | Some row => if JsValue.truthy (row_desc row) then row_desc row
                  else VStr "Test vs Control"
    | None => VStr "Test vs Control"
    end in
  let existing :=
    match lookup compId (comparisons prev) with
    | Some c => c
    | None => mkComparison compId defaultName defaultDesc zero None [] [] [] []
    end in
  mkProcessed (dataStatsTable prev) (mappingStatsTable prev)
              (transcriptStats prev) (dgeSummaryTable prev)
              (store compId existing (comparisons prev)).

(** [prev.comparisons[compId]]; the key is there, stored by the update
    before. *)
Definition comparisonAt (compId : string) (prev : ProcessedData)
    : ComparisonData :=
  match lookup compId (comparisons prev) with
  | Some c => c
  | None => mkComparison compId "" VUndef zero None [] [] [] []
  end.

(** [row.comp === compId] *)
Definition comp_is (compId : string) (row : SummaryRow) : bool :=
  match row_comp row with
  | VStr s => String.eqb s compId
  | _ => false
  end.

(** [newSummaryTable[i] = { ...newSummaryTable[i], ...entry }] at the
    first row that is [compId]'s, [push(entry)] when there is none. *)
Fixpoint mergeEntry (compId : string) (entry : SummaryRow)
    (table : list SummaryRow) : list SummaryRow :=
  match table with
  | [] => [entry]
  | row :: rest =>
      if comp_is compId row then entry :: rest
      else row :: mergeEntry compId entry rest
  end.

(** [(a, b) => a.comp.localeCompare(b.comp, undefined, {numeric: true})]:
    [localeCompare] is a method of text, which converts its argument to
    text; on a row whose [comp] is a number or [true], as a cell of a
    summary file can be, the call throws. *)
Definition byComp (a b : SummaryRow) : outcome num :=
  match row_comp a with
  | VStr s =>
      Returned (Fin (inject_Z (localeCompareNumeric
                                 s (JsValue.toString (row_comp b)))))
  | _ => Threw "a.comp.localeCompare is not a function"
  end.

(** The update after the file is parsed.  The function that is passed to
    [setProcessedData] runs when the framework updates the state, outside
    the [try] block: when the sort throws, the call has returned all the
    same and the handler goes on; the data are not replaced, and the
    framework fails at its next rendering, where the model does not follow
    it. *)
Definition applyDge (compId : string) (dgeData : Dge.DgeResult)
    (prev : ProcessedData) : ProcessedData :=
  let c := comparisonAt compId prev in
  let updatedComp :=
    mkComparison (cd_id c) (cd_name c) (cd_description c)
                 (of_nat (Dge.sigCount dgeData)) (Some (Dge.stats dgeData))
                 (Dge.maPoints dgeData) (Dge.volcanoPoints dgeData)
                 (cd_goTerms c) (cd_keggPathways c) in
  let st := Dge.stats dgeData in
  let newSummaryEntry :=
    mkRow (VStr compId) (cd_description updatedComp)
          (of_nat (Dge.total st)) (of_nat (Dge.down st)) (of_nat (Dge.up st))
          (of_nat (Dge.sigDown st)) (of_nat (Dge.sigUp st))
          (of_nat (Dge.sigTotal st)) in
  match sortE byComp
          (mergeEntry compId newSummaryEntry (dgeSummaryTable prev)) with
  | Returned newSummaryTable =>
      mkProcessed (dataStatsTable prev) (mappingStatsTable prev)
                  (transcriptStats prev) newSummaryTable
                  (store compId updatedComp (comparisons prev))
  | Threw _ => prev
  end.

Definition applyGo (compId : string) (goData : list Enrichment.EnrichmentTerm)
    (prev : ProcessedData) : ProcessedData :=
  let c := comparisonAt compId prev in
  mkProcessed (dataStatsTable prev) (mappingStatsTable prev)
              (transcriptStats prev) (dgeSummaryTable prev)
              (store compId
                 (mkComparison (cd_id c) (cd_name c) (cd_description c)
                    (cd_sigCount c) (cd_stats c) (cd_maPoints c)
                    (cd_volcanoPoints c) goData (cd_keggPathways c))
                 (comparisons prev)).

Definition applyKegg (compId : string) (keggData : list Enrichment.EnrichmentTerm)
    (prev : ProcessedData) : ProcessedData :=
  let c := comparisonAt compId prev in
  mkProcessed (dataStatsTable prev) (mappingStatsTable prev)
              (transcriptStats prev) (dgeSummaryTable prev)
              (store compId
                 (mkComparison (cd_id c) (cd_name c) (cd_description c)
                    (cd_sigCount c) (cd_stats c) (cd_maPoints c)
                    (cd_volcanoPoints c) (cd_goTerms c) keggData)
                 (comparisons prev)).

(** [setProcessedData(prev => f(prev))] *)
Definition setProcessedData (f : ProcessedData -> ProcessedData) (d : Data) : Data :=
  mkData (f (processedData d)) (novelIsoforms d) (mergedTranscripts d)
         (customTemplate d).

(** *** The [try] block (lines 186-381) *)

Definition tryBlock (file : File) (kind : FileKind) (compId : option string)
    (d : Data) : Data * flow :=
  match kind with
  | unknown => (d, UnknownKind)
  | deliverable_only => (d, DeliverableOnly)
  | _ =>
    if is_comparison kind && negb (key_truthy compId) then
      (d, Raised (missing_id_message kind))
    else
      match kind with
      | stats =>
          match parseTableData file with
          | Returned table =>
              (setProcessedData
                 (fun prev => mkProcessed table (mappingStatsTable prev)
                                (transcriptStats prev) (dgeSummaryTable prev)
                                (comparisons prev)) d,
               Completed)
          | Threw m => (d, Raised m)
          end
      | mapping =>
          match parseTableData file with
          | Returned table =>
              (setProcessedData
                 (fun prev => mkProcessed (dataStatsTable prev) table
                                (transcriptStats prev) (dgeSummaryTable prev)
                                (comparisons prev)) d,
               Completed)
          | Threw m => (d, Raised m)
          end
      | gtf_novel =>
          match parseGTF file with
          | Returned st =>
              let d := mkData (processedData d) (ts_count st)
                              (mergedTranscripts d) (customTemplate d) in
              (setProcessedData
                 (fun prev => mkProcessed (dataStatsTable prev)
                                (mappingStatsTable prev)
                                (transcriptStats prev ++ [st])
                                (dgeSummaryTable prev) (comparisons prev)) d,
               Completed)
          | Threw m => (d, Raised m)
          end
      | gtf_merged =>
          match parseGTF file with
          | Returned st =>
              let d := mkData (processedData d) (novelIsoforms d)
                              (ts_count st) (customTemplate d) in
              (setProcessedData
                 (fun prev => mkProcessed (dataStatsTable prev)
                                (mappingStatsTable prev)
                                (transcriptStats prev ++ [st])
                                (dgeSummaryTable prev) (comparisons prev)) d,
               Completed)
          | Threw m => (d, Raised m)
          end
      | dge_summary =>
          match parseDGESummary file with
          | Returned raw =>
              (setProcessedData (applySummary (map summaryRowOf raw)) d,
               Completed)
          | Threw m => (d, Raised m)
          end
      | template =>
          match file_text file with
          | Returned text =>
              (mkData (processedData d) (novelIsoforms d)
                      (mergedTranscripts d) (Some text),
               Completed)
          | Threw m => (d, Raised m)
          end
      | comparison_dge =>
          match compId with
          | Some compId =>
              let d := setProcessedData (ensureComparison compId) d in
              match parseComparisonDGE file with
              | Returned dgeData =>
                  (setProcessedData (applyDge compId dgeData) d, Completed)
              | Threw m => (d, Raised m)
              end
          | None => (d, Raised "File processing logic error.")
          end
      | comparison_go =>
          match compId with
          | Some compId =>
              let d := setProcessedData (ensureComparison compId) d in
              match parseEnrichment file with
              | Returned goData =>
                  (setProcessedData (applyGo compId goData) d, Completed)
              | Threw m => (d, Raised m)
              end
          | None => (d, Raised "File processing logic error.")
          end
      | comparison_kegg =>
          match compId with
          | Some compId =>
              let d := setProcessedData (ensureComparison compId) d in
              match parseEnrichment file with
              | Returned keggData =>
                  (setProcessedData (applyKegg compId keggData) d, Completed)
              | Threw m => (d, Raised m)
              end
          | None => (d, Raised "File processing logic error.")
          end
      | _ => (d, Raised "File processing logic error.")
      end
  end.

(** *** The statuses *)

Definition newStatus (fileId : string) (file : File) : FileUploadStatus :=
  mkStatus fileId (file_name file) (detectFileType (file_name file))
           (detectComparisonId (file_name file)) pending None.

(** [error.message || 'Parsing failed'] *)
Definition messageOf (m : string) : string :=
  match m with
  | EmptyString => "Parsing failed"
  | _ => m
  end.

(** [s => s.id === fileId ? { ...s, ... } : s], for each way out of the
    loop body. *)
Definition finish (fileId : string) (fl : flow) (s : FileUploadStatus)
    : FileUploadStatus :=
  if String.eqb (fs_id s) fileId then
    match fl with
    | UnknownKind =>
        mkStatus (fs_id s) (fs_name s) deliverable_only (fs_assignedTo s)
                 success (Some "Type unknown, added to tree only")
    | DeliverableOnly | Completed =>
        mkStatus (fs_id s) (fs_name s) (fs_type s) (fs_assignedTo s)
                 success (fs_message s)
    | Raised m =>
        mkStatus (fs_id s) (fs_name s) (fs_type s) (fs_assignedTo s)
                 error (Some (messageOf m))
    end
  else s.

(** One round of [for (const file of files)]. *)
Definition processFile (st : AppState) (entry : string * File) : AppState :=
  let (fileId, file) := entry in
  let kind := detectFileType (file_name file) in
  let compId := detectComparisonId (file_name file) in
  let statuses := (uploadStatus st ++ [newStatus fileId file])%list in
  let (d, fl) := tryBlock file kind compId (data st) in
  mkApp (map (finish fileId fl) statuses) d.

Definition handleSmartUpload (files : list (string * File)) (st : AppState)
    : AppState :=
  fold_left processFile files st.

End WithRuntime.
End Upload.

(* ------------------------------------------------------------------ *)
(** ** Statements of the classifier's rules *)

Module ClassifierSpec.

(** A rule above the summary rule fires: binary or opaque extension, markup
    extension, annotation extension, mapping, global statistics. *)
Definition classified_earlier (lower : string) : bool :=
  rule_binary lower || rule_template lower || rule_gtf lower ||
  rule_mapping lower || rule_stats lower.

(** The summary rule in the specification's words: a summary or overview
    keyword together with a differential-expression keyword. *)
Definition spec_summary_rule (lower : string) : bool :=
  (includes lower "summary" || includes lower "overview") &&
  (includes lower "dge" || includes lower "diff" || includes lower "deg").

Fixpoint all_chars (p : ascii -> bool) (s : string) : bool :=
  match s with
  | EmptyString => true
  | String c t => p c && all_chars p t
  end.

Definition no_digit_ahead (s : string) : bool :=
  match s with
  | EmptyString => true
  | String c _ => negb (is_digit c)
  end.

(** [Token s ds]: [s] begins with a keyword (in any case), optional white
    space, an optional separator, optional white space and the digits [ds],
    and no digit follows them. *)
Inductive Token : string -> string -> Prop :=
| Token_intro (kw kw' ws1 sep ws2 ds rest : string) :
    In kw alternatives ->
    toLowerCase kw' = toLowerCase kw ->
    all_chars is_ws ws1 = true ->
    sep = "" \/ sep = "-" \/ sep = "_" ->
    all_chars is_ws ws2 = true ->
    ds <> "" ->
    all_chars is_digit ds = true ->
    no_digit_ahead rest = true ->
    Token (kw' ++ ws1 ++ sep ++ ws2 ++ ds ++ rest) ds.

(** A character that can follow the keyword inside a match. *)
Definition tail_start (c : ascii) : bool := is_ws c || is_sep c || is_digit c.

Definition is_alpha (c : ascii) : bool :=
  (97 <=? nat_of_ascii c)%nat && (nat_of_ascii c <=? 122)%nat.

(** No token starts in [filename] before position [n]. *)
Definition none_before (filename : string) (n : nat) : Prop :=
  forall pre s ds,
    filename = pre ++ s -> (String.length pre < n)%nat -> ~ Token s ds.

(** The pattern in the specification's words,
    [(Comparison|Comp|C|Contrast|Group|G)[-_]?digits], without white space. *)
Definition spec_tail_match (s : string) : option string :=
  match take_digits (skip_sep s) with
  | EmptyString => None
  | ds => Some ds
  end.

Fixpoint spec_first_alt (alts : list string) (s : string) : option string :=
  match alts with
  | [] => None
  | kw :: rest =>
      match strip_ci kw s with
      | Some t =>
          match spec_tail_match t with
          | Some ds => Some ds
          | None => spec_first_alt rest s
          end
      | None => spec_first_alt rest s
      end
  end.

Fixpoint spec_search (s : string) : option string :=
  match spec_first_alt alternatives s with
  | Some ds => Some ds
  | None =>
      match s with
      | EmptyString => None
      | String _ t => spec_search t
      end
  end.

Definition spec_groupId (filename : string) : option string :=
  match spec_search filename with
  | Some ds => Some ("C" ++ ds)
  | None => None
  end.

End ClassifierSpec.

(* ------------------------------------------------------------------ *)
(** ** Statements about sheets and row objects *)

Module SheetSpec.
Section WithRuntime.
Context {rt : Runtime}.

(** The row holds at least one of the keywords, without regard to case. *)
Definition qualifies (keywords : list string) (r : Sheet.row) : Prop :=
  exists k, In k keywords /\
            includes (Sheet.rowStr r) (toLowerCase k) = true.

(** The text a cell gives to the joined row: none for a cell that is
    missing, [undefined] or [null]. *)
Definition cellText (c : Sheet.cell) : string :=
  match c with
  | Some (VBool b) => if b then "true" else "false"
  | Some (VNum n) => numToString n
  | Some (VStr s) => s
  | _ => ""
  end.

(** The lower-cased joined cells of a row: the texts of the cells with one
    space between each two, in lower case. *)
Definition loweredRow (r : Sheet.row) : string :=
  toLowerCase (String.concat " " (map cellText r)).

(** The lower-cased joined cells contain the lower-cased form of one of the
    keywords. *)
Definition holds_keyword (keywords : list string) (r : Sheet.row) : Prop :=
  exists k, In k keywords /\ includes (loweredRow r) (toLowerCase k) = true.

(** The lower-cased joined cells contain one of the keywords as it is
    written. *)
Definition holds_verbatim (keywords : list string) (r : Sheet.row) : bool :=
  existsb (fun k => includes (loweredRow r) k) keywords.

End WithRuntime.

(** Column [j] is the rightmost one named [h]. *)
Definition rightmost (headers : list (option string)) (h : string) (j : nat)
    : Prop :=
  nth_error headers j = Some (Some h) /\
  forall j', (j < j')%nat -> nth_error headers j' <> Some (Some h).




End SheetSpec.

(* ------------------------------------------------------------------ *)
(** ** Statements about column resolution *)

Module ColumnSpec.

(** [result] is the first key matched by the first pattern of [patterns]
    that matches a key at all, [fallback] when no pattern matches. *)
Fixpoint chosen_by_priority (patterns : list (string -> bool))
    (fallback : option string) (keys : list string) (result : option string)
    : Prop :=
  match patterns with
  | [] => result = fallback
  | p :: lower =>
      (exists k, find p keys = Some k /\ result = Some k) \/
      (find p keys = None /\ chosen_by_priority lower fallback keys result)
  end.

(** The count column in the specification's words: exactly "count", then
    "significant", then exactly "n", then "gene_count". *)
Definition spec_countKeyOf (keys : list string) : option string :=
  match find (test_exact_ci "count") keys with
  | Some k => Some k
  | None =>
      match find (test_ci ["significant"]) keys with
      | Some k => Some k
      | None =>
          match find (test_exact_ci "n") keys with
          | Some k => Some k
          | None => find (test_ci ["gene_count"]) keys
          end
      end
  end.

End ColumnSpec.

(* ------------------------------------------------------------------ *)
(** ** Statements about the summary and the downsampling *)

Module DgeSpec.

Section WithRuntime.
Context {rt : Runtime}.

(** Both numbers of the row parse. *)
Definition countable (fcKey fdrKey : option string) (row : JsObject.obj) : bool :=
  negb (isNaN (Dge.fcOf fcKey row) || isNaN (Dge.fdrOf fdrKey row)).












End WithRuntime.

(** The two relations between the counts. *)
Definition balanced (st : Dge.ComparisonStats) : Prop :=
  (Dge.sigUp st + Dge.sigDown st = Dge.sigTotal st)%nat /\
  (Dge.up st + Dge.down st <= Dge.total st)%nat.






Definition pick {A : Type} (l : list A) (i : nat) : list A :=
  match nth_error l i with
  | Some p => [p]
  | None => []
  end.

(** The elements at the positions [i], [i + step], ..., [n] of them at
    most. *)
Definition picks {A : Type} (l : list A) (step i n : nat) : list A :=
  flat_map (fun k => pick l (i + k * step)) (seq 0 n).

(** The elements at the positions 0, [step], 2 [step], ... *)
Definition strided {A : Type} (step : nat) (l : list A) : list A :=
  picks l step 0 (List.length l).

End DgeSpec.

(* ------------------------------------------------------------------ *)
(** ** A reference runtime

    An implementation of the built-ins on decimal numerals, read and
    printed exactly, with the logarithm cut after nine decimals.  It is
    used to run the model on examples. *)

Module Ref.

Local Open Scope Z_scope.

Definition digit_val (c : ascii) : Z := Z.of_nat (nat_of_ascii c) - 48.

(** The digits at the head of [s]: their value, their number, the rest. *)
Fixpoint read_digits (s : string) (acc : Z) (n : Z) : Z * Z * string :=
  match s with
  | EmptyString => (acc, n, EmptyString)
  | String c t =>
      if is_digit c then read_digits t (acc * 10 + digit_val c) (n + 1)
      else (acc, n, s)
  end.

Definition read_sign (s : string) : bool * string :=
  match s with
  | String c t =>
      if Ascii.eqb c "-" then (true, t)
      else if Ascii.eqb c "+" then (false, t)
      else (false, s)
  | EmptyString => (false, s)
  end.

Definition pow10 (e : Z) : Q :=
  if 0 <=? e then inject_Z (10 ^ e) else Qinv (inject_Z (10 ^ (- e))).

(** An exponent part, if any: its value and the rest. *)
Definition read_exponent (s : string) : Z * string :=
  match s with
  | String c t =>
      if Ascii.eqb c "e" || Ascii.eqb c "E" then
        let (negative, t') := read_sign t in
        let '(v, n, rest) := read_digits t' 0 0 in
        if n =? 0 then (0, s) else ((if negative then - v else v), rest)
      else (0, s)
  | EmptyString => (0, s)
  end.

(** The longest decimal literal at the head of [s], and the rest. *)
Definition read_decimal (s : string) : num * string :=
  let (negative, s1) := read_sign s in
  if startsWith s1 "Infinity" then
    ((if negative then NegInf else PosInf),
     String.substring 8 (String.length s1 - 8) s1)
  else
    let '(ip, n1, r1) := read_digits s1 0 0 in
    let '(fp, n2, r2) :=
      match r1 with
      | String c t => if Ascii.eqb c "." then read_digits t 0 0 else (0, 0, r1)
      | EmptyString => (0, 0, r1)
      end in
    if n1 + n2 =? 0 then (NaN, s)
    else
      let (e, r3) := read_exponent r2 in
      let q := Qred (inject_Z (ip * 10 ^ n2 + fp) * pow10 (e - n2)) in
      (Fin (if negative then Qopp q else q), r3).

Definition parseFloatS (s : string) : num := fst (read_decimal (trimStart s)).

Definition parseIntS (s : string) : num :=
  let (negative, s1) := read_sign (trimStart s) in
  let '(v, n, _) := read_digits s1 0 0 in
  if n =? 0 then NaN else Fin (inject_Z (if negative then - v else v)).

Definition toNumberS (s : string) : num :=
  match trim s with
  | EmptyString => zero
  | t =>
      match read_decimal t with
      | (n, EmptyString) => n
      | _ => NaN
      end
  end.

Definition show_nat (n : Z) : string :=
  DecimalString.NilZero.string_of_uint (N.to_uint (Z.to_N n)).

(** [t] with zeros in front, three digits in all. *)
Definition pad3 (t : string) : string :=
  match String.length t with
  | 0%nat => "000"
  | 1%nat => ("00" ++ t)%string
  | 2%nat => ("0" ++ t)%string
  | _ => t
  end.

(** The decimals of [r / d], [r < d], until the division ends or [fuel]
    digits are out. *)
Fixpoint decimals (fuel : nat) (r d : Z) : string :=
  match fuel with
  | O => EmptyString
  | S fuel' =>
      if r =? 0 then EmptyString
      else show_nat (r * 10 / d) ++ decimals fuel' (r * 10 mod d) d
  end.

Definition numToString (n : num) : string :=
  match n with
  | NaN => "NaN"
  | PosInf => "Infinity"
  | NegInf => "-Infinity"
  | Fin q =>
      let a := Z.abs (Qnum q) in
      let d := Z.pos (Qden q) in
      let frac := decimals 20 (a mod d) d in
      let sign := if Qnum q <? 0 then "-" else ""%string in
      let whole := show_nat (a / d) in
      (sign ++ whole ++
       (match frac with EmptyString => "" | _ => "." ++ frac end))%string
  end.

(** [n.toFixed(3)]: the nearest multiple of a thousandth, the larger one of
    two, with the sign in front. *)
Definition toFixed3 (n : num) : string :=
  match n with
  | NaN => "NaN"
  | PosInf => "Infinity"
  | NegInf => "-Infinity"
  | Fin q =>
      let a := Z.abs (Qnum q) in
      let d := Z.pos (Qden q) in
      let m := (2 * 1000 * a + d) / (2 * d) in
      let sign := if Qnum q <? 0 then "-" else ""%string in
      let whole := show_nat (m / 1000) in
      let thousandths := pad3 (show_nat (m mod 1000)) in
      (sign ++ whole ++ "." ++ thousandths)%string
  end.

Definition scale : Z := 10 ^ 12.

(** The binary digits of [log10 (y / scale)] for [scale <= y < 10 * scale],
    by repeated squaring; the result counts units of [2 ^ - fuel]. *)
Fixpoint log_bits (fuel : nat) (y : Z) (acc : Z) : Z :=
  match fuel with
  | O => acc
  | S fuel' =>
      let y2 := y * y / scale in
      if 10 * scale <=? y2 then log_bits fuel' (y2 / 10) (2 * acc + 1)
      else log_bits fuel' y2 (2 * acc)
  end.

(** The decimal exponent [e] with [10 ^ e <= a / d < 10 ^ (e + 1)]. *)
Fixpoint exponent_up (fuel : nat) (a d e : Z) : Z :=
  match fuel with
  | O => e
  | S fuel' => if 10 * d <=? a then exponent_up fuel' a (10 * d) (e + 1) else e
  end.

Fixpoint exponent_down (fuel : nat) (a d e : Z) : Z * Z :=
  match fuel with
  | O => (a, e)
  | S fuel' => if a <? d then exponent_down fuel' (10 * a) d (e - 1) else (a, e)
  end.

Definition log10 (n : num) : num :=
  match n with
  | NaN | NegInf => NaN
  | PosInf => PosInf
  | Fin q =>
      let a := Qnum q in
      let d := Z.pos (Qden q) in
      if a <? 0 then NaN
      else if a =? 0 then NegInf
      else
        let (a1, e1) := exponent_down 400 a d 0 in
        let e := exponent_up 400 a1 d e1 in
        let y := if 0 <=? e then a * scale / (d * 10 ^ e)
                 else a * 10 ^ (- e) * scale / d in
        let bits := log_bits 30 y 0 in
        Fin (Qred (inject_Z e + (bits # 1073741824)))
  end.

(** The value of the digits at the head of both strings decides, then the
    characters without regard to case. *)
Fixpoint natural_compare (fuel : nat) (a b : string) : Z :=
  match fuel with
  | O => 0
  | S fuel' =>
      match a, b with
      | EmptyString, EmptyString => 0
      | EmptyString, _ => -1
      | _, EmptyString => 1
      | String x a', String y b' =>
          if is_digit x && is_digit y then
            let '(va, _, ra) := read_digits a 0 0 in
            let '(vb, _, rb) := read_digits b 0 0 in
            if va <? vb then -1 else if vb <? va then 1
            else natural_compare fuel' ra rb
          else
            let cx := Z.of_nat (nat_of_ascii (lower_char x)) in
            let cy := Z.of_nat (nat_of_ascii (lower_char y)) in
            if cx <? cy then -1 else if cy <? cx then 1
            else natural_compare fuel' a' b'
      end
  end.

Definition localeCompareNumeric (a b : string) : Z :=
  natural_compare (String.length a + String.length b) a b.

Definition runtime : Runtime :=
  Build_Runtime numToString parseFloatS parseIntS toNumberS toFixed3 log10
                localeCompareNumeric.

End Ref.

(* ------------------------------------------------------------------ *)
(** ** Example sheets *)

Module Examples.

Definition text (s : string) : Sheet.cell := Some (VStr s).




(** A significant and a non-significant point. *)
Definition strong_point : Dge.point :=
  Dge.mkPoint (Fin 2) (Fin 3) (Fin 2) true "g1".
Definition weak_point : Dge.point :=
  Dge.mkPoint (Fin (1 # 2)) (Fin (1 # 10)) (Fin (1 # 2)) false "g2".

(** [n] significant points, the y of point [i] being [i mod 5]. *)
Definition many_points (n : nat) : list Dge.point :=
  map (fun i => Dge.mkPoint (Fin 2) (Fin (inject_Z (Z.of_nat (i mod 5))))
                            (Fin 2) true (Ref.show_nat (Z.of_nat i)))
      (seq 0 n).

(** [n] non-significant points. *)
Definition dull_points (n : nat) : list Dge.point :=
  map (fun i => Dge.mkPoint (Fin 0) (Fin 0) (Fin 0) false (Ref.show_nat (Z.of_nat i)))
      (seq 0 n).

(** A sheet with a title and a note above its header row. *)
Definition titled_grid : Sheet.rawgrid :=
  [[text "Differential expression"];
   [text "run 7"];
   [text "Gene"; text "logFC"; text "FDR"];
   [text "g1"; text "2.5"; text "0.001"]].

(** A sheet with a title above its header row, for a keyword in capitals. *)
Definition capitals_grid : Sheet.rawgrid :=
  [[text "Results"]; [text "gene"; text "FDR"]; [text "g1"; text "0.001"]].







End Examples.

(* ------------------------------------------------------------------ *)
(** ** Statements about the upload handler *)

Module UploadSpec.

(** The statuses other than those of [fileId]. *)
Definition others (fileId : string) (l : list Upload.FileUploadStatus)
    : list Upload.FileUploadStatus :=
  filter (fun e => negb (String.eqb (Upload.fs_id e) fileId)) l.

(** The [comp] of the row is text. *)
Definition textual (row : Upload.SummaryRow) : Prop :=
  exists s, Upload.row_comp row = VStr s.

Section WithRuntime.
Context {rt : Runtime}.

(** The order of the table: [comp] against [comp], the digits in them read
    as numbers. *)
Definition byText (a b : Upload.SummaryRow) : num :=
  Fin (inject_Z (localeCompareNumeric (JsValue.toString (Upload.row_comp a))
                                      (JsValue.toString (Upload.row_comp b)))).

End WithRuntime.

End UploadSpec.

(* ------------------------------------------------------------------ *)
(** ** Example uploads *)

Module UploadExamples.
Import Upload.

(** [parseGTF] on an annotation file without exon lines: the summary with
    count zero. *)
Definition no_exons (file : File) : outcome TranscriptStat :=
  Returned (mkTranscriptStat (file_name file) zero zero zero zero).

(** The state the application starts in. *)
Definition initialApp : AppState :=
  mkApp [] (mkData initialProcessed (Fin 3096) (Fin 653846) None).

Definition kegg_file : File :=
  mkFile "kegg_results.xlsx" (Returned "")
         (Returned (Some [[Examples.text "Pathway"; Examples.text "Count"];
                          [Examples.text "p53 signaling"; Examples.text "12"]])).

Definition gtf_file : File :=
  mkFile "transcripts.gtf" (Returned "") (Returned None).

End UploadExamples.

(* ------------------------------------------------------------------ *)
(** ** [parseGTF] ([src/components/StepWizard.tsx], lines 212-272)

    The lengths are summed in an object keyed by transcript id.  The object
    is a plain one: read under a name it does not own, it answers with the
    member of [Object.prototype] of that name, if there is one.  What such a
    member gives when a number is added to it, and whether a call with a
    given number of arguments is accepted ([Math.max(...lengths)] passes one
    argument for each transcript), is the engine's affair, held in the
    class [Engine].  So is the rounding of arithmetic: a sum, a difference
    or a quotient of two numbers is the double nearest to the exact result,
    which [double] gives. *)

Class Engine : Type := {
  memberText : string -> string;  (* String(({})[name]), [name] a member's *)
  callAccepts : nat -> bool;      (* a call with that many arguments is accepted *)
  callRefused : string;           (* the message of the error thrown otherwise *)
  double : Q -> num               (* the double nearest to an exact result,
                                     an infinity beyond the largest *)
}.

Module Gtf.
Import Upload.

Section Arithmetic.
Context {en : Engine}.

(** [a + b] on numbers *)
Definition add (a b : num) : num :=
  match a, b with
  | NaN, _ | _, NaN => NaN
  | PosInf, NegInf | NegInf, PosInf => NaN
  | PosInf, _ | _, PosInf => PosInf
  | NegInf, _ | _, NegInf => NegInf
  | Fin x, Fin y => double (x + y)
  end.

(** [a - b] on numbers *)
Definition minus (a b : num) : num :=
  match a, b with
  | NaN, _ | _, NaN => NaN
  | PosInf, PosInf | NegInf, NegInf => NaN
  | PosInf, _ | _, NegInf => PosInf
  | NegInf, _ | _, PosInf => NegInf
  | Fin x, Fin y => double (x - y)
  end.

(** [a / b] on numbers *)
Definition div (a b : num) : num :=
  match a, b with
  | NaN, _ | _, NaN => NaN
  | Fin _, PosInf | Fin _, NegInf => zero
  | PosInf, PosInf | PosInf, NegInf | NegInf, PosInf | NegInf, NegInf => NaN
  | PosInf, Fin y => if Qltb y 0 then NegInf else PosInf
  | NegInf, Fin y => if Qltb y 0 then PosInf else NegInf
  | Fin x, Fin y =>
      if Qeq_bool y 0 then
        (if Qltb 0 x then PosInf else if Qltb x 0 then NegInf else NaN)
      else double (x / y)
  end.

End Arithmetic.

(** [Math.round(a)]: the nearest integer, the larger one of two. *)
Definition round (a : num) : num :=
  match a with
  | Fin x => Fin (inject_Z (Qfloor (x + (1 # 2))))
  | _ => a
  end.

(** [Math.max(a, b)] *)
Definition max (a b : num) : num :=
  if isNaN a || isNaN b then NaN else if lt a b then b else a.

(** [s.split(sep)], [sep] one character *)
Fixpoint split (sep : ascii) (s : string) : list string :=
  match s with
  | EmptyString => [EmptyString]
  | String c t =>
      if Ascii.eqb c sep then EmptyString :: split sep t
      else
        match split sep t with
        | p :: ps => String c p :: ps
        | [] => [String c EmptyString]
        end
  end.

Definition quote : ascii := "034"%char.

(** [p] read at the head of [s]; the rest of [s]. *)
Fixpoint strip (p s : string) : option string :=
  match p, s with
  | EmptyString, _ => Some s
  | String _ _, EmptyString => None
  | String a p', String b s' => if Ascii.eqb a b then strip p' s' else None
  end.

(** The characters of [s] before the first quote, and the rest. *)
Fixpoint until_quote (s : string) : string * string :=
  match s with
  | EmptyString => (EmptyString, EmptyString)
  | String c t =>
      if Ascii.eqb c quote then (EmptyString, s)
      else let (a, b) := until_quote t in (String c a, b)
  end.

(** [/transcript_id\s+Q([^Q]+)Q;/], Q standing for the double quote, at the
    head of [s]; the id captured.  The white space holds no quote and the
    id none either, so that the greedy reading of the two repetitions is
    the only one. *)
Definition id_here (s : string) : option string :=
  match strip "transcript_id" s with
  | Some (String c t) =>
      if is_ws c then
        match skip_ws t with
        | String q u =>
            if Ascii.eqb q quote then
              let (id, rest) := until_quote u in
              match id with
              | EmptyString => None
              | _ => if startsWith rest (String quote ";") then Some id else None
              end
            else None
        | EmptyString => None
        end
      else None
  | _ => None
  end.

(** [attributes.match(...)]: the leftmost position that matches. *)
Fixpoint match_id (s : string) : option string :=
  match id_here s with
  | Some id => Some id
  | None =>
      match s with
      | EmptyString => None
      | String _ t => match_id t
      end
  end.

(** The names [Object.prototype] has a member for. *)
Definition inherited : list string :=
  ["constructor"; "__defineGetter__"; "__defineSetter__"; "hasOwnProperty";
   "__lookupGetter__"; "__lookupSetter__"; "isPrototypeOf";
   "propertyIsEnumerable"; "toString"; "valueOf"; "__proto__";
   "toLocaleString"].

Definition is_inherited (k : string) : bool := existsb (String.eqb k) inherited.

(** The summary, fields [name], [count], [totalLen], [meanLen], [maxLen];
    [totalLen] is text when one of the lengths is. *)
Record Summary : Set := mkSummary {
  gs_name : string; gs_count : num; gs_totalLen : value;
  gs_meanLen : num; gs_maxLen : num
}.

Section WithRuntime.
Context {rt : Runtime} {en : Engine}.

(** [a + b] on values: the concatenation when one of them is text. *)
Definition plus (a b : value) : value :=
  match a, b with
  | VStr s, _ => VStr (s ++ JsValue.toString b)
  | _, VStr s => VStr (JsValue.toString a ++ s)
  | _, _ => VNum (add (JsValue.toNumber a) (JsValue.toNumber b))
  end.

(** The body of the loop over the lines down to the match: the transcript
    id and the length of the exon that a counted line stands for. *)
Definition exonOf (line : string) : option (string * num) :=
  if String.eqb line "" || startsWith line "#" then None
  else
    let parts := split "009" line in
    if (List.length parts <? 9)%nat then None
    else if negb (String.eqb (nth 2 parts "") "exon") then None
    else
      let start := parseIntS (nth 3 parts "") in
      let end_ := parseIntS (nth 4 parts "") in
      match match_id (nth 8 parts "") with
      | Some transcriptId => Some (transcriptId, add (minus end_ start) (Fin 1))
      | None => None
      end.

(** [!transcriptLengths[k]] *)
Definition unset (k : string) (o : JsObject.obj) : bool :=
  if JsObject.has k o then negb (JsValue.truthy (JsObject.get k o))
  else negb (is_inherited k).

(** [transcriptLengths[k] + length] *)
Definition raised (k : string) (length : num) (o : JsObject.obj) : value :=
  if JsObject.has k o then plus (JsObject.get k o) (VNum length)
  else if is_inherited k then VStr (memberText k ++ numToString length)
  else VNum NaN.

(** [if (!transcriptLengths[k]) transcriptLengths[k] = 0;
     transcriptLengths[k] += length;] *)
Definition bump (o : JsObject.obj) (exon : string * num) : JsObject.obj :=
  let (k, length) := exon in
  let o := if unset k o then JsObject.set k (VNum zero) o else o in
  JsObject.set k (raised k length o) o.

(** The loop over the lines. *)
Definition tally (lines : list string) : JsObject.obj :=
  fold_left (fun o line =>
               match exonOf line with
               | Some exon => bump o exon
               | None => o
               end)
            lines JsObject.empty.

(** [Object.values(o)] *)
Definition values (o : JsObject.obj) : list value :=
  map (fun k => JsObject.get k o) (JsObject.keys o).

(** The function from [lines] on. *)
Definition summaryOf (name : string) (lines : list string) : outcome Summary :=
  let lengths := values (tally lines) in
  let count := List.length lengths in
  if (count =? 0)%nat then
    Returned (mkSummary name zero (VNum zero) zero zero)
  else
    let totalLen := fold_left plus lengths (VNum zero) in
    if callAccepts count then
      let maxLen := fold_left max (map JsValue.toNumber lengths) NegInf in
      let meanLen := round (div (JsValue.toNumber totalLen) (of_nat count)) in
      Returned (mkSummary name (of_nat count) totalLen meanLen maxLen)
    else Threw callRefused.

Definition parseGTF (file : File) : outcome Summary :=
  match file_text file with
  | Returned text => summaryOf (file_name file) (split "010" text)
  | Threw m => Threw m
  end.

End WithRuntime.
End Gtf.

(* ------------------------------------------------------------------ *)
(** ** The list of files, the folders and the steps
       ([src/unnamed/part_000], lines 389-443 and 835-836;
        [src/components/StepWizard.tsx], lines 10-38) *)

Module App.
Import Upload.

(** [removeFile]: [prev.filter(s => s.id !== id)] *)
Definition removeFile (id : string) (st : AppState) : AppState :=
  mkApp (filter (fun s => negb (String.eqb (fs_id s) id)) (uploadStatus st))
        (data st).

(** *** [getDeliverablesStructure] *)

(** [Record<string, string[]>] with its keys in insertion order. *)
Definition Categories : Set := list (string * list string).

Definition categories0 : Categories :=
  [("01_Raw_Data", []); ("02_Reference_Genome", []);
   ("03_Mapping_Assembly", []); ("04_Quantification", []);
   ("05_Differential_Expression", []); ("06_Functional_Analysis", []);
   ("07_Project_Reports", []); ("08_Supplementary", [])].

(** [categories[cat]] *)
Fixpoint filesOf (cat : string) (categories : Categories) : list string :=
  match categories with
  | [] => []
  | (k, files) :: rest => if String.eqb cat k then files else filesOf cat rest
  end.

(** [categories[cat].push(name)], [cat] one of the keys *)
Fixpoint push (cat name : string) (categories : Categories) : Categories :=
  match categories with
  | [] => []
  | (k, files) :: rest =>
      if String.eqb cat k then (k, (files ++ [name])%list) :: rest
      else (k, files) :: push cat name rest
  end.

(** The chain of conditions in the body of [allFiles.forEach]: the key
    pushed to. *)
Definition categoryOf (f : FileUploadStatus) : string :=
  let low := toLowerCase (fs_name f) in
  let type := fs_type f in
  if includes low "fastq" || includes low "fq" || includes low "md5"
  then "01_Raw_Data"
  else if includes low "genome" || includes low "gtf" || includes low "gff" ||
          includes low "fasta" || endsWith low ".fa"
  then "02_Reference_Genome"
  else if FileKind_eqb type mapping || includes low "bam" || includes low "sam" ||
          includes low "align" || includes low "stringtie"
  then "03_Mapping_Assembly"
  else if includes low "count" || includes low "tpm" || includes low "fpkm" ||
          includes low "matrix"
  then "04_Quantification"
  else if FileKind_eqb type comparison_dge || FileKind_eqb type dge_summary ||
          includes low "dge" || includes low "volcano" || includes low "heatmap"
  then "05_Differential_Expression"
  else if FileKind_eqb type comparison_go || FileKind_eqb type comparison_kegg ||
          includes low "go_" || includes low "kegg"
  then "06_Functional_Analysis"
  else if FileKind_eqb type stats || includes low "report" ||
          includes low "multiqc"
  then "07_Project_Reports"
  else "08_Supplementary".

Definition getDeliverablesStructure (uploadStatus : list FileUploadStatus)
    : Categories :=
  fold_left (fun categories f => push (categoryOf f) (fs_name f) categories)
            uploadStatus categories0.

(** *** [generateTreeFromUploads]

    The characters that draw the tree are held as the bytes of their
    UTF-8 form. *)

Definition DEFAULT_TREE : string := "Deliverables
.
├── 01_Raw_Data
│   ├── Sample_R1.fastq.gz
│   └── Sample_R2.fastq.gz
├── 02_Reference_Genome
│   ├── genome.fa
│   └── genes.gtf
├── 03_Mapping_Assembly
│   ├── mappings.bam
│   └── transcripts.gtf
├── 04_Quantification
│   ├── gene_counts.csv
│   └── tpm_matrix.csv
├── 05_Differential_Expression
│   ├── Comparison1_DGE.xlsx
│   ├── Comparison1_Volcano.pdf
│   └── Comparison1_Heatmap.png
├── 06_Functional_Analysis
│   ├── GO_Enrichment.xlsx
│   └── KEGG_Pathways.xlsx
└── 07_Project_Reports
    └── multiqc_report.html".

Definition newline : string := String "010" "".

(** The order of [sort()] without a comparator: by the codes of the
    characters. *)
Definition byCode (a b : string) : num :=
  match String.compare a b with
  | Lt => Fin (-1)
  | Eq => Fin 0
  | Gt => Fin 1
  end.

(** [files.forEach((file, fIdx) => ...)] from [fIdx] on *)
Fixpoint fileLines (isLastFolder : bool) (length : nat) (fIdx : nat)
    (files : list string) (tree : string) : string :=
  match files with
  | [] => tree
  | file :: rest =>
      let isLastFile := (Z.of_nat fIdx =? Z.of_nat length - 1)%Z in
      let filePrefix := if isLastFolder then "    " else "│   " in
      let branch := if isLastFile then "└──" else "├──" in
      fileLines isLastFolder length (S fIdx) rest
                (tree ++ newline ++ filePrefix ++ branch ++ " " ++ file)
  end.

(** [activeCategories.forEach((cat, idx) => ...)] from [idx] on *)
Fixpoint folderLines (categories : Categories) (length : nat) (idx : nat)
    (activeCategories : list string) (tree : string) : string :=
  match activeCategories with
  | [] => tree
  | cat :: rest =>
      let isLastFolder := (Z.of_nat idx =? Z.of_nat length - 1)%Z in
      let prefix := if isLastFolder then "└──" else "├──" in
      let tree := tree ++ newline ++ prefix ++ " " ++ cat in
      let files := JsSort.sort byCode (filesOf cat categories) in
      folderLines categories length (S idx) rest
                  (fileLines isLastFolder (List.length files) 0 files tree)
  end.

(** The tree handed to [setDeliverablesTree]; no key of the folders is an
    array index, so that [Object.keys] lists them as they were put in. *)
Definition generateTreeFromUploads (uploadStatus : list FileUploadStatus)
    : string :=
  match uploadStatus with
  | [] => DEFAULT_TREE
  | _ =>
      let categories := getDeliverablesStructure uploadStatus in
      let sortedKeys := JsSort.sort byCode (map fst categories) in
      let activeCategories :=
        filter (fun k => (0 <? List.length (filesOf k categories))%nat)
               sortedKeys in
      folderLines categories (List.length activeCategories) 0
                  activeCategories ("Deliverables" ++ newline ++ ".")
  end.

(** *** [nextStep], [prevStep] and the marks of the wizard *)

(** [Math.min(s + 1, 4)] *)
Definition nextStep (s : Z) : Z := Z.min (s + 1) 4.

(** [Math.max(s - 1, 0)] *)
Definition prevStep (s : Z) : Z := Z.max (s - 1) 0.

Definition stepLabels : list string :=
  ["Metadata"; "Key Stats"; "Data Upload"; "Deliverables"; "Generate"].

(** How a circle of the wizard is drawn: [isCompleted], else [isCurrent],
    else neither. *)
Inductive Mark : Set := completed | current | upcoming.

Definition markOf (currentStep index : Z) : Mark :=
  if (index <? currentStep)%Z then completed
  else if (index =? currentStep)%Z then current
  else upcoming.

(** [steps.map((label, index) => ...)] from [index] on *)
Fixpoint marks (currentStep index : Z) (steps : list string)
    : list (string * Mark) :=
  match steps with
  | [] => []
  | label :: rest =>
      (label, markOf currentStep index) :: marks currentStep (index + 1) rest
  end.

Definition StepWizard (currentStep : Z) (steps : list string)
    : list (string * Mark) :=
  marks currentStep 0 steps.

End App.

(* ------------------------------------------------------------------ *)
(** ** Statements about the annotation summary *)

Module GtfSpec.

Section WithRuntime.
Context {rt : Runtime} {en : Engine}.

(** The line is passed over before its coordinates are read: it is empty,
    a comment, has fewer than nine fields, or is no exon. *)
Definition skipped (line : string) : bool :=
  String.eqb line "" || startsWith line "#" ||
  (List.length (Gtf.split "009" line) <? 9)%nat ||
  negb (String.eqb (nth 2 (Gtf.split "009" line) "") "exon").

(** The exons the lines stand for, each with its transcript id and its
    length. *)
Definition exons (lines : list string) : list (string * num) :=
  flat_map (fun line => match Gtf.exonOf line with
                        | Some exon => [exon]
                        | None => []
                        end) lines.

(** The whole numbers up to 2^53 are doubles: the engine's arithmetic gives
    them as they are. *)
Definition whole_numbers_exact : Prop :=
  forall z : Z, (Z.abs z <= 9007199254740992)%Z ->
                double (inject_Z z) = Fin (inject_Z z).

End WithRuntime.

(** An exon whose length is the whole number [snd e], as the parser holds
    it. *)
Definition exonOfLength (e : string * Z) : string * num :=
  (fst e, Fin (inject_Z (snd e))).

(** The id names no member of [Object.prototype] and the length is
    positive. *)
Definition regular (e : string * Z) : Prop :=
  Gtf.is_inherited (fst e) = false /\ (0 < snd e)%Z.

(** The sum of the lengths of the exons of transcript [k]. *)
Fixpoint lengthOf (k : string) (es : list (string * Z)) : Z :=
  match es with
  | [] => 0
  | (k', n) :: rest =>
      if String.eqb k k' then n + lengthOf k rest else lengthOf k rest
  end.

(** The sum of the lengths of all exons. *)
Fixpoint totalOf (es : list (string * Z)) : Z :=
  match es with
  | [] => 0
  | (_, n) :: rest => n + totalOf rest
  end.

(** The transcript ids, each once. *)
Definition transcripts (es : list (string * Z)) : list string :=
  nodup string_dec (map fst es).

Definition zsum (l : list Z) : Z := fold_right Z.add 0%Z l.

(** The whole number a length of the table stands for. *)
Definition amount (v : value) : Z :=
  match v with VNum (Fin q) => Qfloor q | _ => 0%Z end.

(** The table [o] holds the lengths of the transcripts of the exons
    [done]. *)
Definition tallied (o : JsObject.obj) (done : list (string * Z)) : Prop :=
  NoDup (map fst o) /\
  (forall k, In k (map fst o) <-> In k (map fst done)) /\
  (forall k, In k (map fst o) ->
     exists x, JsObject.get k o = VNum (Fin (inject_Z x)) /\
               (0 < x)%Z /\ x = lengthOf k done) /\
  zsum (map (fun e => amount (snd e)) o) = totalOf done.

End GtfSpec.

(* ------------------------------------------------------------------ *)
(** ** Statements about the folders and the tree *)

Module TreeSpec.

(** The number of line breaks in [s]: its lines are one more. *)
Fixpoint lineBreaks (s : string) : nat :=
  match s with
  | EmptyString => 0
  | String c t => (if Ascii.eqb c "010" then 1 else 0) + lineBreaks t
  end.

(** The folders that hold a file. *)
Definition activeFolders (categories : App.Categories) : list string :=
  filter (fun k => (0 <? List.length (App.filesOf k categories))%nat)
         (map fst App.categories0).

End TreeSpec.

(* ------------------------------------------------------------------ *)
(** ** Statements about the steps of the wizard *)

Module WizardSpec.

(** A press of one of the two buttons of the footer. *)
Inductive Click : Set := Next | Back.

Definition press (s : Z) (c : Click) : Z :=
  match c with
  | Next => App.nextStep s
  | Back => App.prevStep s
  end.

End WizardSpec.

(* ------------------------------------------------------------------ *)
(** ** More examples *)

Module MoreExamples.
Import Upload Examples.

(** [a / (d 2 ^ e)] as a fraction. *)
Definition scaled (a d e : Z) : Z * Z :=
  if (0 <=? e)%Z then (a, d * 2 ^ e)%Z else (a * 2 ^ (- e), d)%Z.

(** The integer nearest to [n / d], the even one of two. *)
Definition half_even (n d : Z) : Z :=
  let q := (n / d)%Z in
  let r := (n mod d)%Z in
  if (2 * r <? d)%Z then q
  else if (d <? 2 * r)%Z then (q + 1)%Z
  else if Z.even q then q else (q + 1)%Z.

(** The double nearest to [q].  The whole numbers up to 2^53 are doubles;
    of another number 53 binary digits are kept, from the exponent -1074
    up, and what reaches 2^1024 is infinite. *)
Definition nearest (q : Q) : num :=
  if (Qden q =? 1)%positive && (Z.abs (Qnum q) <=? 9007199254740992)%Z
  then Fin q
  else
    let a := Z.abs (Qnum q) in
    let d := Z.pos (Qden q) in
    let e1 := (Z.log2 a - Z.log2 d - 52)%Z in
    let e2 := let (n, dd) := scaled a d e1 in
              if (n <? dd * 2 ^ 52)%Z then (e1 - 1)%Z else e1 in
    let e := Z.max e2 (-1074) in
    let m := let (n, dd) := scaled a d e in half_even n dd in
    let v := if (0 <=? e)%Z then inject_Z (m * 2 ^ e)
             else Qred (m # Z.to_pos (2 ^ (- e))) in
    if Qle_bool (inject_Z (2 ^ 1024)) v
    then (if (Qnum q <? 0)%Z then NegInf else PosInf)
    else Fin (if (Qnum q <? 0)%Z then Qopp v else v).

(** An engine: the text of a member of [Object.prototype], a bound on the
    arguments of a call, and the rounding of arithmetic. *)
Definition engine : Engine :=
  Build_Engine
    (fun k => if String.eqb k "__proto__" then "[object Object]"
              else if String.eqb k "constructor"
                   then "function Object() { [native code] }"
                   else "function " ++ k ++ "() { [native code] }")
    (fun n => (N.of_nat n <=? 65535)%N)
    "Maximum call stack size exceeded"
    nearest.

Definition tab : string := String "009" "".

Definition quoted (s : string) : string :=
  String Gtf.quote (s ++ String Gtf.quote "").

(** A line of an annotation: a feature of transcript [id] from [first] to
    [last]. *)
Definition gtf_line (feature id first last : string) : string :=
  "chr1" ++ tab ++ "StringTie" ++ tab ++ feature ++ tab ++ first ++ tab ++
  last ++ tab ++ "1000" ++ tab ++ "+" ++ tab ++ "." ++ tab ++
  "gene_id " ++ quoted "G1" ++ "; transcript_id " ++ quoted id ++ ";".

(** Two transcripts, of two exons and of one, below a comment. *)
Definition gtf_lines : list string :=
  ["# StringTie version 2.2.1";
   gtf_line "transcript" "T1" "100" "349";
   gtf_line "exon" "T1" "100" "199";
   gtf_line "exon" "T1" "300" "349";
   gtf_line "transcript" "T2" "1" "10";
   gtf_line "exon" "T2" "1" "10";
   ""].

(** A sheet of three columns and two rows of data. *)
Definition two_rows : Sheet.rawgrid :=
  [[text "gene"; text "logFC"; text "FDR"];
   [text "g1"; text "2.5"; text "0.001"];
   [text "g2"; text "-0.5"; text "0.2"]].

Definition go_file : File :=
  mkFile "C1_GO_enrichment.xlsx" (Returned "")
         (Returned (Some [[text "Term"; text "Count"; text "p.adjust"];
                          [text "apoptosis"; text "12"; text "0.01"]])).

(** An enrichment file that cannot be read. *)
Definition broken_file : File :=
  mkFile "C2_GO_enrichment.xlsx" (Returned "") (Threw "Unsupported file").

Definition dge_file : File :=
  mkFile "C1_DGE.xlsx" (Returned "") (Returned (Some two_rows)).

Definition summary_file : File :=
  mkFile "DGE_summary.xlsx" (Returned "")
         (Returned (Some [[text "Comparison"; text "Description"; text "Total"];
                          [text "C1"; text "Drug vs Control"; text "100"]])).

(** A comparison as a summary row creates it. *)
Definition comparison1 : ComparisonData :=
  mkComparison "C1" "Comparison 1" (VStr "Test vs Control") (Fin 7) None
               [] [] [] [].

Definition with_comparison1 : ProcessedData :=
  mkProcessed [] [] [] [] [("C1", comparison1)].

(** Data whose summary table has one row, of another comparison. *)
Definition with_summary_row : ProcessedData :=
  mkProcessed [] [] []
    [mkRow (VStr "C2") (VStr "B vs A") (Fin 10) zero zero zero zero (Fin 1)]
    [].

(** A file of a type the classifier does not know. *)
Definition notes_file : File :=
  mkFile "notes.docx" (Returned "") (Returned None).

(** The statuses of three files. *)
Definition three_files : list FileUploadStatus :=
  [mkStatus "f1" "b_R1.fastq.gz" deliverable_only None success None;
   mkStatus "f2" "C1_DGE.xlsx" comparison_dge (Some "C1") success None;
   mkStatus "f3" "a_R1.fastq.gz" deliverable_only None success None].

End MoreExamples.

(* ================================================================== *)
(** * Properties *)

Import ClassifierSpec.

(** ** The file classifier *)

Section ClassifierFacts.

Lemma detectFileType_after_earlier (filename : string) :
  classified_earlier (toLowerCase filename) = false ->
  detectFileType filename =
    let lower := toLowerCase filename in
    if rule_dge_summary lower then dge_summary
    else if rule_go lower then comparison_go
    else if rule_kegg lower then comparison_kegg
    else if rule_dge lower then comparison_dge
    else if rule_id_fallback filename lower then comparison_dge
    else if rule_tabular lower then deliverable_only
    else unknown.
Proof.
  unfold classified_earlier, detectFileType. cbv zeta.
  destruct (rule_binary (toLowerCase filename)); [discriminate |].
  destruct (rule_template (toLowerCase filename)); [discriminate |].
  destruct (rule_gtf (toLowerCase filename)); [discriminate |].
  destruct (rule_mapping (toLowerCase filename)); [discriminate |].
  destruct (rule_stats (toLowerCase filename)); [discriminate |].
  reflexivity.
Qed.

(** C3, as the code has it: below the earlier rules the classifier answers
    [dge_summary] exactly when the lower-cased name contains "summary",
    "overview" or "all" together with "dge", "diff" or "deg". *)
Theorem C3_summary_rule (filename : string) :
  classified_earlier (toLowerCase filename) = false ->
  (detectFileType filename = dge_summary <->
   (includes (toLowerCase filename) "summary" ||
    includes (toLowerCase filename) "overview" ||
    includes (toLowerCase filename) "all") &&
   (includes (toLowerCase filename) "dge" ||
    includes (toLowerCase filename) "diff" ||
    includes (toLowerCase filename) "deg") = true).
Proof.
  intro H. rewrite (detectFileType_after_earlier _ H). cbv zeta.
  fold (rule_dge_summary (toLowerCase filename)).
  destruct (rule_dge_summary (toLowerCase filename)).
  - tauto.
  - split; [| discriminate].
    repeat match goal with
           | |- context [if ?b then _ else _] => destruct b
           end; discriminate.
Qed.

Lemma C3_summary_rule_witness :
  classified_earlier (toLowerCase "all_dge.xlsx") = false /\
  (detectFileType "all_dge.xlsx" = dge_summary <->
   (includes (toLowerCase "all_dge.xlsx") "summary" ||
    includes (toLowerCase "all_dge.xlsx") "overview" ||
    includes (toLowerCase "all_dge.xlsx") "all") &&
   (includes (toLowerCase "all_dge.xlsx") "dge" ||
    includes (toLowerCase "all_dge.xlsx") "diff" ||
    includes (toLowerCase "all_dge.xlsx") "deg") = true).
Proof.
  split; [reflexivity | apply (C3_summary_rule "all_dge.xlsx"); reflexivity].
Defined.

(** C3 as stated fails on "all_dge.xlsx": no earlier rule fires, the name
    has neither "summary" nor "overview", and the answer is [dge_summary]. *)
Lemma C3_counterexample :
  classified_earlier (toLowerCase "all_dge.xlsx") = false /\
  spec_summary_rule (toLowerCase "all_dge.xlsx") = false /\
  detectFileType "all_dge.xlsx" = dge_summary.
Proof. repeat split. Qed.

End ClassifierFacts.

(** ** The comparison id *)

Section ComparisonIdFacts.

Lemma char_classes (c : ascii) :
  (is_digit c = true -> is_ws c = false /\ is_sep c = false) /\
  (is_sep c = true -> is_ws c = false) /\
  (tail_start c = true -> is_alpha (lower_char c) = false).
Proof.
  destruct c as [[] [] [] [] [] [] [] []]; vm_compute;
    repeat split; intros; congruence.
Qed.

Lemma toLowerCase_app (a b : string) :
  toLowerCase (a ++ b) = toLowerCase a ++ toLowerCase b.
Proof. induction a; simpl; [reflexivity | now rewrite IHa]. Qed.

Lemma append_assoc (a b c : string) : (a ++ b) ++ c = a ++ (b ++ c).
Proof. induction a; simpl; [reflexivity | now rewrite IHa]. Qed.

Lemma append_nil_r (a : string) : a ++ "" = a.
Proof. induction a; simpl; [reflexivity | now rewrite IHa]. Qed.

Lemma append_length (a b : string) :
  String.length (a ++ b) = (String.length a + String.length b)%nat.
Proof. induction a; simpl; [reflexivity | now rewrite IHa]. Qed.

Lemma strip_ci_sound (kw s t : string) :
  strip_ci kw s = Some t ->
  exists kw', s = kw' ++ t /\ toLowerCase kw' = toLowerCase kw.
Proof.
  revert s. induction kw as [| a kw IH]; intros s H.
  - exists "". simpl in H. inversion H. now split.
  - destruct s as [| b s]; simpl in H; [discriminate |].
    destruct (Ascii.eqb_spec (lower_char a) (lower_char b)) as [E |]; [| discriminate].
    destruct (IH _ H) as (kw' & -> & E').
    exists (String b kw'). simpl. now rewrite E', E.
Qed.

Lemma strip_ci_complete (kw kw' t : string) :
  toLowerCase kw' = toLowerCase kw -> strip_ci kw (kw' ++ t) = Some t.
Proof.
  revert kw'. induction kw as [| a kw IH]; intros [| b kw'] H; simpl in *;
    try discriminate; [reflexivity |].
  injection H as E E'. rewrite E, Ascii.eqb_refl. now apply IH.
Qed.

Lemma skip_ws_app (ws u : string) :
  all_chars is_ws ws = true -> skip_ws (ws ++ u) = skip_ws u.
Proof.
  induction ws as [| c ws IH]; simpl; [reflexivity |].
  intro H. apply andb_true_iff in H as [Hc H]. rewrite Hc. now apply IH.
Qed.

Lemma skip_ws_split (s : string) :
  exists ws, s = ws ++ skip_ws s /\ all_chars is_ws ws = true.
Proof.
  induction s as [| c s (ws & E & H)]; simpl.
  - now exists "".
  - destruct (is_ws c) eqn:Hc.
    + exists (String c ws). simpl. rewrite Hc, H. now rewrite <- E.
    + now exists "".
Qed.

Lemma skip_ws_head (c : ascii) (s : string) :
  is_ws c = false -> skip_ws (String c s) = String c s.
Proof. intro H. simpl. now rewrite H. Qed.

Lemma take_digits_split (s : string) :
  exists rest, s = take_digits s ++ rest /\
    all_chars is_digit (take_digits s) = true /\ no_digit_ahead rest = true.
Proof.
  induction s as [| c s (rest & E & H & N)]; simpl.
  - now exists "".
  - destruct (is_digit c) eqn:Hc.
    + exists rest. simpl. rewrite Hc, H. now rewrite <- E.
    + exists (String c s). simpl. now rewrite Hc.
Qed.

Lemma take_digits_app (ds rest : string) :
  all_chars is_digit ds = true -> no_digit_ahead rest = true ->
  take_digits (ds ++ rest) = ds.
Proof.
  induction ds as [| c ds IH]; simpl; intros H N.
  - destruct rest as [| c r]; simpl in *; [reflexivity |].
    now destruct (is_digit c).
  - apply andb_true_iff in H as [Hc H]. rewrite Hc. f_equal. now apply IH.
Qed.

Lemma tail_match_sound (t ds : string) :
  tail_match t = Some ds ->
  exists ws1 sep ws2 rest,
    t = ws1 ++ sep ++ ws2 ++ ds ++ rest /\
    all_chars is_ws ws1 = true /\ (sep = "" \/ sep = "-" \/ sep = "_") /\
    all_chars is_ws ws2 = true /\ ds <> "" /\
    all_chars is_digit ds = true /\ no_digit_ahead rest = true.
Proof.
  unfold tail_match. intro H.
  destruct (skip_ws_split t) as (ws1 & E1 & W1).
  set (u := skip_ws t) in *.
  assert (Hsep : exists sep, u = sep ++ skip_sep u /\
                   (sep = "" \/ sep = "-" \/ sep = "_")).
  { destruct u as [| c u']; simpl; [now exists "" |].
    unfold is_sep.
    destruct (Ascii.eqb_spec c "-"); [subst; exists "-"; auto |].
    destruct (Ascii.eqb_spec c "_"); [subst; exists "_"; auto |].
    exists ""; auto. }
  destruct Hsep as (sep & E2 & Hs).
  destruct (skip_ws_split (skip_sep u)) as (ws2 & E3 & W2).
  destruct (take_digits_split (skip_ws (skip_sep u))) as (rest & E4 & D & N).
  destruct (take_digits (skip_ws (skip_sep u))) as [| c d] eqn:Ed; [discriminate |].
  injection H as <-.
  exists ws1, sep, ws2, rest. repeat split; auto; [| discriminate].
  rewrite E1 at 1. f_equal. rewrite E2 at 1. f_equal. rewrite E3 at 1. f_equal.
  exact E4.
Qed.

Lemma tail_match_complete (ws1 sep ws2 ds rest : string) :
  all_chars is_ws ws1 = true -> (sep = "" \/ sep = "-" \/ sep = "_") ->
  all_chars is_ws ws2 = true -> ds <> "" ->
  all_chars is_digit ds = true -> no_digit_ahead rest = true ->
  tail_match (ws1 ++ sep ++ ws2 ++ ds ++ rest) = Some ds.
Proof.
  intros W1 Hs W2 Hne D N. unfold tail_match.
  destruct ds as [| c ds]; [congruence |].
  pose proof D as D'. simpl in D'. apply andb_true_iff in D' as [Dc _].
  destruct (char_classes c) as (Hd & _ & _). destruct (Hd Dc) as [Cw Cs].
  assert (T : take_digits (skip_ws (skip_sep (skip_ws
              (ws1 ++ sep ++ ws2 ++ String c ds ++ rest)))) = String c ds).
  { rewrite skip_ws_app by assumption.
    destruct Hs as [-> | [-> | ->]].
    - change ("" ++ ws2 ++ String c ds ++ rest) with (ws2 ++ String c ds ++ rest).
      rewrite skip_ws_app by assumption.
      change (String c ds ++ rest) with (String c (ds ++ rest)).
      rewrite skip_ws_head by assumption.
      unfold skip_sep. rewrite Cs. rewrite skip_ws_head by assumption.
      now apply (take_digits_app (String c ds)).
    - change ("-" ++ ws2 ++ String c ds ++ rest)
        with (String "-" (ws2 ++ String c ds ++ rest)).
      rewrite skip_ws_head by reflexivity. simpl skip_sep.
      rewrite skip_ws_app by assumption.
      change (String c ds ++ rest) with (String c (ds ++ rest)).
      rewrite skip_ws_head by assumption.
      now apply (take_digits_app (String c ds)).
    - change ("_" ++ ws2 ++ String c ds ++ rest)
        with (String "_" (ws2 ++ String c ds ++ rest)).
      rewrite skip_ws_head by reflexivity. simpl skip_sep.
      rewrite skip_ws_app by assumption.
      change (String c ds ++ rest) with (String c (ds ++ rest)).
      rewrite skip_ws_head by assumption.
      now apply (take_digits_app (String c ds)). }
  now rewrite T.
Qed.

Lemma tail_match_head (t ds : string) :
  tail_match t = Some ds ->
  exists c u, t = String c u /\ is_alpha (lower_char c) = false.
Proof.
  intro H. destruct t as [| c u]; [discriminate |].
  exists c, u. split; [reflexivity |].
  destruct (char_classes c) as (_ & _ & A). apply A.
  unfold tail_start.
  destruct (is_ws c) eqn:Cw; [reflexivity |].
  destruct (is_sep c) eqn:Cs; [reflexivity |].
  destruct (is_digit c) eqn:Cd; [reflexivity |].
  exfalso. unfold tail_match in H.
  rewrite skip_ws_head in H by assumption.
  unfold skip_sep in H. rewrite Cs in H.
  rewrite skip_ws_head in H by assumption.
  simpl in H. now rewrite Cd in H.
Qed.

Lemma strip_ci_lower (kw s t : string) :
  strip_ci kw s = Some t ->
  toLowerCase s = toLowerCase kw ++ toLowerCase t.
Proof.
  intro H. destruct (strip_ci_sound _ _ _ H) as (kw' & -> & E).
  now rewrite toLowerCase_app, E.
Qed.

Ltac alpha_clash :=
  match goal with
  | A : is_alpha ?x = false, E : ?x = _ |- _ =>
      rewrite E in A; vm_compute in A; discriminate A
  | A : is_alpha ?x = false, E : _ = ?x |- _ =>
      rewrite <- E in A; vm_compute in A; discriminate A
  end.

Ltac lower_literals H :=
  repeat match type of H with
         | context [toLowerCase (String ?a ?k)] =>
             let v := eval vm_compute in (toLowerCase (String a k)) in
             change (toLowerCase (String a k)) with v in H
         end.

(** At one position at most one alternative leads to a match. *)
Lemma alt_unique (s kw1 kw2 t1 t2 d1 d2 : string) :
  In kw1 alternatives -> In kw2 alternatives ->
  strip_ci kw1 s = Some t1 -> tail_match t1 = Some d1 ->
  strip_ci kw2 s = Some t2 -> tail_match t2 = Some d2 ->
  d1 = d2.
Proof.
  intros I1 I2 S1 T1 S2 T2.
  pose proof (strip_ci_lower _ _ _ S1) as E1.
  pose proof (strip_ci_lower _ _ _ S2) as E2.
  destruct (tail_match_head _ _ T1) as (c1 & u1 & Ht1 & A1).
  destruct (tail_match_head _ _ T2) as (c2 & u2 & Ht2 & A2).
  rewrite E1 in E2. rewrite Ht1, Ht2 in E2. clear E1.
  change (toLowerCase (String c1 u1))
    with (String (lower_char c1) (toLowerCase u1)) in E2.
  change (toLowerCase (String c2 u2))
    with (String (lower_char c2) (toLowerCase u2)) in E2.
  unfold alternatives in I1, I2. simpl in I1, I2.
  destruct I1 as [<- | [<- | [<- | [<- | [<- | [<- | []]]]]]];
  destruct I2 as [<- | [<- | [<- | [<- | [<- | [<- | []]]]]]];
    try (rewrite S1 in S2; injection S2 as <-; rewrite T1 in T2; congruence);
    exfalso; lower_literals E2; cbn [append] in E2;
    inversion E2; alpha_clash.
Qed.

Lemma first_alt_sound (alts : list string) (s ds : string) :
  first_alt alts s = Some ds ->
  exists kw t, In kw alts /\ strip_ci kw s = Some t /\ tail_match t = Some ds.
Proof.
  induction alts as [| kw alts IH]; simpl; [discriminate |].
  destruct (strip_ci kw s) as [t |] eqn:S.
  - destruct (tail_match t) as [d |] eqn:T.
    + intro H. injection H as <-. exists kw, t. auto.
    + intro H. destruct (IH H) as (kw' & t' & ? & ? & ?). exists kw', t'. auto.
  - intro H. destruct (IH H) as (kw' & t' & ? & ? & ?). exists kw', t'. auto.
Qed.

Lemma first_alt_some (alts : list string) (s kw t ds : string) :
  In kw alts -> strip_ci kw s = Some t -> tail_match t = Some ds ->
  exists ds', first_alt alts s = Some ds'.
Proof.
  induction alts as [| kw0 alts IH]; simpl; [tauto |].
  intros [-> | I] S T.
  - rewrite S, T. eauto.
  - destruct (strip_ci kw0 s) as [t0 |]; [| eauto].
    destruct (tail_match t0); eauto.
Qed.

Lemma match_here_Token (s ds : string) :
  match_here s = Some ds <-> Token s ds.
Proof.
  unfold match_here. split.
  - intro H. destruct (first_alt_sound _ _ _ H) as (kw & t & I & S & T).
    destruct (strip_ci_sound _ _ _ S) as (kw' & -> & E).
    destruct (tail_match_sound _ _ T)
      as (ws1 & sep & ws2 & rest & -> & W1 & Hs & W2 & Hne & D & N).
    now apply (Token_intro kw).
  - intros [kw kw' ws1 sep ws2 d rest I E W1 Hs W2 Hne D N].
    pose proof (strip_ci_complete kw kw' (ws1 ++ sep ++ ws2 ++ d ++ rest) E) as S.
    pose proof (tail_match_complete ws1 sep ws2 d rest W1 Hs W2 Hne D N) as T.
    destruct (first_alt_some _ _ _ _ _ I S T) as (d' & F).
    rewrite F. f_equal.
    destruct (first_alt_sound _ _ _ F) as (kw2 & t2 & I2 & S2 & T2).
    exact (alt_unique _ _ _ _ _ _ _ I2 I S2 T2 S T).
Qed.

Lemma Token_unique (s d1 d2 : string) : Token s d1 -> Token s d2 -> d1 = d2.
Proof.
  intros H1 H2. apply match_here_Token in H1, H2. congruence.
Qed.

Lemma search_some (s ds : string) :
  search s = Some ds <->
  exists pre suf, s = pre ++ suf /\ Token suf ds /\
    none_before s (String.length pre).
Proof.
  revert ds. induction s as [| c s IH]; intro ds.
  - split; [discriminate |].
    intros (pre & suf & E & T & _).
    destruct pre; [| discriminate]. simpl in E. subst suf.
    apply match_here_Token in T. discriminate T.
  - simpl. destruct (match_here (String c s)) as [d |] eqn:M.
    + split.
      * intro H. injection H as <-. apply match_here_Token in M.
        exists "", (String c s). repeat split; auto.
        intros pre s' ds' _ L. simpl in L. lia.
      * intros (pre & suf & E & T & NB). destruct pre as [| c' pre].
        -- simpl in E. subst suf. apply match_here_Token in T. congruence.
        -- exfalso. apply match_here_Token in M.
           apply (NB "" (String c s) d); [reflexivity | simpl; lia | exact M].
    + rewrite IH. split.
      * intros (pre & suf & E & T & NB). exists (String c pre), suf.
        repeat split; [simpl; now rewrite E | exact T |].
        intros pre' s' ds' E' L Tk. destruct pre' as [| c'' pre'].
        -- simpl in E'. subst s'. apply match_here_Token in Tk. congruence.
        -- simpl in E'. injection E' as <- E'.
           apply (NB pre' s' ds'); [exact E' | simpl in L; lia | exact Tk].
      * intros (pre & suf & E & T & NB). destruct pre as [| c' pre].
        -- simpl in E. subst suf. apply match_here_Token in T. congruence.
        -- simpl in E. injection E as <- E. exists pre, suf.
           repeat split; [exact E | exact T |].
           intros pre' s' ds' E' L Tk.
           apply (NB (String c pre') s' ds'); [simpl; now rewrite E' | simpl; lia | exact Tk].
Qed.

Lemma search_none (s : string) :
  search s = None <-> forall pre suf ds, s = pre ++ suf -> ~ Token suf ds.
Proof.
  split.
  - intros H pre suf ds E T.
    assert (X : exists d, search s = Some d); [| destruct X; congruence].
    clear H. revert s E. induction pre as [| c pre IH]; intros s E.
    + simpl in E. subst s. apply match_here_Token in T.
      destruct suf; [discriminate T |]. simpl. rewrite T. eauto.
    + simpl in E. subst s. simpl.
      destruct (match_here (String c (pre ++ suf))); eauto.
  - intro H. destruct (search s) as [d |] eqn:S; [| reflexivity].
    apply search_some in S. destruct S as (pre & suf & E & T & _).
    exfalso. exact (H pre suf d E T).
Qed.

(** C5, as the code has it: the id is "C" followed by the digits of the
    leftmost token, a token being a keyword, optional white space, an
    optional "-" or "_", optional white space and the longest run of
    digits; it is absent exactly when the name holds no token; a name whose
    leftmost token has the digits 7 gets "C7", such as a name that begins
    with a keyword, an optional separator and a 7 that no digit follows. *)
Theorem C5_group_id (filename : string) :
  (forall id, detectComparisonId filename = Some id <->
     exists pre s ds,
       filename = pre ++ s /\ Token s ds /\ id = "C" ++ ds /\
       none_before filename (String.length pre)) /\
  (detectComparisonId filename = None <->
     forall pre s ds, filename = pre ++ s -> ~ Token s ds) /\
  (forall pre s,
     filename = pre ++ s -> Token s "7" ->
     none_before filename (String.length pre) ->
     detectComparisonId filename = Some "C7") /\
  (forall kw sep rest,
     In kw alternatives -> sep = "" \/ sep = "-" \/ sep = "_" ->
     no_digit_ahead rest = true ->
     filename = kw ++ sep ++ "7" ++ rest ->
     detectComparisonId filename = Some "C7").
Proof.
  unfold detectComparisonId. split; [| split; [| split]].
  - intro id. split.
    + destruct (search filename) as [d |] eqn:S; [| discriminate].
      intro H. injection H as <-. apply search_some in S.
      destruct S as (pre & suf & E & T & NB). exists pre, suf, d. auto.
    + intros (pre & suf & d & E & T & -> & NB).
      assert (S : search filename = Some d) by (apply search_some; eauto).
      now rewrite S.
  - split.
    + destruct (search filename) eqn:S; [discriminate |].
      intros _. now apply search_none.
    + intro H. apply search_none in H. now rewrite H.
  - intros pre suf E T NB.
    assert (S : search filename = Some "7") by (apply search_some; eauto).
    now rewrite S.
  - intros kw sep rest I Hs N ->.
    assert (T : Token (kw ++ sep ++ "7" ++ rest) "7").
    { apply (Token_intro kw kw "" sep "" "7" rest); auto. discriminate. }
    assert (S : search (kw ++ sep ++ "7" ++ rest) = Some "7").
    { apply search_some. exists "", (kw ++ sep ++ "7" ++ rest).
      split; [reflexivity |]. split; [exact T |].
      intros pre s' ds' _ L. simpl in L. lia. }
    now rewrite S.
Qed.

(** C5 as stated fails on "C 7.xlsx": the name has no substring of the
    form keyword, optional separator, digits, and yet gets the id "C7". *)
Lemma C5_counterexample :
  spec_groupId "C 7.xlsx" = None /\
  detectComparisonId "C 7.xlsx" = Some "C7".
Proof. split; reflexivity. Qed.

End ComparisonIdFacts.

(** ** The header locator *)

Section HeaderFacts.
Context {rt : Runtime}.
Import Sheet SheetSpec.

Lemma matchCount_qualifies (keywords : list string) (r : row) :
  (1 <=? matchCount keywords r)%nat = true <-> qualifies keywords r.
Proof.
  unfold matchCount, qualifies. rewrite Nat.leb_le. split.
  - intro H.
    destruct (filter (fun k => includes (rowStr r) (toLowerCase k)) keywords)
      as [| k l] eqn:E; [simpl in H; lia |].
    assert (I : In k (k :: l)) by now left.
    rewrite <- E in I. apply filter_In in I. now exists k.
  - intros (k & I & M).
    assert (I' : In k (filter (fun k => includes (rowStr r) (toLowerCase k)) keywords))
      by (apply filter_In; auto).
    destruct (filter _ keywords); [destruct I' | simpl; lia].
Qed.

Lemma scan_some (keywords : list string) (rows : list row) (i0 i : nat) :
  scan keywords rows i0 = Some i <->
  exists n r, i = (i0 + n)%nat /\ nth_error rows n = Some r /\
    qualifies keywords r /\
    forall m r', (m < n)%nat -> nth_error rows m = Some r' -> ~ qualifies keywords r'.
Proof.
  revert i0. induction rows as [| r rows IH]; intro i0; cbn [scan].
  - split; [discriminate |]. intros (n & r & _ & H & _). now destruct n.
  - destruct (1 <=? matchCount keywords r)%nat eqn:M.
    + apply matchCount_qualifies in M. split.
      * intro H. injection H as <-. exists 0%nat, r.
        split; [lia |]. split; [reflexivity |]. split; [exact M |].
        intros; lia.
      * intros (n & r' & -> & N & Q & Least). destruct n as [| n].
        -- f_equal. lia.
        -- exfalso. apply (Least 0%nat r); [lia | reflexivity | exact M].
    + assert (NQ : ~ qualifies keywords r).
      { intro Q. apply matchCount_qualifies in Q. congruence. }
      rewrite IH. split.
      * intros (n & r' & -> & N & Q & Least). exists (S n), r'.
        split; [lia |]. split; [exact N |]. split; [exact Q |].
        intros [| m] r'' L N'; simpl in N'.
        -- now injection N' as <-.
        -- apply (Least m); [lia | exact N'].
      * intros (n & r' & -> & N & Q & Least). destruct n as [| n].
        -- simpl in N. injection N as <-. contradiction.
        -- exists n, r'. split; [lia |]. split; [exact N |]. split; [exact Q |].
           intros m r'' L N'. apply (Least (S m)); [lia | exact N'].
Qed.

Lemma scan_none (keywords : list string) (rows : list row) (i0 : nat) :
  scan keywords rows i0 = None <->
  forall n r, nth_error rows n = Some r -> ~ qualifies keywords r.
Proof.
  split.
  - intros H n r N Q.
    assert (X : exists i, scan keywords rows i0 = Some i); [| destruct X; congruence].
    clear H. revert i0 n N. induction rows as [| r0 rows IH]; intros i0 n N.
    + now destruct n.
    + cbn [scan]. destruct (1 <=? matchCount keywords r0)%nat eqn:M; [eauto |].
      destruct n as [| n]; simpl in N.
      * injection N as <-. apply matchCount_qualifies in Q. congruence.
      * eauto.
  - intro H. destruct (scan keywords rows i0) as [i |] eqn:S; [| reflexivity].
    apply scan_some in S. destruct S as (n & r & _ & N & Q & _).
    exfalso. exact (H n r N Q).
Qed.

Lemma nth_error_window (rawData : rawgrid) (n : nat) :
  (n < 20)%nat ->
  nth_error (firstn (Nat.min (List.length rawData) 20) rawData) n =
  nth_error rawData n.
Proof.
  intro L. rewrite nth_error_firstn.
  destruct (n <? Nat.min (List.length rawData) 20)%nat eqn:E; [reflexivity |].
  apply Nat.ltb_ge in E. symmetry. apply nth_error_None. lia.
Qed.

Lemma nth_error_window_inv (rawData : rawgrid) (n : nat) (r : row) :
  nth_error (firstn (Nat.min (List.length rawData) 20) rawData) n = Some r ->
  (n < 20)%nat /\ nth_error rawData n = Some r.
Proof.
  intro H.
  assert (L : (n < List.length (firstn (Nat.min (List.length rawData) 20) rawData))%nat)
    by (apply nth_error_Some; congruence).
  rewrite length_firstn in L.
  split; [lia |]. rewrite <- H. symmetry. apply nth_error_window. lia.
Qed.

Lemma join_texts (r : row) : join " " r = String.concat " " (map cellText r).
Proof.
  assert (T : forall c, join_text c = cellText c).
  { intros [[| | [] | n | s] |]; reflexivity. }
  induction r as [| c r IH]; [reflexivity |].
  destruct r as [| c' r]; [apply T |].
  change (join " " (c :: c' :: r))
    with (join_text c ++ " " ++ join " " (c' :: r))%string.
  now rewrite IH, T.
Qed.

Lemma rowStr_lowered (r : row) : rowStr r = loweredRow r.
Proof. unfold rowStr, loweredRow. now rewrite join_texts. Qed.

Lemma qualifies_holds (keywords : list string) (r : row) :
  qualifies keywords r <-> holds_keyword keywords r.
Proof. unfold qualifies, holds_keyword. now rewrite rowStr_lowered. Qed.

(** C6, as the code has it: the header row is the first of the first 20
    rows whose lower-cased joined cells contain the lower-cased form of a
    keyword, and row 0 when none of them does; a grid whose row 0 holds no
    keyword and whose row 1 holds one has its header in row 1.  For
    keywords written in lower case the test is that of the keyword as it is
    written. *)
Theorem C6_header_row (rawData : rawgrid) (keywords : list string) :
  (forall i r,
     (i < 20)%nat -> nth_error rawData i = Some r -> holds_keyword keywords r ->
     (forall j r', (j < i)%nat -> nth_error rawData j = Some r' ->
                   ~ holds_keyword keywords r') ->
     headerRowIndex rawData keywords = i) /\
  ((forall i r, (i < 20)%nat -> nth_error rawData i = Some r ->
                ~ holds_keyword keywords r) ->
   headerRowIndex rawData keywords = 0%nat) /\
  (forall r0 r1 rest,
     rawData = r0 :: r1 :: rest ->
     ~ holds_keyword keywords r0 -> holds_keyword keywords r1 ->
     headerRowIndex rawData keywords = 1%nat) /\
  ((forall k, In k keywords -> toLowerCase k = k) ->
   forall r, holds_keyword keywords r <-> holds_verbatim keywords r = true).
Proof.
  assert (First : forall i r,
     (i < 20)%nat -> nth_error rawData i = Some r -> holds_keyword keywords r ->
     (forall j r', (j < i)%nat -> nth_error rawData j = Some r' ->
                   ~ holds_keyword keywords r') ->
     headerRowIndex rawData keywords = i).
  { intros i r L N Q Least. unfold headerRowIndex.
    assert (S : scan keywords
                  (firstn (Nat.min (List.length rawData) 20) rawData) 0 = Some i).
    { apply scan_some. exists i, r.
      split; [reflexivity |]. split; [now rewrite nth_error_window |].
      split; [now apply qualifies_holds |].
      intros m r' Lm Nm. apply nth_error_window_inv in Nm as [_ Nm].
      rewrite qualifies_holds. eauto. }
    now rewrite S. }
  split; [exact First | split; [| split]].
  - intro H. unfold headerRowIndex.
    assert (S : scan keywords
                  (firstn (Nat.min (List.length rawData) 20) rawData) 0 = None).
    { apply scan_none. intros n r N. apply nth_error_window_inv in N as [L N].
      rewrite qualifies_holds. eauto. }
    now rewrite S.
  - intros r0 r1 rest -> NQ Q.
    apply (First 1%nat r1); [lia | reflexivity | exact Q |].
    intros [| j] r' L N; [| lia]. simpl in N. now injection N as <-.
  - intros Low r. unfold holds_keyword, holds_verbatim.
    rewrite existsb_exists. split; intros (k & I & M); exists k.
    + rewrite (Low k I) in M. now split.
    + rewrite (Low k I). now split.
Qed.

End HeaderFacts.

(** ** Row objects *)

Section ObjectFacts.
Import JsObject.

Lemma get_put_same (k : string) (v : value) (o : obj) : get k (put k v o) = v.
Proof.
  induction o as [| [k' v'] o IH]; simpl.
  - now rewrite String.eqb_refl.
  - destruct (String.eqb k k') eqn:E; simpl; rewrite E; auto.
Qed.

Lemma get_put_other (k k' : string) (v : value) (o : obj) :
  k <> k' -> get k (put k' v o) = get k o.
Proof.
  intro N. induction o as [| [k0 v0] o IH]; simpl.
  - destruct (String.eqb_spec k k'); [contradiction | reflexivity].
  - destruct (String.eqb_spec k' k0) as [-> | N0]; simpl.
    + destruct (String.eqb_spec k k0); [contradiction | reflexivity].
    + destruct (String.eqb_spec k k0); [reflexivity | exact IH].
Qed.

Lemma get_set_other (k k' : string) (v : value) (o : obj) :
  k <> k' -> get k (set k' v o) = get k o.
Proof.
  intro N. unfold set. destruct (String.eqb k' "__proto__"); [reflexivity |].
  now apply get_put_other.
Qed.

Lemma get_set_same (k : string) (v : value) (o : obj) :
  k <> "__proto__" -> get k (set k v o) = v.
Proof.
  intro N. unfold set. destruct (String.eqb_spec k "__proto__"); [contradiction |].
  apply get_put_same.
Qed.

Lemma names_put (k : string) (v v' : value) (o o' : obj) :
  map fst o = map fst o' -> map fst (put k v o) = map fst (put k v' o').
Proof.
  revert o'. induction o as [| [k0 v0] o IH]; intros [| [k1 v1] o'] E;
    simpl in E; try discriminate; [reflexivity |].
  injection E as -> E. simpl.
  destruct (String.eqb k k1); simpl; f_equal; auto.
Qed.

Lemma names_set (k : string) (v v' : value) (o o' : obj) :
  map fst o = map fst o' -> map fst (set k v o) = map fst (set k v' o').
Proof.
  intro E. unfold set. destruct (String.eqb k "__proto__"); [exact E |].
  now apply names_put.
Qed.





End ObjectFacts.

Section RowObjectFacts.
Context {rt : Runtime}.
Import JsObject Sheet SheetSpec.

Lemma names_fill (headers : list (option string)) (i i' : nat) (r r' : row)
    (o o' : obj) :
  map fst o = map fst o' ->
  map fst (fill headers i r o) = map fst (fill headers i' r' o').
Proof.
  revert i i' o o'. induction headers as [| [h |] hs IH]; intros i i' o o' E;
    simpl; auto.
  apply IH. now apply names_set.
Qed.


Lemma get_fill_absent (headers : list (option string)) (i : nat) (r : row)
    (o : obj) (h : string) :
  (forall j, nth_error headers j <> Some (Some h)) ->
  get h (fill headers i r o) = get h o.
Proof.
  revert i o. induction headers as [| [k |] hs IH]; intros i o A; simpl.
  - reflexivity.
  - rewrite IH by (intro j; apply (A (S j))).
    apply get_set_other. intros <-. now apply (A 0%nat).
  - apply IH. intro j. apply (A (S j)).
Qed.

Lemma get_fill_rightmost (headers : list (option string)) (i : nat) (r : row)
    (o : obj) (h : string) (j : nat) :
  rightmost headers h j -> h <> "__proto__" ->
  get h (fill headers i r o) = cell_at r (i + j).
Proof.
  revert i o j. induction headers as [| x hs IH]; intros i o j [N R] P.
  - now destruct j.
  - destruct j as [| j].
    + simpl in N. injection N as ->. simpl.
      rewrite get_fill_absent.
      * rewrite get_set_same by assumption. f_equal. lia.
      * intro j. apply (R (S j)). lia.
    + assert (R' : rightmost hs h j).
      { split; [exact N |]. intros j' L. apply (R (S j')). lia. }
      replace (i + S j)%nat with (S i + j)%nat by lia.
      destruct x as [k |]; cbn [fill]; now apply IH.
Qed.





Lemma smartSheetToJson_rows (rawData : rawgrid) (keywords : list string)
    (o : obj) :
  In o (smartSheetToJson rawData keywords) ->
  exists r,
    In r (skipn (headerRowIndex rawData keywords + 1) rawData) /\ r <> [] /\
    o = rowObject
          (headersOf (nth (headerRowIndex rawData keywords) rawData [])) r.
Proof.
  unfold smartSheetToJson. destruct rawData as [| r0 rest]; [intros [] |].
  cbv zeta.
  generalize (headersOf (nth (headerRowIndex (r0 :: rest) keywords) (r0 :: rest) [])).
  generalize (skipn (headerRowIndex (r0 :: rest) keywords + 1) (r0 :: rest)).
  intros rows headers. induction rows as [| r rows IH]; simpl; [intros [] |].
  destruct r as [| c r].
  - intro I. destruct (IH I) as (r' & ? & ? & ?). exists r'. auto.
  - intros [<- | I].
    + exists (c :: r). repeat split; auto. discriminate.
    + destruct (IH I) as (r' & ? & ? & ?). exists r'. auto.
Qed.

Lemma keys_names (o1 o2 : obj) : map fst o1 = map fst o2 -> keys o1 = keys o2.
Proof.
  intro E. unfold keys.
  assert (H : index_names o1 = index_names o2 /\ other_names o1 = other_names o2).
  { revert o2 E. induction o1 as [| [k v] o1 IH]; intros [| [k' v'] o2] E;
      simpl in E; try discriminate; [now split |].
    injection E as <- E. destruct (IH o2 E) as [I O]. simpl.
    destruct (array_index k); [now rewrite I | now rewrite O]. }
  destruct H as [-> ->]. reflexivity.
Qed.

(** X3: on a sheet without a column headed [__proto__] the row objects all
    have the same keys, in the same order: those of the first, which the
    parsers read the columns from. *)
Lemma X3_rows_share_keys (rawData : rawgrid) (keywords : list string)
    (o1 o2 : obj) :
  ~ In (Some "__proto__")
       (headersOf (nth (headerRowIndex rawData keywords) rawData [])) ->
  In o1 (smartSheetToJson rawData keywords) ->
  In o2 (smartSheetToJson rawData keywords) ->
  keys o1 = keys o2.
Proof.
  intros _ I1 I2.
  destruct (smartSheetToJson_rows _ _ _ I1) as (r1 & _ & _ & ->).
  destruct (smartSheetToJson_rows _ _ _ I2) as (r2 & _ & _ & ->).
  apply keys_names. unfold rowObject. now apply names_fill.
Qed.


End RowObjectFacts.

(** ** Column resolution *)

Section ColumnFacts.
Context {rt : Runtime}.
Import ColumnSpec Enrichment.

Lemma test_ci_nonempty (literals : list string) (k : string) :
  Forall (fun l => l <> "") literals -> test_ci literals k = true -> k <> "".
Proof.
  intros F T ->. unfold test_ci, includes_any in T. simpl in T.
  apply existsb_exists in T as (l & I & M).
  rewrite Forall_forall in F. specialize (F l I).
  destruct l; [congruence | discriminate].
Qed.

Lemma found_truthy (p : string -> bool) (keys : list string) (k : string) :
  (forall k, p k = true -> k <> "") ->
  find p keys = Some k -> key_truthy (Some k) = true.
Proof.
  intros NE F. apply find_some in F as [_ T]. specialize (NE k T).
  now destruct k.
Qed.

Lemma unless_truthy (prev next : option string) :
  key_truthy prev = true -> unless prev next = prev.
Proof. intro T. unfold unless. now rewrite T. Qed.

Lemma unless_none (next : option string) : unless None next = next.
Proof. reflexivity. Qed.

Ltac nonempty_literals :=
  intros ? T;
  first [ apply (test_ci_nonempty _ _ ltac:(repeat constructor; discriminate) T)
        | intros ->; vm_compute in T; discriminate T ].

(** C4, as the code has it: the term column is the first key containing
    "description", else the first containing "term", else "pathway", else
    "id", else the first key; the count column is the first key that starts
    with "count", else the first containing "significant", else the key
    "n", else the first containing "gene_count" or "genecount", else none;
    all without regard to case; the term and the count of every record
    are read under these two keys of the first row. *)
Theorem C4_column_priority (keys : list string) :
  chosen_by_priority
    [test_ci ["description"]; test_ci ["term"]; test_ci ["pathway"];
     test_ci ["id"]]
    (key_at keys 0) keys (termKeyOf keys) /\
  chosen_by_priority
    [test_prefix_ci "count"; test_ci ["significant"]; test_exact_ci "n";
     test_ci ["genecount"; "gene_count"]]
    None keys (countKeyOf keys) /\
  (forall row0 rest record,
     JsObject.keys row0 = keys ->
     In record (extract (row0 :: rest)) ->
     exists row,
       In row (firstn 50 (row0 :: rest)) /\
       term record =
         JsValue.toString
           (JsValue.or_else (JsObject.get_opt (termKeyOf keys) row)
                            (VStr "Unknown")) /\
       count record =
         (if key_truthy (countKeyOf keys) &&
             negb (is_undefined (JsObject.get_opt (countKeyOf keys) row))
          then if negb (isNaN (JsValue.parseInt
                                 (JsObject.get_opt (countKeyOf keys) row)))
               then JsValue.parseInt (JsObject.get_opt (countKeyOf keys) row)
               else zero
          else zero)).
Proof.
  split; [| split].
  3: { intros row0 rest record <- I. unfold extract in I.
       apply in_map_iff in I as (row & <- & I). exists row.
       split; [exact I |]. split; reflexivity. }
  - unfold termKeyOf. cbv zeta. cbn [chosen_by_priority].
    destruct (find (test_ci ["description"]) keys) as [k |] eqn:F1.
    { left. exists k. split; [reflexivity |].
      assert (T : key_truthy (Some k) = true)
        by (eapply found_truthy; [| exact F1]; nonempty_literals).
      now rewrite !(unless_truthy (Some k)) by exact T. }
    right. split; [reflexivity |]. rewrite unless_none.
    destruct (find (test_ci ["term"]) keys) as [k |] eqn:F2.
    { left. exists k. split; [reflexivity |].
      assert (T : key_truthy (Some k) = true)
        by (eapply found_truthy; [| exact F2]; nonempty_literals).
      now rewrite !(unless_truthy (Some k)) by exact T. }
    right. split; [reflexivity |]. rewrite unless_none.
    destruct (find (test_ci ["pathway"]) keys) as [k |] eqn:F3.
    { left. exists k. split; [reflexivity |].
      assert (T : key_truthy (Some k) = true)
        by (eapply found_truthy; [| exact F3]; nonempty_literals).
      now rewrite !(unless_truthy (Some k)) by exact T. }
    right. split; [reflexivity |]. rewrite unless_none.
    destruct (find (test_ci ["id"]) keys) as [k |] eqn:F4.
    { left. exists k. split; [reflexivity |].
      assert (T : key_truthy (Some k) = true)
        by (eapply found_truthy; [| exact F4]; nonempty_literals).
      now rewrite !(unless_truthy (Some k)) by exact T. }
    right. split; reflexivity.
  - unfold countKeyOf. cbv zeta. cbn [chosen_by_priority].
    destruct (find (test_prefix_ci "count") keys) as [k |] eqn:F1.
    { left. exists k. split; [reflexivity |].
      assert (T : key_truthy (Some k) = true)
        by (eapply found_truthy; [| exact F1]; nonempty_literals).
      now rewrite !(unless_truthy (Some k)) by exact T. }
    right. split; [reflexivity |]. rewrite unless_none.
    destruct (find (test_ci ["significant"]) keys) as [k |] eqn:F2.
    { left. exists k. split; [reflexivity |].
      assert (T : key_truthy (Some k) = true)
        by (eapply found_truthy; [| exact F2]; nonempty_literals).
      now rewrite !(unless_truthy (Some k)) by exact T. }
    right. split; [reflexivity |]. rewrite unless_none.
    destruct (find (test_exact_ci "n") keys) as [k |] eqn:F3.
    { left. exists k. split; [reflexivity |].
      assert (T : key_truthy (Some k) = true)
        by (eapply found_truthy; [| exact F3]; nonempty_literals).
      now rewrite !(unless_truthy (Some k)) by exact T. }
    right. split; [reflexivity |]. rewrite unless_none.
    destruct (find (test_ci ["genecount"; "gene_count"]) keys) as [k |] eqn:F4.
    { left. exists k. split; reflexivity. }
    right. split; reflexivity.
Qed.

(** C4 as stated fails on the keys "significant", "counts": no key is
    exactly "count", so the stated priority picks "significant", and the
    code picks "counts". *)
Lemma C4_counterexample :
  spec_countKeyOf ["significant"; "counts"] = Some "significant" /\
  countKeyOf ["significant"; "counts"] = Some "counts".
Proof. split; reflexivity. Qed.

End ColumnFacts.

(** ** Keys of a row object under plain header names *)

Section PlainKeys.
Context {rt : Runtime}.
Import JsObject Sheet SheetSpec.

Lemma names_put_fresh (k : string) (v : value) (o : obj) :
  ~ In k (map fst o) -> map fst (put k v o) = (map fst o ++ [k])%list.
Proof.
  induction o as [| [k0 v0] o IH]; simpl; intro N; [reflexivity |].
  destruct (String.eqb_spec k k0) as [-> | Nk]; [tauto |].
  simpl. f_equal. apply IH. tauto.
Qed.





End PlainKeys.

(** ** The stable sort *)

Section SortFacts.
Import JsSort.
Variables (A : Type) (comparefn : A -> A -> num).

Lemma insert_perm (a : A) (l : list A) :
  Permutation (insert comparefn a l) (a :: l).
Proof.
  induction l as [| b l IH]; simpl; [reflexivity |].
  destruct (after comparefn a b); [| reflexivity].
  rewrite IH. apply perm_swap.
Qed.

Lemma sort_perm (l : list A) : Permutation (sort comparefn l) l.
Proof.
  induction l as [| a l IH]; simpl; [reflexivity |].
  rewrite insert_perm. now constructor.
Qed.

Lemma sort_length (l : list A) : List.length (sort comparefn l) = List.length l.
Proof. apply Permutation_length, sort_perm. Qed.

End SortFacts.


Lemma firstn_In (A : Type) (n : nat) (l : list A) (x : A) :
  In x (firstn n l) -> In x l.
Proof.
  revert n. induction l as [| a l IH]; intros [| n]; simpl; try tauto.
  intros [-> | I]; [now left | right; eauto].
Qed.



(** ** The downsampling *)

Section RankingFacts.
Import DgeSpec.
Variables (A : Type) (y : A -> num).

Lemma Qltb_lt (p q : Q) : Qltb p q = true <-> (p < q)%Q.
Proof.
  unfold Qltb. rewrite Qlt_alt. destruct (p ?= q)%Q; split; congruence.
Qed.







End RankingFacts.

Section DownsampleFacts.
Import Dge DgeSpec.

Lemma limits : (SIG_LIMIT <= MAX_POINTS)%nat.
Proof. apply Nat.leb_le. vm_compute. reflexivity. Qed.

Local Opaque MAX_POINTS SIG_LIMIT.

Lemma pick_out (l : list point) (i : nat) :
  (List.length l <= i)%nat -> pick l i = [].
Proof.
  intro H. unfold pick. now rewrite (proj2 (nth_error_None l i) H).
Qed.

Lemma picks_out (l : list point) (step i n : nat) :
  (List.length l <= i)%nat -> picks l step i n = [].
Proof.
  intro H. unfold picks. induction (seq 0 n) as [| k ks IH]; simpl; [reflexivity |].
  rewrite IH, pick_out by lia. reflexivity.
Qed.

Lemma picks_head (l : list point) (step i m : nat) :
  picks l step i (S m) = (pick l i ++ picks l step (i + step) m)%list.
Proof.
  unfold picks. cbn [seq flat_map].
  replace (i + 0 * step)%nat with i by lia. f_equal.
  rewrite <- seq_shift, flat_map_concat_map, map_map, <- flat_map_concat_map.
  apply flat_map_ext. intro k. f_equal. lia.
Qed.

Lemma picks_last (l : list point) (step i m : nat) :
  (List.length l <= i + m * step)%nat ->
  picks l step i (S m) = picks l step i m.
Proof.
  intro H. unfold picks. rewrite seq_S, flat_map_app. simpl.
  rewrite pick_out by exact H. now rewrite !app_nil_r.
Qed.

Lemma picks_unfold (l : list point) (step i n : nat) :
  (List.length l <= n * step)%nat ->
  picks l step i n = (pick l i ++ picks l step (i + step) n)%list.
Proof.
  intro H. destruct n as [| m].
  - assert (E : l = []) by (destruct l; [reflexivity | simpl in H; lia]).
    subst l. unfold pick. now destruct i.
  - rewrite picks_head. f_equal. symmetry. apply picks_last. simpl in H. lia.
Qed.

Lemma sampleLoop_closed (l : list point) (step : nat) :
  (1 <= step)%nat ->
  forall fuel i finalPoints,
    (List.length l <= i + fuel)%nat ->
    sampleLoop fuel l step i finalPoints =
    (finalPoints ++
     firstn (MAX_POINTS - List.length finalPoints)
            (picks l step i (List.length l)))%list.
Proof.
  intros Hs.
  assert (Hn : (List.length l <= List.length l * step)%nat) by nia.
  induction fuel as [| fuel IH]; intros i final Hf; cbn [sampleLoop].
  - rewrite picks_out by lia. now rewrite firstn_nil, app_nil_r.
  - destruct (i <? List.length l)%nat eqn:Hi.
    + apply Nat.ltb_lt in Hi.
      destruct (MAX_POINTS <=? List.length final)%nat eqn:Hm.
      * apply Nat.leb_le in Hm.
        replace (MAX_POINTS - List.length final)%nat with 0%nat by lia.
        now rewrite app_nil_r.
      * apply Nat.leb_gt in Hm.
        destruct (nth_error l i) as [p |] eqn:Np;
          [| apply nth_error_None in Np; lia].
        rewrite IH by lia.
        rewrite (picks_unfold l step i) by exact Hn.
        unfold pick. rewrite Np. rewrite length_app.
        cbn [List.length].
        replace (MAX_POINTS - List.length final)%nat
          with (S (MAX_POINTS - (List.length final + 1)))%nat by lia.
        cbn [app firstn]. now rewrite <- app_assoc.
    + apply Nat.ltb_ge in Hi. rewrite picks_out by lia.
      now rewrite firstn_nil, app_nil_r.
Qed.

Lemma In_picks (A : Type) (l : list A) (step i n : nat) (p : A) :
  In p (picks l step i n) -> In p l.
Proof.
  unfold picks. intro H. apply in_flat_map in H as (k & _ & H).
  unfold pick in H. destruct (nth_error l (i + k * step)) as [q |] eqn:N;
    [| destruct H].
  destruct H as [<- | []]. eapply nth_error_In; eauto.
Qed.

Lemma keptSig_length (sigPts : list point) :
  (List.length (keptSig sigPts) <= SIG_LIMIT)%nat.
Proof.
  unfold keptSig. destruct (List.length sigPts <=? SIG_LIMIT)%nat eqn:E.
  - now apply Nat.leb_le.
  - rewrite length_firstn. lia.
Qed.

Lemma In_keptSig (sigPts : list point) (p : point) :
  In p (keptSig sigPts) -> In p sigPts.
Proof.
  unfold keptSig. destruct (List.length sigPts <=? SIG_LIMIT)%nat; [auto |].
  intro I. apply (firstn_In _ _ _ _) in I.
  eapply Permutation_in; [apply sort_perm | exact I].
Qed.

(** The output is the kept significant points followed by the strided
    sample, cut at the remaining capacity. *)
Lemma downsample_closed (sigPts nonSig : list point) :
  downsample sigPts nonSig =
  (keptSig sigPts ++
   firstn (MAX_POINTS - List.length (keptSig sigPts))
          (strided (Nat.max 1 (List.length nonSig /
                               (MAX_POINTS - List.length (keptSig sigPts))))
                   nonSig))%list.
Proof.
  unfold downsample. cbv zeta.
  destruct ((0 <? Z.of_nat MAX_POINTS - Z.of_nat (List.length (keptSig sigPts)))%Z
            && (0 <? List.length nonSig)%nat) eqn:C.
  - apply andb_true_iff in C as [C1 C2]. apply Z.ltb_lt in C1.
    replace (Z.to_nat (Z.of_nat MAX_POINTS - Z.of_nat (List.length (keptSig sigPts))))
      with (MAX_POINTS - List.length (keptSig sigPts))%nat by lia.
    rewrite sampleLoop_closed by lia. reflexivity.
  - apply andb_false_iff in C as [C | C].
    + apply Z.ltb_ge in C.
      replace (MAX_POINTS - List.length (keptSig sigPts))%nat with 0%nat by lia.
      now rewrite app_nil_r.
    + apply Nat.ltb_ge in C.
      assert (E : nonSig = []) by (destruct nonSig; [reflexivity | simpl in C; lia]).
      subst nonSig. unfold strided, picks. cbn [List.length seq flat_map].
      now rewrite firstn_nil, app_nil_r.
Qed.

Lemma filter_all (A : Type) (f : A -> bool) (l : list A) :
  (forall x, In x l -> f x = true) -> filter f l = l.
Proof.
  induction l as [| a l IH]; simpl; intro H; [reflexivity |].
  rewrite (H a (or_introl eq_refl)). f_equal. apply IH. auto.
Qed.

Lemma filter_none (A : Type) (f : A -> bool) (l : list A) :
  (forall x, In x l -> f x = false) -> filter f l = [].
Proof.
  induction l as [| a l IH]; simpl; intro H; [reflexivity |].
  rewrite (H a (or_introl eq_refl)). apply IH. auto.
Qed.

Lemma filter_sig_downsample (sigPts nonSig : list point) :
  Forall (fun p => pt_sig p = true) sigPts ->
  Forall (fun p => pt_sig p = false) nonSig ->
  filter pt_sig (downsample sigPts nonSig) = keptSig sigPts.
Proof.
  intros Fs Fn. rewrite downsample_closed, filter_app.
  rewrite Forall_forall in Fs, Fn.
  rewrite filter_all by (intros x I; apply Fs; now apply In_keptSig).
  rewrite filter_none; [now rewrite app_nil_r |].
  intros x I. apply (firstn_In _ _ _ _) in I. apply Fn. eapply In_picks. exact I.
Qed.

Lemma downsample_length (sigPts nonSig : list point) :
  (List.length (downsample sigPts nonSig) <= MAX_POINTS)%nat.
Proof.
  rewrite downsample_closed, length_app, length_firstn.
  pose proof (keptSig_length sigPts). pose proof limits. lia.
Qed.



End DownsampleFacts.

(** ** The differential-expression summary *)

Section SummaryFacts.
Context {rt : Runtime}.
Import JsObject Sheet SheetSpec Dge DgeSpec.

Variables logFCKey fdrKey cpmKey idKey : option string.

Lemma count_balanced (fc fdr : num) (st : ComparisonStats) :
  balanced st -> balanced (count fc fdr st).
Proof.
  unfold balanced, count. intros [H1 H2].
  destruct (gt fc zero), (lt fc zero), (isSig fc fdr); simpl; lia.
Qed.

Lemma visit_balanced (a : acc) (row : obj) :
  balanced (a_stats a) ->
  balanced (a_stats (visit logFCKey fdrKey cpmKey idKey a row)).
Proof.
  intro B. unfold visit.
  destruct (isNaN (fcOf logFCKey row) || isNaN (fdrOf fdrKey row)); [exact B |].
  destruct (isSig (fcOf logFCKey row) (fdrOf fdrKey row)); simpl;
    now apply count_balanced.
Qed.

Lemma fold_visit_balanced (rows : list obj) (a : acc) :
  balanced (a_stats a) ->
  balanced (a_stats (fold_left (visit logFCKey fdrKey cpmKey idKey) rows a)).
Proof.
  revert a. induction rows as [| row rows IH]; intros a B; simpl; [exact B |].
  apply IH. now apply visit_balanced.
Qed.

Lemma visit_unparsed (a : acc) (row : obj) :
  countable logFCKey fdrKey row = false ->
  visit logFCKey fdrKey cpmKey idKey a row = a.
Proof.
  unfold countable, visit. intro H. apply negb_false_iff in H. now rewrite H.
Qed.

Lemma visitAll_unparsed (rows1 rows2 : list obj) (row : obj) :
  countable logFCKey fdrKey row = false ->
  visitAll logFCKey fdrKey cpmKey idKey (rows1 ++ row :: rows2) =
  visitAll logFCKey fdrKey cpmKey idKey (rows1 ++ rows2).
Proof.
  intro H. unfold visitAll. rewrite !fold_left_app. simpl.
  now rewrite visit_unparsed.
Qed.



Lemma visit_zero_fc (a : acc) (row : obj) :
  JsNum.eq (fcOf logFCKey row) zero = true ->
  isNaN (fdrOf fdrKey row) = false ->
  up (a_stats (visit logFCKey fdrKey cpmKey idKey a row)) = up (a_stats a) /\
  down (a_stats (visit logFCKey fdrKey cpmKey idKey a row)) = down (a_stats a) /\
  total (a_stats (visit logFCKey fdrKey cpmKey idKey a row)) =
    S (total (a_stats a)).
Proof.
  intros Z N. unfold visit. rewrite N.
  destruct (fcOf logFCKey row) as [| | q |] eqn:E; try discriminate.
  simpl in Z. apply Qeq_bool_iff in Z.
  assert (G : gt (Fin q) zero = false).
  { unfold gt, zero. simpl. apply not_true_is_false. intro H.
    apply Qltb_lt in H. rewrite Z in H. now apply Qlt_irrefl in H. }
  assert (L : lt (Fin q) zero = false).
  { unfold zero. simpl. apply not_true_is_false. intro H.
    apply Qltb_lt in H. rewrite Z in H. now apply Qlt_irrefl in H. }
  assert (NS : isSig (Fin q) (fdrOf fdrKey row) = false).
  { unfold isSig. apply andb_false_iff. right. unfold gt. simpl.
    apply not_true_is_false. intro H. apply Qltb_lt in H.
    rewrite Z in H. now vm_compute in H. }
  simpl. unfold count. rewrite NS, G, L. simpl. auto.
Qed.

End SummaryFacts.

Section SummaryTheorems.
Context {rt : Runtime}.
Import JsObject Sheet SheetSpec Dge DgeSpec.

Lemma visit_partition (k1 k2 k3 k4 : option string) (a : acc) (row : obj) :
  Forall (fun p => pt_sig p = true) (sigPoints a) ->
  Forall (fun p => pt_sig p = false) (nonSigPoints a) ->
  Forall (fun p => pt_sig p = true) (sigPoints (visit k1 k2 k3 k4 a row)) /\
  Forall (fun p => pt_sig p = false) (nonSigPoints (visit k1 k2 k3 k4 a row)).
Proof.
  intros Fs Fn. unfold visit.
  destruct (isNaN (fcOf k1 row) || isNaN (fdrOf k2 row)); [now split |].
  destruct (isSig (fcOf k1 row) (fdrOf k2 row)) eqn:E; cbn [sigPoints nonSigPoints];
    split; auto; apply Forall_app; split; auto; repeat constructor; exact E.
Qed.

Lemma visitAll_partition (k1 k2 k3 k4 : option string) (jsonData : list obj) :
  Forall (fun p => pt_sig p = true) (sigPoints (visitAll k1 k2 k3 k4 jsonData)) /\
  Forall (fun p => pt_sig p = false) (nonSigPoints (visitAll k1 k2 k3 k4 jsonData)).
Proof.
  unfold visitAll.
  assert (G : forall a,
    Forall (fun p => pt_sig p = true) (sigPoints a) ->
    Forall (fun p => pt_sig p = false) (nonSigPoints a) ->
    Forall (fun p => pt_sig p = true)
           (sigPoints (fold_left (visit k1 k2 k3 k4) jsonData a)) /\
    Forall (fun p => pt_sig p = false)
           (nonSigPoints (fold_left (visit k1 k2 k3 k4) jsonData a))).
  { induction jsonData as [| row rows IH]; intros a Fs Fn; simpl; [now split |].
    destruct (visit_partition k1 k2 k3 k4 a row Fs Fn). now apply IH. }
  apply G; constructor.
Qed.




Local Opaque MAX_POINTS SIG_LIMIT.


Lemma downsample_nil : downsample [] [] = [].
Proof. reflexivity. Qed.

(** C2: the counts of a summary satisfy sigUp + sigDown = sigTotal and
    up + down <= total; a row with fold change zero adds to [total] only;
    a row whose fold change or FDR is not a number leaves the counts and
    the points as they are without it. *)
Theorem C2_summary_counts (jsonData : list obj) :
  (sigUp (stats (summarize jsonData)) + sigDown (stats (summarize jsonData)) =
   sigTotal (stats (summarize jsonData)))%nat /\
  (up (stats (summarize jsonData)) + down (stats (summarize jsonData)) <=
   total (stats (summarize jsonData)))%nat /\
  (forall k1 k2 k3 k4 a row,
     JsNum.eq (fcOf k1 row) zero = true -> isNaN (fdrOf k2 row) = false ->
     up (a_stats (visit k1 k2 k3 k4 a row)) = up (a_stats a) /\
     down (a_stats (visit k1 k2 k3 k4 a row)) = down (a_stats a) /\
     total (a_stats (visit k1 k2 k3 k4 a row)) = S (total (a_stats a))) /\
  (forall rows1 row rows2,
     jsonData = (rows1 ++ row :: rows2)%list ->
     (forall r, In r jsonData -> keys r = keys row) ->
     (isNaN (fcOf (logFCKeyOf (keys row)) row) ||
      isNaN (fdrOf (fdrKeyOf (keys row)) row)) = true ->
     summarize jsonData = summarize (rows1 ++ rows2)).
Proof.
  assert (B : balanced (stats (summarize jsonData))).
  { unfold summarize. destruct jsonData as [| row0 rows]; [split; simpl; lia |].
    cbv zeta. cbn [stats]. unfold visitAll. apply fold_visit_balanced.
    split; simpl; lia. }
  destruct B as [B1 B2].
  split; [exact B1 |]. split; [exact B2 |]. split.
  - intros k1 k2 k3 k4 a row. apply visit_zero_fc.
  - intros rows1 row rows2 -> K N.
    assert (C : countable (logFCKeyOf (keys row)) (fdrKeyOf (keys row)) row = false).
    { unfold countable. now rewrite N. }
    unfold summarize.
    assert (K1 : forall r, In r (rows1 ++ rows2)%list -> keys r = keys row).
    { intros r I. apply K. apply in_app_or in I as [I | I]; apply in_or_app;
        [now left | right; now right]. }
    destruct (rows1 ++ row :: rows2)%list as [| r0 rest] eqn:E1;
      [now destruct rows1 |].
    assert (K0 : keys r0 = keys row).
    { apply K. now left. }
    cbv zeta. rewrite K0, <- E1, visitAll_unparsed by exact C.
    destruct (rows1 ++ rows2)%list as [| r1 rest1] eqn:E2.
    + reflexivity.
    + rewrite (K1 r1 (or_introl eq_refl)). reflexivity.
Qed.




End SummaryTheorems.

(** ** The upload handler *)

Section UploadFacts.
Context {rt : Runtime}.
Import Upload UploadSpec.
Variable parseGTF : File -> outcome TranscriptStat.

Lemma run_app (a b : list (string * File)) (st : AppState) :
  handleSmartUpload parseGTF (a ++ b) st =
  handleSmartUpload parseGTF b (handleSmartUpload parseGTF a st).
Proof. unfold handleSmartUpload. apply fold_left_app. Qed.

Lemma run_cons (entry : string * File) (files : list (string * File))
    (st : AppState) :
  handleSmartUpload parseGTF (entry :: files) st =
  handleSmartUpload parseGTF files (processFile parseGTF st entry).
Proof. reflexivity. Qed.

Lemma run_nil (st : AppState) : handleSmartUpload parseGTF [] st = st.
Proof. reflexivity. Qed.

Lemma step_data (st : AppState) (fileId : string) (file : File) :
  data (processFile parseGTF st (fileId, file)) =
  fst (tryBlock parseGTF file (detectFileType (file_name file))
                (detectComparisonId (file_name file)) (data st)).
Proof.
  unfold processFile.
  now destruct (tryBlock parseGTF file _ _ (data st)).
Qed.

Lemma step_statuses (st : AppState) (fileId : string) (file : File) :
  uploadStatus (processFile parseGTF st (fileId, file)) =
  map (finish fileId
         (snd (tryBlock parseGTF file (detectFileType (file_name file))
                        (detectComparisonId (file_name file)) (data st))))
      (uploadStatus st ++ [newStatus fileId file]).
Proof.
  unfold processFile.
  now destruct (tryBlock parseGTF file _ _ (data st)).
Qed.

Lemma tryBlock_missing_id (file : File) (kind : FileKind) (d : Data) :
  is_comparison kind = true ->
  tryBlock parseGTF file kind None d = (d, Raised (missing_id_message kind)).
Proof. now destruct kind. Qed.

Lemma finish_id (fileId : string) (fl : flow) (s : FileUploadStatus) :
  fs_id (finish fileId fl s) = fs_id s.
Proof.
  unfold finish. destruct (String.eqb (fs_id s) fileId); [| reflexivity].
  now destruct fl.
Qed.

Lemma finish_other (fileId : string) (fl : flow) (s : FileUploadStatus) :
  fs_id s <> fileId -> finish fileId fl s = s.
Proof.
  intro N. unfold finish.
  destruct (String.eqb_spec (fs_id s) fileId); [contradiction | reflexivity].
Qed.

Lemma map_finish_fresh (fileId : string) (fl : flow) (l : list FileUploadStatus) :
  ~ In fileId (map fs_id l) -> map (finish fileId fl) l = l.
Proof.
  induction l as [| s l IH]; simpl; intro N; [reflexivity |].
  rewrite finish_other by tauto. f_equal. apply IH. tauto.
Qed.

Lemma step_ids (st : AppState) (fileId : string) (file : File) :
  map fs_id (uploadStatus (processFile parseGTF st (fileId, file))) =
  (map fs_id (uploadStatus st) ++ [fileId])%list.
Proof.
  rewrite step_statuses, map_map.
  rewrite (map_ext _ fs_id) by (intro; apply finish_id).
  now rewrite map_app.
Qed.

Lemma run_ids (files : list (string * File)) (st : AppState) :
  map fs_id (uploadStatus (handleSmartUpload parseGTF files st)) =
  (map fs_id (uploadStatus st) ++ map fst files)%list.
Proof.
  revert st. induction files as [| [fileId file] files IH]; intro st.
  - simpl. now rewrite app_nil_r.
  - rewrite run_cons, IH, step_ids. cbn [map fst]. now rewrite <- app_assoc.
Qed.

Lemma others_map_finish (fileId fileId' : string) (fl : flow)
    (l : list FileUploadStatus) :
  others fileId (map (finish fileId' fl) l) =
  map (finish fileId' fl) (others fileId l).
Proof.
  unfold others. induction l as [| s l IH]; simpl; [reflexivity |].
  rewrite finish_id. destruct (String.eqb (fs_id s) fileId); simpl; now rewrite IH.
Qed.

Lemma others_fresh (fileId : string) (l : list FileUploadStatus) :
  ~ In fileId (map fs_id l) -> others fileId l = l.
Proof.
  unfold others. induction l as [| s l IH]; simpl; intro N; [reflexivity |].
  destruct (String.eqb_spec (fs_id s) fileId); [tauto |].
  simpl. f_equal. apply IH. tauto.
Qed.

(** A file with another id keeps the two runs together. *)
Lemma step_others (fileId : string) (e : FileUploadStatus) (s1 s2 : AppState)
    (fileId' : string) (file' : File) :
  fs_id e = fileId -> fileId' <> fileId ->
  data s1 = data s2 ->
  others fileId (uploadStatus s1) = uploadStatus s2 ->
  In e (uploadStatus s1) ->
  data (processFile parseGTF s1 (fileId', file')) =
    data (processFile parseGTF s2 (fileId', file')) /\
  others fileId (uploadStatus (processFile parseGTF s1 (fileId', file'))) =
    uploadStatus (processFile parseGTF s2 (fileId', file')) /\
  In e (uploadStatus (processFile parseGTF s1 (fileId', file'))).
Proof.
  intros Ee N D O I. rewrite !step_data, !step_statuses, D.
  split; [reflexivity |]. split.
  - rewrite others_map_finish. f_equal. unfold others in *.
    rewrite filter_app, O. simpl.
    destruct (String.eqb_spec fileId' fileId); [contradiction | reflexivity].
  - apply in_map_iff. exists e. split.
    + apply finish_other. congruence.
    + apply in_or_app. now left.
Qed.

Lemma run_others (fileId : string) (e : FileUploadStatus)
    (post : list (string * File)) (s1 s2 : AppState) :
  fs_id e = fileId -> ~ In fileId (map fst post) ->
  data s1 = data s2 ->
  others fileId (uploadStatus s1) = uploadStatus s2 ->
  In e (uploadStatus s1) ->
  data (handleSmartUpload parseGTF post s1) = data (handleSmartUpload parseGTF post s2) /\
  others fileId (uploadStatus (handleSmartUpload parseGTF post s1)) =
    uploadStatus (handleSmartUpload parseGTF post s2) /\
  In e (uploadStatus (handleSmartUpload parseGTF post s1)).
Proof.
  intro Ee. revert s1 s2.
  induction post as [| [fileId' file'] post IH]; intros s1 s2 N D O I.
  - auto.
  - simpl in N. rewrite !run_cons.
    assert (N' : fileId' <> fileId) by tauto.
    destruct (step_others fileId e s1 s2 fileId' file' Ee N' D O I)
      as (D' & O' & I').
    apply IH; tauto.
Qed.

(** C7: a comparison file whose name yields no group id ends with an
    error status carrying the message, and the statuses of the other
    files and the data are those of the batch without it. *)
Theorem C7_missing_group_id (pre post : list (string * File))
    (fileId : string) (file : File) (s0 : AppState) :
  is_comparison (detectFileType (file_name file)) = true ->
  detectComparisonId (file_name file) = None ->
  ~ In fileId (map fs_id (uploadStatus s0)) ->
  ~ In fileId (map fst pre) ->
  ~ In fileId (map fst post) ->
  In (mkStatus fileId (file_name file) (detectFileType (file_name file)) None
               error
               (Some (missing_id_message (detectFileType (file_name file)))))
     (uploadStatus (handleSmartUpload parseGTF (pre ++ (fileId, file) :: post) s0)) /\
  others fileId (uploadStatus (handleSmartUpload parseGTF (pre ++ (fileId, file) :: post) s0)) =
    uploadStatus (handleSmartUpload parseGTF (pre ++ post) s0) /\
  data (handleSmartUpload parseGTF (pre ++ (fileId, file) :: post) s0) =
    data (handleSmartUpload parseGTF (pre ++ post) s0).
Proof.
  intros K C N0 Npre Npost.
  rewrite !run_app.
  set (s := handleSmartUpload parseGTF pre s0).
  assert (Fresh : ~ In fileId (map fs_id (uploadStatus s))).
  { unfold s. rewrite run_ids. intro I. apply in_app_or in I. tauto. }
  rewrite run_cons.
  set (e := mkStatus fileId (file_name file) (detectFileType (file_name file))
                     None error
                     (Some (missing_id_message (detectFileType (file_name file))))).
  assert (St : uploadStatus (processFile parseGTF s (fileId, file)) =
               (uploadStatus s ++ [e])%list).
  { rewrite step_statuses, C, tryBlock_missing_id by exact K.
    rewrite map_app, map_finish_fresh by exact Fresh.
    f_equal. cbn [map newStatus snd]. unfold finish, newStatus. cbn [fs_id].
    rewrite String.eqb_refl, C. reflexivity. }
  assert (Dt : data (processFile parseGTF s (fileId, file)) = data s).
  { now rewrite step_data, C, tryBlock_missing_id by exact K. }
  destruct (run_others fileId e post (processFile parseGTF s (fileId, file)) s) as (D & O & I);
    auto.
  - rewrite St. unfold others. rewrite filter_app. simpl.
    rewrite String.eqb_refl. simpl. rewrite app_nil_r.
    now apply others_fresh.
  - rewrite St. apply in_or_app. right. now left.
Qed.

(** A second pass over a statistics, mapping or template file leaves the
    data as the first pass made them: these branches replace. *)
Lemma rerun_replaces (fileId1 fileId2 : string) (file : File) (s0 : AppState) :
  detectFileType (file_name file) = stats \/
  detectFileType (file_name file) = mapping \/
  detectFileType (file_name file) = template ->
  data (handleSmartUpload parseGTF [(fileId2, file)]
          (handleSmartUpload parseGTF [(fileId1, file)] s0)) =
  data (handleSmartUpload parseGTF [(fileId1, file)] s0).
Proof.
  intro K. rewrite !run_cons, !run_nil, !step_data.
  destruct K as [K | [K | K]]; rewrite K; cbn [tryBlock is_comparison andb].
  - destruct (parseTableData file); reflexivity.
  - destruct (parseTableData file); reflexivity.
  - destruct (file_text file); reflexivity.
Qed.

(** C8 fails on an annotation file: a first pass adds its summary to
    [transcriptStats], a second pass over the same file adds it again. *)
Theorem C8_rerun_appends (fileId1 fileId2 : string) (file : File)
    (st : TranscriptStat) (s0 : AppState) :
  detectFileType (file_name file) = gtf_merged \/
  detectFileType (file_name file) = gtf_novel ->
  parseGTF file = Returned st ->
  transcriptStats (processedData (data (handleSmartUpload parseGTF [(fileId1, file)] s0))) =
    (transcriptStats (processedData (data s0)) ++ [st])%list /\
  transcriptStats
    (processedData
       (data (handleSmartUpload parseGTF [(fileId2, file)]
                (handleSmartUpload parseGTF [(fileId1, file)] s0)))) =
    (transcriptStats (processedData (data s0)) ++ [st; st])%list.
Proof.
  intros K P.
  assert (One : forall s fileId,
            transcriptStats (processedData (data (handleSmartUpload parseGTF [(fileId, file)] s))) =
            (transcriptStats (processedData (data s)) ++ [st])%list).
  { intros s fileId. rewrite run_cons, run_nil, step_data.
    destruct K as [K | K]; rewrite K; cbn; rewrite P; reflexivity. }
  split; [apply One |].
  rewrite One, One. now rewrite <- app_assoc.
Qed.

End UploadFacts.

(** ** The properties on the example sheets and uploads *)

Section OnExamples.
#[local] Existing Instance Ref.runtime.
Import JsObject Sheet SheetSpec Dge DgeSpec Upload UploadSpec.
Import Examples UploadExamples.

(** Of 3002 significant points the two dropped are the last two of the
    lowest y, and the kept ones end with the ties in input order. *)
Example downsample_drops_latest_ties :
  List.length (downsample (many_points 3002) []) = 3000%nat /\
  map pt_label (skipn 2997 (downsample (many_points 3002) [])) =
    ["2980"; "2985"; "2990"] /\
  existsb (fun p => String.eqb (pt_label p) "2995" || String.eqb (pt_label p) "3000")
          (downsample (many_points 3002) []) = false.
Proof. vm_compute. repeat split. Qed.

(** 4000 significant and 4000 non-significant points give 3000 and 2000. *)
Example downsample_4000_4000 :
  List.length (downsample (many_points 4000) (dull_points 4000)) = 5000%nat /\
  List.length (filter pt_sig (downsample (many_points 4000) (dull_points 4000))) =
    3000%nat /\
  map pt_label (firstn 3 (skipn 3000 (downsample (many_points 4000) (dull_points 4000)))) =
    ["0"; "2"; "4"].
Proof. vm_compute. repeat split. Qed.



(** C6 as stated fails for a keyword in capitals: no row has the keyword as
    it is written in its lower-cased cells, so that row 0 would be the
    header; the header is row 1. *)
Lemma C6_counterexample :
  map (holds_verbatim ["FDR"]) capitals_grid = [false; false; false] /\
  headerRowIndex capitals_grid ["FDR"] = 1%nat.
Proof. vm_compute. split; reflexivity. Qed.

Lemma C6_header_row_witness :
  nth_error titled_grid 2 = Some [text "Gene"; text "logFC"; text "FDR"] /\
  map (holds_verbatim dgeKeywords) titled_grid = [false; false; true; false] /\
  headerRowIndex titled_grid dgeKeywords = 2%nat.
Proof.
  split; [reflexivity |]. split; [vm_compute; reflexivity |].
  destruct (C6_header_row titled_grid dgeKeywords) as [First _].
  apply (First 2%nat [text "Gene"; text "logFC"; text "FDR"]).
  - lia.
  - reflexivity.
  - exists "logfc". split; [left; reflexivity | vm_compute; reflexivity].
  - intros j r' L N (k & I & M).
    destruct j as [| [| j]]; [| | lia]; simpl in N; injection N as <-;
      repeat (destruct I as [<- | I]; [vm_compute in M; discriminate M |]);
      destruct I.
Defined.

Lemma C7_missing_group_id_witness :
  is_comparison (detectFileType (file_name kegg_file)) = true /\
  detectComparisonId (file_name kegg_file) = None /\
  In (mkStatus "f1" "kegg_results.xlsx" comparison_kegg None error
        (Some "Detected KEGG file but missing Comparison ID (e.g. 'C1', 'Comp1') in filename."))
     (uploadStatus
        (handleSmartUpload no_exons
           [("f0", gtf_file); ("f1", kegg_file); ("f2", gtf_file)] initialApp)) /\
  others "f1"
    (uploadStatus
       (handleSmartUpload no_exons
          [("f0", gtf_file); ("f1", kegg_file); ("f2", gtf_file)] initialApp)) =
  uploadStatus
    (handleSmartUpload no_exons [("f0", gtf_file); ("f2", gtf_file)] initialApp) /\
  data (handleSmartUpload no_exons
          [("f0", gtf_file); ("f1", kegg_file); ("f2", gtf_file)] initialApp) =
  data (handleSmartUpload no_exons [("f0", gtf_file); ("f2", gtf_file)] initialApp).
Proof.
  split; [reflexivity |]. split; [reflexivity |].
  apply (C7_missing_group_id no_exons [("f0", gtf_file)] [("f2", gtf_file)]
           "f1" kegg_file initialApp);
    solve [reflexivity | intros [] | intros [H | []]; discriminate H].
Defined.

Lemma C8_rerun_appends_witness :
  detectFileType (file_name gtf_file) = gtf_merged /\
  transcriptStats
    (processedData
       (data (handleSmartUpload no_exons [("f1", gtf_file)] initialApp))) =
    [mkTranscriptStat "transcripts.gtf" zero zero zero zero] /\
  transcriptStats
    (processedData
       (data (handleSmartUpload no_exons [("f2", gtf_file)]
                (handleSmartUpload no_exons [("f1", gtf_file)] initialApp)))) =
    [mkTranscriptStat "transcripts.gtf" zero zero zero zero;
     mkTranscriptStat "transcripts.gtf" zero zero zero zero].
Proof.
  split; [reflexivity |].
  apply (C8_rerun_appends no_exons "f1" "f2" gtf_file
           (mkTranscriptStat "transcripts.gtf" zero zero zero zero) initialApp);
    [left |]; reflexivity.
Defined.






End OnExamples.

(** ** The classifier and the case of the letters *)

Section CaseFacts.

Lemma lower_char_classes (c : ascii) :
  is_ws (lower_char c) = is_ws c /\ is_sep (lower_char c) = is_sep c /\
  is_digit (lower_char c) = is_digit c /\
  (is_digit c = true -> lower_char c = c) /\
  lower_char (lower_char c) = lower_char c.
Proof.
  destruct c as [[] [] [] [] [] [] [] []]; vm_compute;
    repeat split; intros; congruence.
Qed.

Lemma same_class (c c' : ascii) :
  lower_char c = lower_char c' ->
  is_ws c = is_ws c' /\ is_sep c = is_sep c' /\ is_digit c = is_digit c' /\
  (is_digit c = true -> c = c').
Proof.
  intro E.
  destruct (lower_char_classes c) as (W & S & D & K & _).
  destruct (lower_char_classes c') as (W' & S' & D' & K' & _).
  assert (Dc : is_digit c = is_digit c') by now rewrite <- D, <- D', E.
  repeat split; [now rewrite <- W, <- W', E | now rewrite <- S, <- S', E
                | exact Dc |].
  intro H. rewrite <- (K H), E. apply K'. now rewrite <- Dc.
Qed.

Lemma strip_ci_same (kw s s' : string) :
  toLowerCase s = toLowerCase s' ->
  match strip_ci kw s, strip_ci kw s' with
  | Some t, Some t' => toLowerCase t = toLowerCase t'
  | None, None => True
  | _, _ => False
  end.
Proof.
  revert s s'. induction kw as [| a kw IH]; intros s s' E; simpl.
  - destruct s, s'; exact E.
  - destruct s as [| b s], s' as [| b' s']; simpl in E; try discriminate; [exact I |].
    injection E as Eb E. rewrite Eb.
    destruct (Ascii.eqb (lower_char a) (lower_char b')); [now apply IH | exact I].
Qed.

Lemma skip_ws_same (s s' : string) :
  toLowerCase s = toLowerCase s' ->
  toLowerCase (skip_ws s) = toLowerCase (skip_ws s').
Proof.
  revert s'. induction s as [| c s IH]; intros [| c' s'] E; simpl in E;
    try discriminate; [reflexivity |].
  injection E as Ec E. simpl.
  destruct (same_class c c' Ec) as (<- & _).
  destruct (is_ws c); [now apply IH | simpl; now rewrite Ec, E].
Qed.

Lemma skip_sep_same (s s' : string) :
  toLowerCase s = toLowerCase s' ->
  toLowerCase (skip_sep s) = toLowerCase (skip_sep s').
Proof.
  destruct s as [| c s], s' as [| c' s']; simpl; intro E; try discriminate;
    [reflexivity |].
  injection E as Ec E.
  destruct (same_class c c' Ec) as (_ & <- & _).
  destruct (is_sep c); [exact E | simpl; now rewrite Ec, E].
Qed.

Lemma take_digits_same (s s' : string) :
  toLowerCase s = toLowerCase s' -> take_digits s = take_digits s'.
Proof.
  revert s'. induction s as [| c s IH]; intros [| c' s'] E; simpl in E;
    try discriminate; [reflexivity |].
  injection E as Ec E. simpl.
  destruct (same_class c c' Ec) as (_ & _ & D & K). rewrite <- D.
  destruct (is_digit c); [| reflexivity].
  rewrite <- (K eq_refl). f_equal. now apply IH.
Qed.

Lemma tail_match_same (s s' : string) :
  toLowerCase s = toLowerCase s' -> tail_match s = tail_match s'.
Proof.
  intro E. unfold tail_match.
  now rewrite (take_digits_same _ _
                 (skip_ws_same _ _ (skip_sep_same _ _ (skip_ws_same _ _ E)))).
Qed.

Lemma first_alt_same (alts : list string) (s s' : string) :
  toLowerCase s = toLowerCase s' -> first_alt alts s = first_alt alts s'.
Proof.
  intro E. induction alts as [| kw alts IH]; simpl; [reflexivity |].
  pose proof (strip_ci_same kw s s' E) as H.
  destruct (strip_ci kw s) as [t |], (strip_ci kw s') as [t' |];
    try contradiction; [| exact IH].
  rewrite (tail_match_same t t' H). now rewrite IH.
Qed.

Lemma search_same (s s' : string) :
  toLowerCase s = toLowerCase s' -> search s = search s'.
Proof.
  revert s'. induction s as [| c s IH]; intros [| c' s'] E; simpl in E;
    try discriminate; [reflexivity |].
  cbn [search]. unfold match_here.
  rewrite (first_alt_same alternatives (String c s) (String c' s'))
    by (simpl; exact E).
  injection E as _ E. now rewrite (IH s' E).
Qed.

(** X1: the classifier and the group id read the file name without regard
    to the case of its letters. *)
Theorem X1_classifier_ignores_case (f g : string) :
  toLowerCase f = toLowerCase g ->
  detectFileType f = detectFileType g /\
  detectComparisonId f = detectComparisonId g.
Proof.
  intro E.
  assert (I : detectComparisonId f = detectComparisonId g).
  { unfold detectComparisonId. now rewrite (search_same f g E). }
  split; [| exact I].
  unfold detectFileType, rule_id_fallback. cbv zeta. now rewrite E, I.
Qed.

End CaseFacts.

(** ** The extensions that decide *)

Section ExtensionFacts.

Lemma endsWith_apart (p q s : string) :
  endsWith p q = false -> endsWith q p = false ->
  endsWith s p = true -> endsWith s q = false.
Proof.
  intros Hpq Hqp. induction s as [| c s IH]; cbn [endsWith]; intro H.
  - rewrite orb_false_r in *. apply String.eqb_eq in H. subst p.
    destruct q; [discriminate Hpq | reflexivity].
  - apply orb_true_iff in H. apply orb_false_iff.
    destruct H as [H | H].
    + apply String.eqb_eq in H. subst p. cbn [endsWith] in Hpq.
      apply orb_false_iff in Hpq. destruct Hpq as [N T]. split; assumption.
    + split; [| now apply IH].
      destruct (String.eqb_spec (String c s) q) as [<- |]; [| reflexivity].
      cbn [endsWith] in Hqp. apply orb_false_iff in Hqp. destruct Hqp as [_ T].
      congruence.
Qed.

Ltac apart H := apply (fun q A B => endsWith_apart _ q _ A B H); reflexivity.

(** X2: the extension decides for markup and annotation files: a name
    ending in [.html] or [.htm] is a template, a name ending in [.gtf] an
    annotation, of novel isoforms when it mentions "novel" or "isoform" and
    of merged transcripts otherwise, whatever keywords the name holds. *)
Theorem X2_extension_decides (filename : string) :
  (rule_template (toLowerCase filename) = true ->
   detectFileType filename = template) /\
  (endsWith (toLowerCase filename) ".gtf" = true ->
   detectFileType filename =
     if includes (toLowerCase filename) "novel" ||
        includes (toLowerCase filename) "isoform"
     then gtf_novel else gtf_merged).
Proof.
  unfold detectFileType. cbv zeta.
  generalize (toLowerCase filename) as lower. intro lower. split.
  - intro T. rewrite T.
    assert (B : rule_binary lower = false).
    { unfold rule_template in T. unfold rule_binary.
      apply orb_true_iff in T. destruct T as [T | T];
        repeat (apply orb_false_iff; split); apart T. }
    now rewrite B.
  - intro G.
    assert (B : rule_binary lower = false).
    { unfold rule_binary. repeat (apply orb_false_iff; split); apart G. }
    assert (T : rule_template lower = false).
    { unfold rule_template. repeat (apply orb_false_iff; split); apart G. }
    unfold rule_gtf. now rewrite B, T, G.
Qed.

End ExtensionFacts.

(** ** The width of a row *)

Section RowWidthFacts.
Context {rt : Runtime}.
Import JsObject Sheet SheetSpec.

Lemma cell_at_app (r extra : row) (idx : nat) :
  (idx < List.length r)%nat -> cell_at (r ++ extra)%list idx = cell_at r idx.
Proof. intro L. unfold cell_at. now rewrite nth_error_app1. Qed.

Lemma fill_app (headers : list (option string)) (r extra : row) :
  forall idx o,
    (idx + List.length headers <= List.length r)%nat ->
    fill headers idx (r ++ extra)%list o = fill headers idx r o.
Proof.
  induction headers as [| [h |] hs IH]; intros idx o L; cbn [fill];
    [reflexivity | |]; simpl in L.
  - rewrite cell_at_app by lia. apply IH. lia.
  - apply IH. lia.
Qed.

(** X4: a data row wider than the header row loses the cells beyond the
    last header, and a narrower one reads [undefined] under the headers it
    does not reach. *)
Theorem X4_row_width (headers : list (option string)) (r : row) :
  (forall extra,
     (List.length headers <= List.length r)%nat ->
     rowObject headers (r ++ extra)%list = rowObject headers r) /\
  (forall h j,
     rightmost headers h j -> h <> "__proto__" -> (List.length r <= j)%nat ->
     get h (rowObject headers r) = VUndef).
Proof.
  split.
  - intros extra L. unfold rowObject. now apply fill_app.
  - intros h j R N L. unfold rowObject.
    rewrite (get_fill_rightmost headers 0 r empty h j R N). simpl.
    unfold cell_at. now rewrite (proj2 (nth_error_None r j) L).
Qed.

End RowWidthFacts.

(** ** The terms of an enrichment and the two charts *)

Section EnrichmentFacts.
Context {rt : Runtime}.
Import JsObject Sheet Enrichment.

Lemma termOf_clean (k1 k2 k3 k4 : option string) (row : obj) :
  isNaN (Enrichment.count (termOf k1 k2 k3 k4 row)) = false /\
  isNaN (pAdjust (termOf k1 k2 k3 k4 row)) = false /\
  (category (termOf k1 k2 k3 k4 row) = None <-> key_truthy k3 = false).
Proof.
  unfold termOf. cbn [Enrichment.count pAdjust category]. repeat split.
  - destruct (key_truthy k2 && _); [| reflexivity].
    destruct (isNaN (JsValue.parseInt (get_opt k2 row))) eqn:E; simpl;
      [reflexivity | exact E].
  - destruct (key_truthy k4 && _); [| reflexivity].
    destruct (isNaN (JsValue.parseFloat (get_opt k4 row))) eqn:E; simpl;
      [reflexivity | exact E].
  - destruct (key_truthy k3); [discriminate | reflexivity].
  - intros ->. reflexivity.
Qed.

(** X5: the enrichment extractor gives the first 50 rows at most, a count
    and an adjusted p-value that are never [NaN], and a category on every
    term or on none. *)
Theorem X5_enrichment_terms (jsonData : list obj) :
  List.length (extract jsonData) = Nat.min 50 (List.length jsonData) /\
  (forall t, In t (extract jsonData) ->
     isNaN (Enrichment.count t) = false /\ isNaN (pAdjust t) = false) /\
  (forall a b, In a (extract jsonData) -> In b (extract jsonData) ->
     (category a = None <-> category b = None)).
Proof.
  unfold extract. destruct jsonData as [| row0 rest]; [now repeat split |].
  cbv zeta. repeat split.
  - rewrite length_map, length_firstn. reflexivity.
  - apply in_map_iff in H. destruct H as (row & <- & _). apply termOf_clean.
  - apply in_map_iff in H. destruct H as (row & <- & _). apply termOf_clean.
  - apply in_map_iff in H. destruct H as (ra & <- & _).
    apply in_map_iff in H0. destruct H0 as (rb & <- & _).
    intro C. apply termOf_clean. now apply termOf_clean in C.
  - apply in_map_iff in H. destruct H as (ra & <- & _).
    apply in_map_iff in H0. destruct H0 as (rb & <- & _).
    intro C. apply termOf_clean. now apply termOf_clean in C.
Qed.

End EnrichmentFacts.

Section ChartFacts.
Context {rt : Runtime}.
Import JsObject Sheet SheetSpec Dge DgeSpec.

Lemma visit_sig_length (k1 k2 k3 k4 : option string) (a : acc) (row : obj) :
  List.length (sigPoints a) = sigTotal (a_stats a) ->
  List.length (sigPoints (visit k1 k2 k3 k4 a row)) =
  sigTotal (a_stats (visit k1 k2 k3 k4 a row)).
Proof.
  intro H. unfold visit. cbv zeta.
  destruct (isNaN (fcOf k1 row) || isNaN (fdrOf k2 row)); [exact H |].
  unfold count. cbv zeta.
  destruct (isSig (fcOf k1 row) (fdrOf k2 row)); cbn [sigPoints a_stats].
  - rewrite length_app, H. cbn [List.length].
    destruct (gt (fcOf k1 row) zero); [| destruct (lt (fcOf k1 row) zero)];
      cbn [sigTotal total up down sigUp sigDown]; lia.
  - destruct (gt (fcOf k1 row) zero); [| destruct (lt (fcOf k1 row) zero)];
      cbn [sigTotal total up down sigUp sigDown]; exact H.
Qed.

Lemma visitAll_sig_length (k1 k2 k3 k4 : option string) (jsonData : list obj) :
  List.length (sigPoints (visitAll k1 k2 k3 k4 jsonData)) =
  sigTotal (a_stats (visitAll k1 k2 k3 k4 jsonData)).
Proof.
  unfold visitAll.
  assert (G : forall rows a,
             List.length (sigPoints a) = sigTotal (a_stats a) ->
             List.length (sigPoints (fold_left (visit k1 k2 k3 k4) rows a)) =
             sigTotal (a_stats (fold_left (visit k1 k2 k3 k4) rows a))).
  { induction rows as [| r rows IH]; intros a H; simpl; [exact H |].
    apply IH. now apply visit_sig_length. }
  now apply G.
Qed.

Lemma keptSig_min (sigPts : list point) :
  List.length (keptSig sigPts) = Nat.min (List.length sigPts) SIG_LIMIT.
Proof.
  unfold keptSig.
  destruct (Nat.leb_spec (List.length sigPts) SIG_LIMIT) as [L | L].
  - now rewrite Nat.min_l.
  - rewrite length_firstn, sort_length. lia.
Qed.

Lemma filter_map_swap (A B : Type) (f : B -> bool) (g : A -> B) (l : list A) :
  filter f (map g l) = map g (filter (fun x => f (g x)) l).
Proof.
  induction l as [| x l IH]; simpl; [reflexivity |].
  destruct (f (g x)); simpl; now rewrite IH.
Qed.

(** X6: the two charts of a comparison show the same genes in the same
    order, the y of the MA chart being the x of the volcano chart; they hold
    5000 points at most, and the significant ones among them are as many as
    the significant count, 3000 at most. *)
Theorem X6_charts_aligned (jsonData : list obj) :
  map cp_label (volcanoPoints (summarize jsonData)) =
    map cp_label (maPoints (summarize jsonData)) /\
  map cp_sig (volcanoPoints (summarize jsonData)) =
    map cp_sig (maPoints (summarize jsonData)) /\
  map cp_x (volcanoPoints (summarize jsonData)) =
    map cp_y (maPoints (summarize jsonData)) /\
  (List.length (volcanoPoints (summarize jsonData)) <= MAX_POINTS)%nat /\
  List.length (filter cp_sig (volcanoPoints (summarize jsonData))) =
    Nat.min (sigCount (summarize jsonData)) SIG_LIMIT.
Proof.
  unfold summarize. destruct jsonData as [| row0 rest].
  - cbn [volcanoPoints maPoints emptyResult map sigCount filter List.length].
    repeat split. apply Nat.le_0_l.
  - cbv zeta. cbn [volcanoPoints maPoints sigCount]. rewrite !map_map.
    set (k1 := logFCKeyOf (keys row0)). set (k2 := fdrKeyOf (keys row0)).
    set (k3 := cpmKeyOf (keys row0)). set (k4 := idKeyOf (keys row0)).
    destruct (visitAll_partition k1 k2 k3 k4 (row0 :: rest)) as [S N].
    repeat split.
    + rewrite length_map. apply downsample_length.
    + rewrite filter_map_swap, length_map.
      change (fun x => cp_sig (volcanoOf x)) with pt_sig.
      rewrite (filter_sig_downsample _ _ S N), keptSig_min.
      now rewrite visitAll_sig_length.
Qed.

End ChartFacts.

(** ** The handler and the data *)

Section StoreFacts.
Import Upload.

Lemma lookup_store_same (k : string) (c : ComparisonData) (m : Comparisons) :
  lookup k (store k c m) = Some c.
Proof.
  induction m as [| [k' c'] m IH]; simpl.
  - now rewrite String.eqb_refl.
  - destruct (String.eqb k k') eqn:E; simpl; rewrite E; [reflexivity | exact IH].
Qed.

Lemma lookup_store_other (k k' : string) (c : ComparisonData) (m : Comparisons) :
  k <> k' -> lookup k (store k' c m) = lookup k m.
Proof.
  intro N. induction m as [| [k0 c0] m IH]; simpl.
  - now rewrite (proj2 (String.eqb_neq k k') N).
  - destruct (String.eqb_spec k' k0) as [-> | N0]; simpl.
    + now rewrite (proj2 (String.eqb_neq k k0) N).
    + destruct (String.eqb k k0); [reflexivity | exact IH].
Qed.

Lemma lookup_store_kept (k k' : string) (c c' : ComparisonData) (m : Comparisons) :
  lookup k m = Some c -> lookup k' m = Some c' ->
  lookup k (store k' c' m) = Some c.
Proof.
  intros H H'. destruct (String.eqb_spec k k') as [-> | N].
  - rewrite lookup_store_same. congruence.
  - now rewrite lookup_store_other.
Qed.

End StoreFacts.

Section UploadMore.
Context {rt : Runtime}.
Import Upload UploadSpec.
Variable parseGTF : File -> outcome TranscriptStat.

Lemma finish_settles (fileId : string) (fl : flow) (s : FileUploadStatus) :
  fs_id s = fileId -> fs_status (finish fileId fl s) <> pending.
Proof.
  intros <-. unfold finish. rewrite String.eqb_refl.
  destruct fl; discriminate.
Qed.

Lemma step_settles (st : AppState) (entry : string * File) (s : FileUploadStatus) :
  In s (uploadStatus (processFile parseGTF st entry)) ->
  fs_status s <> pending \/ In s (uploadStatus st).
Proof.
  destruct entry as [fileId file]. unfold processFile.
  destruct (tryBlock parseGTF file _ _ (data st)) as [d fl].
  cbn [uploadStatus]. intro I. apply in_map_iff in I.
  destruct I as (s0 & <- & I).
  destruct (String.eqb_spec (fs_id s0) fileId) as [E | N].
  - left. now apply finish_settles.
  - unfold finish. rewrite (proj2 (String.eqb_neq _ _) N).
    apply in_app_or in I. destruct I as [I | [<- | []]]; [now right |].
    now contradiction N.
Qed.

(** X7: when the handler is through with a batch no file of the batch is
    left pending: every status is a success or an error, or is a status
    that was there before and has not been touched. *)
Theorem X7_no_status_left_pending (files : list (string * File)) (st : AppState) :
  Forall (fun s => fs_status s <> pending \/ In s (uploadStatus st))
         (uploadStatus (handleSmartUpload parseGTF files st)).
Proof.
  apply Forall_forall. revert st. unfold handleSmartUpload.
  induction files as [| entry files IH]; intros st s I; simpl in I.
  - now right.
  - destruct (IH _ _ I) as [P | I']; [now left |].
    now apply step_settles in I'.
Qed.

Lemma tryBlock_raised (file : File) (kind : FileKind) (compId : option string)
    (d d' : Data) (m : string) :
  tryBlock parseGTF file kind compId d = (d', Raised m) ->
  d' = d \/
  exists id, compId = Some id /\ is_comparison kind = true /\
             d' = setProcessedData (ensureComparison id) d.
Proof.
  destruct kind; cbn [tryBlock is_comparison andb]; try discriminate.
  - destruct (parseTableData file); intro H; inversion H; now left.
  - destruct (parseTableData file); intro H; inversion H; now left.
  - destruct (parseDGESummary file); intro H; inversion H; now left.
  - destruct compId as [[| c id] |]; cbn [key_truthy negb];
      try (intro H; inversion H; now left).
    destruct (parseComparisonDGE file); intro H; inversion H.
    right. now exists (String c id).
  - destruct compId as [[| c id] |]; cbn [key_truthy negb];
      try (intro H; inversion H; now left).
    destruct (parseEnrichment file); intro H; inversion H.
    right. now exists (String c id).
  - destruct compId as [[| c id] |]; cbn [key_truthy negb];
      try (intro H; inversion H; now left).
    destruct (parseEnrichment file); intro H; inversion H.
    right. now exists (String c id).
  - destruct (file_text file); intro H; inversion H; now left.
  - destruct (parseGTF file); intro H; inversion H; now left.
  - destruct (parseGTF file); intro H; inversion H; now left.
Qed.

Lemma new_status_flow (st : AppState) (fileId : string) (file : File)
    (s : FileUploadStatus) :
  ~ In fileId (map fs_id (uploadStatus st)) ->
  In s (uploadStatus (processFile parseGTF st (fileId, file))) ->
  fs_id s = fileId ->
  s = finish fileId
        (snd (tryBlock parseGTF file (detectFileType (file_name file))
                       (detectComparisonId (file_name file)) (data st)))
        (newStatus fileId file).
Proof.
  intros F I E. unfold processFile in I.
  destruct (tryBlock parseGTF file _ _ (data st)) as [d fl].
  cbn [uploadStatus snd] in *. apply in_map_iff in I.
  destruct I as (s0 & <- & I). apply in_app_or in I.
  destruct I as [I | [<- | []]]; [| reflexivity].
  exfalso. apply F. apply in_map_iff. exists s0. split; [| exact I].
  unfold finish in E. destruct (String.eqb_spec (fs_id s0) fileId) as [E0 | N].
  - exact E0.
  - exact E.
Qed.

(** X8: a file that ends as an error leaves the data as they were, but for
    the entry of its own comparison, which a comparison file creates, empty,
    before it is parsed. *)
Theorem X8_failed_upload_keeps_data (st : AppState) (fileId : string)
    (file : File) (s : FileUploadStatus) :
  ~ In fileId (map fs_id (uploadStatus st)) ->
  In s (uploadStatus (processFile parseGTF st (fileId, file))) ->
  fs_id s = fileId -> fs_status s = error ->
  let d := data st in
  let d' := data (processFile parseGTF st (fileId, file)) in
  novelIsoforms d' = novelIsoforms d /\
  mergedTranscripts d' = mergedTranscripts d /\
  customTemplate d' = customTemplate d /\
  dataStatsTable (processedData d') = dataStatsTable (processedData d) /\
  mappingStatsTable (processedData d') = mappingStatsTable (processedData d) /\
  transcriptStats (processedData d') = transcriptStats (processedData d) /\
  dgeSummaryTable (processedData d') = dgeSummaryTable (processedData d) /\
  (forall k c, lookup k (comparisons (processedData d)) = Some c ->
               lookup k (comparisons (processedData d')) = Some c) /\
  (forall k c, lookup k (comparisons (processedData d)) = None ->
               lookup k (comparisons (processedData d')) = Some c ->
               detectComparisonId (file_name file) = Some k /\
               cd_id c = k /\ cd_sigCount c = zero /\ cd_stats c = None /\
               cd_maPoints c = [] /\ cd_volcanoPoints c = [] /\
               cd_goTerms c = [] /\ cd_keggPathways c = []).
Proof.
  intros F I E S. cbv zeta.
  pose proof (new_status_flow st fileId file s F I E) as ->.
  unfold processFile.
  destruct (tryBlock parseGTF file _ _ (data st)) as [d' fl] eqn:T.
  cbn [data snd] in *.
  assert (R : exists m, fl = Raised m).
  { unfold finish, newStatus in S. cbn [fs_id] in S.
    rewrite String.eqb_refl in S.
    destruct fl as [| | | m]; try discriminate S. now exists m. }
  destruct R as [m ->].
  destruct (tryBlock_raised _ _ _ _ _ _ T) as [-> | (id & C & K & ->)].
  - do 8 (split; [now auto |]). intros k c N L. congruence.
  - unfold setProcessedData, ensureComparison.
    cbn [novelIsoforms mergedTranscripts customTemplate processedData
         dataStatsTable mappingStatsTable transcriptStats dgeSummaryTable
         comparisons].
    do 7 (split; [reflexivity |]). split.
    + intros k c L. destruct (String.eqb_spec k id) as [-> | N].
      * rewrite lookup_store_same. now rewrite L.
      * now rewrite lookup_store_other.
    + intros k c N L. destruct (String.eqb_spec k id) as [-> | N'].
      * rewrite lookup_store_same, N in L. inversion L. now repeat split.
      * rewrite lookup_store_other in L by exact N'. congruence.
Qed.

(** How the loop body ends does not depend on the data. *)
Lemma flow_of_file (file : File) (kind : FileKind) (compId : option string)
    (d d' : Data) :
  snd (tryBlock parseGTF file kind compId d) =
  snd (tryBlock parseGTF file kind compId d').
Proof.
  destruct kind; cbn [tryBlock is_comparison andb]; try reflexivity.
  - now destruct (parseTableData file).
  - now destruct (parseTableData file).
  - now destruct (parseDGESummary file).
  - destruct compId as [[| c id] |]; cbn [key_truthy negb]; try reflexivity.
    now destruct (parseComparisonDGE file).
  - destruct compId as [[| c id] |]; cbn [key_truthy negb]; try reflexivity.
    now destruct (parseEnrichment file).
  - destruct compId as [[| c id] |]; cbn [key_truthy negb]; try reflexivity.
    now destruct (parseEnrichment file).
  - now destruct (file_text file).
  - now destruct (parseGTF file).
  - now destruct (parseGTF file).
Qed.

Lemma removal_commutes (fileId : string) (post : list (string * File)) :
  ~ In fileId (map fst post) ->
  forall s1 s2,
    others fileId (uploadStatus s1) = uploadStatus s2 ->
    others fileId (uploadStatus (handleSmartUpload parseGTF post s1)) =
    uploadStatus (handleSmartUpload parseGTF post s2).
Proof.
  unfold handleSmartUpload.
  induction post as [| [fileId' file'] post IH]; intros N s1 s2 O;
    [exact O |].
  simpl in N. cbn [fold_left]. apply IH; [tauto |].
  rewrite !step_statuses.
  rewrite (flow_of_file file' _ _ (data s1) (data s2)).
  generalize (snd (tryBlock parseGTF file' (detectFileType (file_name file'))
                            (detectComparisonId (file_name file')) (data s2))).
  intro fl. rewrite others_map_finish. f_equal.
  unfold others in *. rewrite filter_app, O. f_equal. simpl.
  destruct (String.eqb_spec fileId' fileId); [tauto | reflexivity].
Qed.

(** X9: removing a file from the list after a batch gives the list the
    batch without that file would have given; the data keep what the file
    has contributed. *)
Theorem X9_removeFile_after_upload (pre post : list (string * File))
    (fileId : string) (file : File) (s0 : AppState) :
  ~ In fileId (map fs_id (uploadStatus s0)) ->
  ~ In fileId (map fst pre) ->
  ~ In fileId (map fst post) ->
  uploadStatus
    (App.removeFile fileId
       (handleSmartUpload parseGTF (pre ++ (fileId, file) :: post) s0)) =
    uploadStatus (handleSmartUpload parseGTF (pre ++ post) s0) /\
  data (App.removeFile fileId
          (handleSmartUpload parseGTF (pre ++ (fileId, file) :: post) s0)) =
    data (handleSmartUpload parseGTF (pre ++ (fileId, file) :: post) s0).
Proof.
  intros N0 Npre Npost. split; [| reflexivity].
  unfold App.removeFile. cbn [uploadStatus].
  change (filter (fun s => negb (String.eqb (fs_id s) fileId))) with (others fileId).
  rewrite !(run_app parseGTF), run_cons.
  apply (removal_commutes fileId post Npost).
  set (s := handleSmartUpload parseGTF pre s0).
  assert (Fresh : ~ In fileId (map fs_id (uploadStatus s))).
  { unfold s. rewrite run_ids. intro I. apply in_app_or in I. tauto. }
  rewrite step_statuses, others_map_finish.
  unfold others at 1. rewrite filter_app. cbn [filter newStatus fs_id].
  rewrite String.eqb_refl. cbn [negb]. rewrite app_nil_r.
  fold (others fileId (uploadStatus s)). rewrite others_fresh by exact Fresh.
  now apply map_finish_fresh.
Qed.

Lemma id_truthy (name cid : string) :
  detectComparisonId name = Some cid -> key_truthy (Some cid) = true.
Proof.
  unfold detectComparisonId. destruct (search name); [| discriminate].
  intro H. now inversion H.
Qed.

(** What a file of each kind that is read without an error makes of the
    data. *)
Lemma step_summary (st : AppState) (fileId : string) (file : File)
    (raw : list JsObject.obj) :
  detectFileType (file_name file) = dge_summary ->
  parseDGESummary file = Returned raw ->
  data (processFile parseGTF st (fileId, file)) =
  setProcessedData (applySummary (map summaryRowOf raw)) (data st).
Proof.
  intros K P. rewrite step_data, K. cbn [tryBlock is_comparison andb].
  now rewrite P.
Qed.

Lemma step_dge (st : AppState) (fileId : string) (file : File) (cid : string)
    (dgeData : Dge.DgeResult) :
  detectFileType (file_name file) = comparison_dge ->
  detectComparisonId (file_name file) = Some cid ->
  parseComparisonDGE file = Returned dgeData ->
  data (processFile parseGTF st (fileId, file)) =
  setProcessedData (applyDge cid dgeData)
    (setProcessedData (ensureComparison cid) (data st)).
Proof.
  intros K C P. rewrite step_data, K, C. cbn [tryBlock is_comparison andb].
  rewrite (id_truthy _ _ C). cbn [negb]. now rewrite P.
Qed.

Lemma step_go (st : AppState) (fileId : string) (file : File) (cid : string)
    (terms : list Enrichment.EnrichmentTerm) :
  detectFileType (file_name file) = comparison_go ->
  detectComparisonId (file_name file) = Some cid ->
  parseEnrichment file = Returned terms ->
  data (processFile parseGTF st (fileId, file)) =
  setProcessedData (applyGo cid terms)
    (setProcessedData (ensureComparison cid) (data st)).
Proof.
  intros K C P. rewrite step_data, K, C. cbn [tryBlock is_comparison andb].
  rewrite (id_truthy _ _ C). cbn [negb]. now rewrite P.
Qed.

Lemma step_kegg (st : AppState) (fileId : string) (file : File) (cid : string)
    (terms : list Enrichment.EnrichmentTerm) :
  detectFileType (file_name file) = comparison_kegg ->
  detectComparisonId (file_name file) = Some cid ->
  parseEnrichment file = Returned terms ->
  data (processFile parseGTF st (fileId, file)) =
  setProcessedData (applyKegg cid terms)
    (setProcessedData (ensureComparison cid) (data st)).
Proof.
  intros K C P. rewrite step_data, K, C. cbn [tryBlock is_comparison andb].
  rewrite (id_truthy _ _ C). cbn [negb]. now rewrite P.
Qed.

(** X10: an enrichment file of a comparison changes nothing but the terms
    of its kind in the entry of that comparison, which it creates when it is
    not there. *)
Theorem X10_enrichment_upload_is_local (st : AppState) (fileId : string)
    (file : File) (cid : string) (terms : list Enrichment.EnrichmentTerm) :
  detectFileType (file_name file) = comparison_go \/
  detectFileType (file_name file) = comparison_kegg ->
  detectComparisonId (file_name file) = Some cid ->
  parseEnrichment file = Returned terms ->
  let d := data st in
  let d' := data (processFile parseGTF st (fileId, file)) in
  novelIsoforms d' = novelIsoforms d /\
  mergedTranscripts d' = mergedTranscripts d /\
  customTemplate d' = customTemplate d /\
  dataStatsTable (processedData d') = dataStatsTable (processedData d) /\
  mappingStatsTable (processedData d') = mappingStatsTable (processedData d) /\
  transcriptStats (processedData d') = transcriptStats (processedData d) /\
  dgeSummaryTable (processedData d') = dgeSummaryTable (processedData d) /\
  (forall k, k <> cid ->
     lookup k (comparisons (processedData d')) =
     lookup k (comparisons (processedData d))) /\
  exists c,
    lookup cid (comparisons (processedData d')) = Some c /\
    (detectFileType (file_name file) = comparison_go ->
     cd_goTerms c = terms /\
     forall c0, lookup cid (comparisons (processedData d)) = Some c0 ->
       c = mkComparison (cd_id c0) (cd_name c0) (cd_description c0)
             (cd_sigCount c0) (cd_stats c0) (cd_maPoints c0)
             (cd_volcanoPoints c0) terms (cd_keggPathways c0)) /\
    (detectFileType (file_name file) = comparison_kegg ->
     cd_keggPathways c = terms /\
     forall c0, lookup cid (comparisons (processedData d)) = Some c0 ->
       c = mkComparison (cd_id c0) (cd_name c0) (cd_description c0)
             (cd_sigCount c0) (cd_stats c0) (cd_maPoints c0)
             (cd_volcanoPoints c0) (cd_goTerms c0) terms).
Proof.
  intros K C P. cbv zeta.
  assert (E : data (processFile parseGTF st (fileId, file)) =
              setProcessedData
                (if FileKind_eqb (detectFileType (file_name file)) comparison_go
                 then applyGo cid terms else applyKegg cid terms)
                (setProcessedData (ensureComparison cid) (data st))).
  { destruct K as [K | K]; rewrite K; cbn [FileKind_eqb];
      [now apply step_go | now apply step_kegg]. }
  rewrite E. clear E.
  unfold setProcessedData, applyGo, applyKegg, comparisonAt, ensureComparison.
  destruct K as [K | K]; rewrite K; cbn [FileKind_eqb];
    cbn [novelIsoforms mergedTranscripts customTemplate processedData
         dataStatsTable mappingStatsTable transcriptStats dgeSummaryTable
         comparisons];
    rewrite !lookup_store_same;
    (do 7 (split; [reflexivity |]));
    (split; [intros k N; now rewrite !lookup_store_other by exact N |]);
    eexists; (split; [reflexivity |]); cbn [cd_goTerms cd_keggPathways];
    (split; [intros D | intros D]); try discriminate D;
    (split; [reflexivity |]); intros c0 L; rewrite L; reflexivity.
Qed.

Lemma mergeSummaryRow_keeps (m : Comparisons) (row : SummaryRow) (k : string)
    (c : ComparisonData) :
  lookup k m = Some c ->
  exists c',
    lookup k (mergeSummaryRow m row) = Some c' /\
    cd_id c' = cd_id c /\ cd_name c' = cd_name c /\
    cd_sigCount c' = cd_sigCount c /\ cd_stats c' = cd_stats c /\
    cd_maPoints c' = cd_maPoints c /\ cd_volcanoPoints c' = cd_volcanoPoints c /\
    cd_goTerms c' = cd_goTerms c /\ cd_keggPathways c' = cd_keggPathways c /\
    (cd_description c' = cd_description c \/
     (JsValue.truthy (row_desc row) = true /\ cd_description c' = row_desc row)).
Proof.
  intro L. unfold mergeSummaryRow.
  destruct (first_digits (JsValue.toString (row_comp row))) as [rowNum |];
    [| exists c; now repeat split; auto].
  destruct (String.eqb_spec k ("C" ++ rowNum)) as [-> | N].
  - rewrite L, lookup_store_same. eexists. split; [reflexivity |].
    cbn [cd_id cd_name cd_sigCount cd_stats cd_maPoints cd_volcanoPoints
         cd_goTerms cd_keggPathways cd_description].
    do 8 (split; [reflexivity |]). unfold JsValue.or_else.
    destruct (JsValue.truthy (row_desc row)); [right | left]; auto.
  - exists c. split; [| now repeat split; auto].
    destruct (lookup ("C" ++ rowNum) m); now rewrite lookup_store_other.
Qed.

(** X11: a summary file replaces the summary table and keeps every
    comparison that is there, with its name, counts, charts and terms; of
    such a comparison it can only change the description, to the description
    of one of its rows. *)
Theorem X11_summary_keeps_comparisons (summary : list SummaryRow)
    (prev : ProcessedData) (k : string) (c : ComparisonData) :
  lookup k (comparisons prev) = Some c ->
  exists c',
    lookup k (comparisons (applySummary summary prev)) = Some c' /\
    cd_id c' = cd_id c /\ cd_name c' = cd_name c /\
    cd_sigCount c' = cd_sigCount c /\ cd_stats c' = cd_stats c /\
    cd_maPoints c' = cd_maPoints c /\ cd_volcanoPoints c' = cd_volcanoPoints c /\
    cd_goTerms c' = cd_goTerms c /\ cd_keggPathways c' = cd_keggPathways c /\
    (cd_description c' = cd_description c \/
     exists row, In row summary /\ JsValue.truthy (row_desc row) = true /\
                 cd_description c' = row_desc row).
Proof.
  unfold applySummary. cbn [comparisons].
  generalize (comparisons prev) as m. revert c.
  induction summary as [| row summary IH]; intros c m L; cbn [fold_left].
  - exists c. now repeat split; auto.
  - destruct (mergeSummaryRow_keeps m row k c L)
      as (c1 & L1 & E1 & E2 & E3 & E4 & E5 & E6 & E7 & E8 & D1).
    destruct (IH c1 _ L1)
      as (c2 & L2 & F1 & F2 & F3 & F4 & F5 & F6 & F7 & F8 & D2).
    exists c2. split; [exact L2 |].
    do 8 (split; [congruence |]).
    destruct D2 as [D2 | (r & I & T & D2)].
    + destruct D1 as [D1 | [T D1]]; [left; congruence |].
      right. exists row. repeat split; [now left | exact T | congruence].
    + right. exists r. repeat split; [now right | exact T | exact D2].
Qed.

Lemma mergeEntry_length (cid : string) (entry : SummaryRow)
    (table : list SummaryRow) :
  List.length (mergeEntry cid entry table) =
  (List.length table + if existsb (comp_is cid) table then 0 else 1)%nat.
Proof.
  induction table as [| row table IH]; simpl; [reflexivity |].
  destruct (comp_is cid row); simpl; [lia | rewrite IH; lia].
Qed.

Lemma mergeEntry_In (cid : string) (entry : SummaryRow) (table : list SummaryRow) :
  In entry (mergeEntry cid entry table).
Proof.
  induction table as [| row table IH]; simpl; [now left |].
  destruct (comp_is cid row); simpl; auto.
Qed.

Lemma parsed_sigCount (file : File) (dgeData : Dge.DgeResult) :
  parseComparisonDGE file = Returned dgeData ->
  Dge.sigCount dgeData = Dge.sigTotal (Dge.stats dgeData).
Proof.
  unfold parseComparisonDGE, bind.
  destruct (file_sheet file) as [[rawData |] | m]; try discriminate;
    intro H; inversion H; [| reflexivity].
  unfold Dge.parseComparisonDGE, Dge.summarize.
  now destruct (Sheet.smartSheetToJson rawData Dge.dgeKeywords).
Qed.

Lemma insertE_total (A : Type) (comparefn : A -> A -> outcome num)
    (order : A -> A -> num) (a : A) (l : list A) :
  (forall b, comparefn a b = Returned (order a b)) ->
  insertE comparefn a l = Returned (JsSort.insert order a l).
Proof.
  intro T. induction l as [| b l IH]; cbn [insertE JsSort.insert]; [reflexivity |].
  rewrite T. unfold JsSort.after. destruct (gt (order a b) zero); [| reflexivity].
  now rewrite IH.
Qed.

(** A comparator that throws on no element of the array gives the stable
    sort. *)
Lemma sortE_total (A : Type) (comparefn : A -> A -> outcome num)
    (order : A -> A -> num) (l : list A) :
  Forall (fun a => forall b, comparefn a b = Returned (order a b)) l ->
  sortE comparefn l = Returned (JsSort.sort order l).
Proof.
  induction 1 as [| a l T _ IH]; [reflexivity |].
  unfold sortE in *. cbn [fold_right JsSort.sort]. rewrite IH.
  now apply insertE_total.
Qed.

Lemma byComp_text (a : SummaryRow) :
  textual a -> forall b, byComp a b = Returned (byText a b).
Proof. intros [s E] b. unfold byComp, byText. now rewrite E. Qed.

Lemma sort_textual (table : list SummaryRow) :
  Forall textual table ->
  sortE byComp table = Returned (JsSort.sort byText table).
Proof.
  intro T. apply sortE_total. apply Forall_forall. intros a I.
  apply byComp_text. rewrite Forall_forall in T. now apply T.
Qed.

Lemma mergeEntry_textual (cid : string) (entry : SummaryRow)
    (table : list SummaryRow) :
  textual entry -> Forall textual table ->
  Forall textual (mergeEntry cid entry table).
Proof.
  intros E. induction 1 as [| row table R F IH]; cbn [mergeEntry].
  - now repeat constructor.
  - destruct (comp_is cid row); now constructor.
Qed.

(** On a table whose rows all have text for [comp] the update goes
    through: the table is the merged one, sorted, and the entry of the
    comparison is replaced. *)
Lemma applyDge_textual (cid : string) (dgeData : Dge.DgeResult)
    (prev : ProcessedData) :
  Forall textual (dgeSummaryTable prev) ->
  let c := comparisonAt cid prev in
  let entry :=
    mkRow (VStr cid) (cd_description c)
          (of_nat (Dge.total (Dge.stats dgeData)))
          (of_nat (Dge.down (Dge.stats dgeData)))
          (of_nat (Dge.up (Dge.stats dgeData)))
          (of_nat (Dge.sigDown (Dge.stats dgeData)))
          (of_nat (Dge.sigUp (Dge.stats dgeData)))
          (of_nat (Dge.sigTotal (Dge.stats dgeData))) in
  applyDge cid dgeData prev =
  mkProcessed (dataStatsTable prev) (mappingStatsTable prev)
    (transcriptStats prev)
    (JsSort.sort byText (mergeEntry cid entry (dgeSummaryTable prev)))
    (store cid
       (mkComparison (cd_id c) (cd_name c) (cd_description c)
          (of_nat (Dge.sigCount dgeData)) (Some (Dge.stats dgeData))
          (Dge.maPoints dgeData) (Dge.volcanoPoints dgeData)
          (cd_goTerms c) (cd_keggPathways c))
       (comparisons prev)).
Proof.
  intro T. cbv zeta. unfold applyDge. cbv zeta.
  cbn [cd_description].
  rewrite sort_textual; [reflexivity |].
  apply mergeEntry_textual; [| exact T]. now eexists.
Qed.

(** X12: after a differential-expression file of a comparison, on a summary
    table whose rows all have text for [comp], the entry of the comparison
    holds the counts and the charts of the file, and the summary table has
    a row of that comparison with the same counts: the significant count of
    the entry is the [sig] of the row and the [sigTotal] of the counts. *)
Theorem X12_dge_upload_counts (st : AppState) (fileId : string) (file : File)
    (cid : string) (dgeData : Dge.DgeResult) :
  detectFileType (file_name file) = comparison_dge ->
  detectComparisonId (file_name file) = Some cid ->
  parseComparisonDGE file = Returned dgeData ->
  Forall textual (dgeSummaryTable (processedData (data st))) ->
  let p' := processedData (data (processFile parseGTF st (fileId, file))) in
  exists c row,
    lookup cid (comparisons p') = Some c /\
    cd_stats c = Some (Dge.stats dgeData) /\
    cd_maPoints c = Dge.maPoints dgeData /\
    cd_volcanoPoints c = Dge.volcanoPoints dgeData /\
    cd_sigCount c = of_nat (Dge.sigTotal (Dge.stats dgeData)) /\
    In row (dgeSummaryTable p') /\
    row_comp row = VStr cid /\ row_desc row = cd_description c /\
    row_total row = of_nat (Dge.total (Dge.stats dgeData)) /\
    row_downTotal row = of_nat (Dge.down (Dge.stats dgeData)) /\
    row_upTotal row = of_nat (Dge.up (Dge.stats dgeData)) /\
    row_sigDown row = of_nat (Dge.sigDown (Dge.stats dgeData)) /\
    row_sigUp row = of_nat (Dge.sigUp (Dge.stats dgeData)) /\
    row_sig row = cd_sigCount c.
Proof.
  intros K C P T. cbv zeta. rewrite (step_dge _ _ _ cid dgeData K C P).
  unfold setProcessedData. cbn [processedData].
  rewrite applyDge_textual by exact T. cbv zeta.
  cbn [comparisons dgeSummaryTable].
  rewrite lookup_store_same. eexists. eexists.
  split; [reflexivity |].
  cbn [cd_stats cd_maPoints cd_volcanoPoints cd_sigCount cd_description].
  do 3 (split; [reflexivity |]).
  split; [now rewrite (parsed_sigCount _ _ P) |].
  split.
  - eapply Permutation_in; [apply Permutation_sym, sort_perm |].
    apply mergeEntry_In.
  - cbn [row_comp row_desc row_total row_downTotal row_upTotal row_sigDown
         row_sigUp row_sig].
    repeat split. now rewrite (parsed_sigCount _ _ P).
Qed.

(** X13: on a summary table whose rows all have text for [comp], the table
    gets one row more from a differential-expression file whose comparison
    has no row in it, and no row more from one whose comparison has: a
    second pass over the file leaves the number of rows as the first pass
    made it. *)
Theorem X13_dge_reupload_keeps_rows (cid : string) (d1 d2 : Dge.DgeResult)
    (prev : ProcessedData) :
  Forall textual (dgeSummaryTable prev) ->
  List.length (dgeSummaryTable (applyDge cid d1 prev)) =
    (List.length (dgeSummaryTable prev) +
     if existsb (comp_is cid) (dgeSummaryTable prev) then 0 else 1)%nat /\
  List.length (dgeSummaryTable (applyDge cid d2 (applyDge cid d1 prev))) =
    List.length (dgeSummaryTable (applyDge cid d1 prev)).
Proof.
  intro T.
  assert (L : forall d p,
             Forall textual (dgeSummaryTable p) ->
             List.length (dgeSummaryTable (applyDge cid d p)) =
             (List.length (dgeSummaryTable p) +
              if existsb (comp_is cid) (dgeSummaryTable p) then 0 else 1)%nat).
  { intros d p Tp. rewrite applyDge_textual by exact Tp. cbv zeta.
    cbn [dgeSummaryTable]. now rewrite sort_length, mergeEntry_length. }
  assert (T1 : Forall textual (dgeSummaryTable (applyDge cid d1 prev))).
  { rewrite applyDge_textual by exact T. cbv zeta. cbn [dgeSummaryTable].
    apply Forall_forall. intros row I.
    apply (Permutation_in _ (sort_perm _ _ _)) in I.
    revert row I. apply Forall_forall.
    apply mergeEntry_textual; [now eexists | exact T]. }
  split; [now apply L |]. rewrite (L d2) by exact T1.
  assert (E : existsb (comp_is cid) (dgeSummaryTable (applyDge cid d1 prev)) = true).
  { apply existsb_exists. rewrite applyDge_textual by exact T. cbv zeta.
    cbn [dgeSummaryTable]. eexists. split.
    - eapply Permutation_in; [apply Permutation_sym, sort_perm |].
      apply mergeEntry_In.
    - unfold comp_is. cbn [row_comp]. apply String.eqb_refl. }
  rewrite E. lia.
Qed.

(** Whether it goes through or not, the update after a differential-
    expression file leaves the tables of statistics and the transcript
    summaries as they are. *)
Lemma applyDge_frame (cid : string) (dgeData : Dge.DgeResult)
    (prev : ProcessedData) :
  dataStatsTable (applyDge cid dgeData prev) = dataStatsTable prev /\
  mappingStatsTable (applyDge cid dgeData prev) = mappingStatsTable prev /\
  transcriptStats (applyDge cid dgeData prev) = transcriptStats prev.
Proof.
  unfold applyDge. cbv zeta.
  destruct (sortE byComp _); repeat split.
Qed.

Ltac frame_cases :=
  repeat match goal with
         | |- context [key_truthy ?c] =>
             destruct c as [[| ? ?] |]; cbn [key_truthy negb andb]
         | |- context [match ?x with Returned _ => _ | Threw _ => _ end] =>
             destruct x
         end;
  first [ reflexivity
        | cbn [fst]; unfold setProcessedData; cbn [processedData];
          match goal with
          | |- context [applyDge ?c ?d ?p] =>
              destruct (applyDge_frame c d p) as (E1 & E2 & E3);
              rewrite ?E1, ?E2, ?E3
          end;
          reflexivity ].

(** X14: each kind of file changes its own part of the data and no
    other: the statistics table is changed by a statistics file only, the
    mapping table by a mapping file, the transcript summaries and the two
    transcript counts by annotation files, the template by a template file,
    the summary table by a summary file or a differential-expression file,
    and the comparisons by a summary file or a file of a comparison. *)
Theorem X14_kinds_keep_apart (st : AppState) (fileId : string) (file : File) :
  (detectFileType (file_name file) <> stats ->
   dataStatsTable (processedData (data (processFile parseGTF st (fileId, file)))) =
   dataStatsTable (processedData (data st))) /\
  (detectFileType (file_name file) <> mapping ->
   mappingStatsTable (processedData (data (processFile parseGTF st (fileId, file)))) =
   mappingStatsTable (processedData (data st))) /\
  (detectFileType (file_name file) <> gtf_novel ->
   detectFileType (file_name file) <> gtf_merged ->
   transcriptStats (processedData (data (processFile parseGTF st (fileId, file)))) =
   transcriptStats (processedData (data st))) /\
  (detectFileType (file_name file) <> gtf_novel ->
   novelIsoforms (data (processFile parseGTF st (fileId, file))) =
   novelIsoforms (data st)) /\
  (detectFileType (file_name file) <> gtf_merged ->
   mergedTranscripts (data (processFile parseGTF st (fileId, file))) =
   mergedTranscripts (data st)) /\
  (detectFileType (file_name file) <> template ->
   customTemplate (data (processFile parseGTF st (fileId, file))) =
   customTemplate (data st)) /\
  (detectFileType (file_name file) <> dge_summary ->
   detectFileType (file_name file) <> comparison_dge ->
   dgeSummaryTable (processedData (data (processFile parseGTF st (fileId, file)))) =
   dgeSummaryTable (processedData (data st))) /\
  (detectFileType (file_name file) <> dge_summary ->
   is_comparison (detectFileType (file_name file)) = false ->
   comparisons (processedData (data (processFile parseGTF st (fileId, file)))) =
   comparisons (processedData (data st))).
Proof.
  rewrite step_data.
  generalize (detectComparisonId (file_name file)) as compId.
  generalize (detectFileType (file_name file)) as kind.
  intros kind compId.
  repeat split; intros; destruct kind; try congruence; try discriminate;
    cbn [tryBlock is_comparison andb fst]; try reflexivity;
    frame_cases.
Qed.

(** X15: the order of a summary file and a differential-expression file
    shows in the summary table, the rows in it having text for [comp].
    With the summary file last the table is the rows of the summary file
    and nothing else: the row that the other file had given is gone.  With
    the summary file first its rows stay, the row of the comparison being
    replaced by, or joined with, the counts of the other file, and the
    table is sorted by comparison. *)
Theorem X15_summary_order (st : AppState) (idS idD : string) (fS fD : File)
    (raw : list JsObject.obj) (cid : string) (dgeData : Dge.DgeResult) :
  detectFileType (file_name fS) = dge_summary ->
  parseDGESummary fS = Returned raw ->
  detectFileType (file_name fD) = comparison_dge ->
  detectComparisonId (file_name fD) = Some cid ->
  parseComparisonDGE fD = Returned dgeData ->
  Forall textual (dgeSummaryTable (processedData (data st))) ->
  Forall textual (map summaryRowOf raw) ->
  dgeSummaryTable
    (processedData (data (handleSmartUpload parseGTF [(idD, fD); (idS, fS)] st))) =
    map summaryRowOf raw /\
  exists entry,
    dgeSummaryTable
      (processedData (data (handleSmartUpload parseGTF [(idS, fS); (idD, fD)] st))) =
      JsSort.sort byText (mergeEntry cid entry (map summaryRowOf raw)) /\
    row_comp entry = VStr cid /\
    row_sig entry = of_nat (Dge.sigTotal (Dge.stats dgeData)).
Proof.
  intros KS PS KD CD PD _ T. split.
  - rewrite !run_cons, run_nil.
    now rewrite (step_summary _ _ _ raw KS PS).
  - rewrite !run_cons, run_nil.
    rewrite (step_dge _ _ _ cid dgeData KD CD PD).
    rewrite (step_summary _ _ _ raw KS PS).
    unfold setProcessedData. cbn [processedData].
    rewrite applyDge_textual by exact T. cbv zeta. cbn [dgeSummaryTable].
    eexists. split; [reflexivity |]. split; reflexivity.
Qed.

End UploadMore.

Section UploadLast.
Context {rt : Runtime}.
Import Upload UploadSpec.
Variable parseGTF : File -> outcome TranscriptStat.

(** X22: a file that the classifier does not know, or knows as a
    deliverable only, is never an error and never read: its status is a
    success, with the type [deliverable_only] and, for the unknown one, the
    message that it is added to the tree only, and the data are as before. *)
Theorem X22_unparsed_files_succeed (st : AppState) (fileId : string) (file : File) :
  detectFileType (file_name file) = unknown \/
  detectFileType (file_name file) = deliverable_only ->
  data (processFile parseGTF st (fileId, file)) = data st /\
  In (mkStatus fileId (file_name file) deliverable_only
               (detectComparisonId (file_name file)) success
               (if FileKind_eqb (detectFileType (file_name file)) unknown
                then Some "Type unknown, added to tree only" else None))
     (uploadStatus (processFile parseGTF st (fileId, file))).
Proof.
  intro K. rewrite step_data, step_statuses.
  split.
  - destruct K as [K | K]; rewrite K; reflexivity.
  - apply in_map_iff. exists (newStatus fileId file).
    split; [| apply in_or_app; right; now left].
    unfold finish, newStatus. cbn [fs_id]. rewrite String.eqb_refl.
    destruct K as [K | K]; rewrite K; reflexivity.
Qed.




Lemma store_same (k : string) (c : ComparisonData) (m : Comparisons) :
  lookup k m = Some c -> store k c m = m.
Proof.
  induction m as [| [k' c'] m IH]; simpl; [discriminate |].
  destruct (String.eqb k k').
  - intro H. now inversion H.
  - intro H. now rewrite IH.
Qed.

Lemma store_store (k : string) (c c' : ComparisonData) (m : Comparisons) :
  store k c' (store k c m) = store k c' m.
Proof.
  induction m as [| [k0 c0] m IH]; simpl.
  - now rewrite String.eqb_refl.
  - destruct (String.eqb k k0) eqn:E; simpl; rewrite E; [reflexivity |].
    now rewrite IH.
Qed.

Lemma ensure_again (cid : string) (p : ProcessedData) (c : ComparisonData) :
  lookup cid (comparisons p) = Some c -> ensureComparison cid p = p.
Proof.
  intro L. unfold ensureComparison. cbv zeta. rewrite L, (store_same _ _ _ L).
  now destruct p.
Qed.

Lemma ensure_twice (cid : string) (p : ProcessedData) :
  ensureComparison cid (ensureComparison cid p) = ensureComparison cid p.
Proof.
  eapply ensure_again. unfold ensureComparison. cbv zeta. cbn [comparisons].
  apply lookup_store_same.
Qed.

Lemma applyGo_twice (cid : string) (terms : list Enrichment.EnrichmentTerm)
    (p : ProcessedData) :
  applyGo cid terms (ensureComparison cid (applyGo cid terms p)) =
  applyGo cid terms p.
Proof.
  rewrite (ensure_again cid (applyGo cid terms p) _ (lookup_store_same _ _ _)).
  unfold applyGo, comparisonAt.
  cbn [comparisons dataStatsTable mappingStatsTable transcriptStats
       dgeSummaryTable].
  now rewrite lookup_store_same, store_store.
Qed.

Lemma applyKegg_twice (cid : string) (terms : list Enrichment.EnrichmentTerm)
    (p : ProcessedData) :
  applyKegg cid terms (ensureComparison cid (applyKegg cid terms p)) =
  applyKegg cid terms p.
Proof.
  rewrite (ensure_again cid (applyKegg cid terms p) _ (lookup_store_same _ _ _)).
  unfold applyKegg, comparisonAt.
  cbn [comparisons dataStatsTable mappingStatsTable transcriptStats
       dgeSummaryTable].
  now rewrite lookup_store_same, store_store.
Qed.

(** X24: a second pass over a file of statistics, a mapping file, a
    template or an enrichment file of a comparison leaves the data as the
    first pass made them. *)
Theorem X24_second_pass_changes_nothing (fileId1 fileId2 : string) (file : File)
    (s0 : AppState) :
  detectFileType (file_name file) = stats \/
  detectFileType (file_name file) = mapping \/
  detectFileType (file_name file) = template \/
  detectFileType (file_name file) = comparison_go \/
  detectFileType (file_name file) = comparison_kegg ->
  data (handleSmartUpload parseGTF [(fileId2, file)]
          (handleSmartUpload parseGTF [(fileId1, file)] s0)) =
  data (handleSmartUpload parseGTF [(fileId1, file)] s0).
Proof.
  intros [K | [K | [K | K]]];
    try (apply rerun_replaces; tauto).
  rewrite !run_cons, !run_nil, !step_data.
  destruct (detectComparisonId (file_name file)) as [cid |] eqn:C.
  - pose proof (id_truthy _ _ C) as T.
    destruct K as [K | K]; rewrite K; cbn [tryBlock is_comparison andb];
      rewrite T; cbn [negb]; destruct (parseEnrichment file) as [terms | m];
      cbn [fst]; unfold setProcessedData; cbn [processedData novelIsoforms
        mergedTranscripts customTemplate]; f_equal;
      first [apply applyGo_twice | apply applyKegg_twice | apply ensure_twice].
  - destruct K as [K | K]; rewrite K; reflexivity.
Qed.

End UploadLast.

(** ** The folders, the tree and the steps *)

Section FolderFacts.
Import Upload App.

Lemma categoryOf_key (f : FileUploadStatus) :
  In (categoryOf f) (map fst categories0).
Proof.
  unfold categoryOf. cbv zeta.
  repeat match goal with
         | |- In (if ?b then _ else _) _ => destruct b
         end; simpl; tauto.
Qed.

Lemma keys_push (cat name : string) (cats : Categories) :
  map fst (push cat name cats) = map fst cats.
Proof.
  induction cats as [| [k files] cats IH]; simpl; [reflexivity |].
  destruct (String.eqb cat k); simpl; [reflexivity | now rewrite IH].
Qed.

Lemma filesOf_push (cat cat' name : string) (cats : Categories) :
  In cat' (map fst cats) ->
  filesOf cat (push cat' name cats) =
  (filesOf cat cats ++ if String.eqb cat' cat then [name] else [])%list.
Proof.
  induction cats as [| [k files] cats IH]; simpl; [intros [] |].
  intro I. destruct (String.eqb_spec cat' k) as [-> | N].
  - simpl. destruct (String.eqb_spec cat k) as [-> | N'].
    + now rewrite String.eqb_refl.
    + rewrite (proj2 (String.eqb_neq k cat)) by congruence.
      now rewrite app_nil_r.
  - simpl. destruct (String.eqb_spec cat k) as [-> | N'].
    + rewrite (proj2 (String.eqb_neq cat' k) N). now rewrite app_nil_r.
    + apply IH. destruct I as [E | I]; [congruence | exact I].
Qed.

Lemma concat_push (cat name : string) (cats : Categories) :
  In cat (map fst cats) ->
  Permutation (List.concat (map snd (push cat name cats)))
              (name :: List.concat (map snd cats)).
Proof.
  induction cats as [| [k files] cats IH]; simpl; [intros [] |].
  intro I. destruct (String.eqb_spec cat k) as [-> | N]; simpl.
  - rewrite <- app_assoc. simpl.
    apply Permutation_sym, Permutation_middle.
  - destruct I as [E | I]; [congruence |].
    rewrite (IH I). apply Permutation_sym, Permutation_middle.
Qed.

Lemma folders_filled (l : list FileUploadStatus) (cats : Categories) :
  map fst cats = map fst categories0 ->
  map fst (fold_left (fun c f => push (categoryOf f) (fs_name f) c) l cats) =
    map fst categories0 /\
  (forall cat,
     filesOf cat (fold_left (fun c f => push (categoryOf f) (fs_name f) c) l cats) =
     (filesOf cat cats ++
      map fs_name (filter (fun f => String.eqb (categoryOf f) cat) l))%list) /\
  Permutation
    (List.concat (map snd (fold_left (fun c f => push (categoryOf f) (fs_name f) c) l cats)))
    (List.concat (map snd cats) ++ map fs_name l).
Proof.
  revert cats. induction l as [| f l IH]; intros cats K; cbn [fold_left].
  - repeat split; [exact K | intro; simpl; now rewrite app_nil_r
                  | simpl; now rewrite app_nil_r].
  - assert (I : In (categoryOf f) (map fst cats))
      by (rewrite K; apply categoryOf_key).
    destruct (IH (push (categoryOf f) (fs_name f) cats)) as (K' & F & P).
    { now rewrite keys_push. }
    repeat split; [exact K' | |].
    + intro cat. rewrite F, (filesOf_push cat _ _ cats I), <- app_assoc.
      f_equal. simpl. now destruct (String.eqb (categoryOf f) cat).
    + rewrite P, (concat_push _ _ cats I). simpl.
      apply Permutation_middle.
Qed.

Lemma filesOf_folder (uploadStatus : list FileUploadStatus) (cat : string) :
  filesOf cat (getDeliverablesStructure uploadStatus) =
  map fs_name (filter (fun f => String.eqb (categoryOf f) cat) uploadStatus).
Proof.
  unfold getDeliverablesStructure.
  destruct (folders_filled uploadStatus categories0 eq_refl) as (_ & F & _).
  rewrite F.
  assert (E : filesOf cat categories0 = []).
  { unfold categories0. simpl.
    repeat match goal with
           | |- (if ?b then _ else _) = _ => destruct b; [reflexivity |]
           end. reflexivity. }
  now rewrite E.
Qed.

(** X16: every file of the list is filed in one folder, the one of the
    first condition of the chain that its name or type meets: a folder
    holds the names of its files in the order of the list, and the eight
    folders together hold each name as many times as the list does. *)
Theorem X16_deliverables_partition (uploadStatus : list FileUploadStatus) :
  map fst (getDeliverablesStructure uploadStatus) = map fst categories0 /\
  (forall cat,
     filesOf cat (getDeliverablesStructure uploadStatus) =
     map fs_name (filter (fun f => String.eqb (categoryOf f) cat) uploadStatus)) /\
  Permutation (List.concat (map snd (getDeliverablesStructure uploadStatus)))
              (map fs_name uploadStatus).
Proof.
  split; [| split].
  - now apply folders_filled.
  - apply filesOf_folder.
  - now apply (folders_filled uploadStatus categories0).
Qed.

End FolderFacts.

Section TreeFacts.
Import Upload App TreeSpec.

Lemma lineBreaks_app (a b : string) :
  lineBreaks (a ++ b) = (lineBreaks a + lineBreaks b)%nat.
Proof. induction a as [| c a IH]; simpl; [reflexivity | rewrite IH; lia]. Qed.

Lemma fileLines_breaks (isLastFolder : bool) (n : nat) (files : list string) :
  Forall (fun file => lineBreaks file = 0%nat) files ->
  forall fIdx tree,
    lineBreaks (fileLines isLastFolder n fIdx files tree) =
    (lineBreaks tree + List.length files)%nat.
Proof.
  induction 1 as [| file files F _ IH]; intros fIdx tree; cbn [fileLines].
  - simpl. lia.
  - cbv zeta. rewrite IH, !lineBreaks_app, F.
    destruct isLastFolder, (Z.of_nat fIdx =? Z.of_nat n - 1)%Z; simpl; lia.
Qed.

Lemma folderLines_breaks (categories : Categories) (n : nat)
    (active : list string) :
  Forall (fun cat => lineBreaks cat = 0%nat) active ->
  (forall cat, Forall (fun file => lineBreaks file = 0%nat)
                      (filesOf cat categories)) ->
  forall idx tree,
    lineBreaks (folderLines categories n idx active tree) =
    (lineBreaks tree + List.length active +
     list_sum (map (fun cat => List.length (filesOf cat categories)) active))%nat.
Proof.
  intros A F. induction A as [| cat active C _ IH]; intros idx tree;
    cbn [folderLines].
  - simpl. lia.
  - cbv zeta. rewrite IH, fileLines_breaks.
    + rewrite sort_length, !lineBreaks_app, C. cbn [map list_sum List.length].
      destruct (Z.of_nat idx =? Z.of_nat n - 1)%Z; simpl; lia.
    + apply Forall_forall. intros file I.
      apply (Permutation_in _ (sort_perm _ byCode _)) in I.
      revert file I. apply Forall_forall, F.
Qed.

Lemma filter_sum (f : string -> nat) (l : list string) :
  list_sum (map f (filter (fun k => (0 <? f k)%nat) l)) = list_sum (map f l).
Proof.
  induction l as [| k l IH]; simpl; [reflexivity |].
  destruct (Nat.ltb_spec 0 (f k)); simpl; lia.
Qed.

Lemma list_sum_perm (a b : list nat) : Permutation a b -> list_sum a = list_sum b.
Proof. induction 1; simpl; lia. Qed.

Lemma filter_perm (A : Type) (p : A -> bool) (a b : list A) :
  Permutation a b -> Permutation (filter p a) (filter p b).
Proof.
  induction 1; simpl.
  - reflexivity.
  - destruct (p x); [now apply perm_skip | assumption].
  - destruct (p x), (p y); try reflexivity. apply perm_swap.
  - now transitivity (filter p l').
Qed.

Lemma one_folder (f : FileUploadStatus) :
  list_sum (map (fun k => if String.eqb (categoryOf f) k then 1 else 0)%nat
                (map fst categories0)) = 1%nat.
Proof.
  unfold categoryOf. cbv zeta.
  repeat match goal with
         | |- context [if ?b then String _ _ else _] => destruct b
         end; reflexivity.
Qed.

Lemma length_filter_cons (A : Type) (p : A -> bool) (x : A) (l : list A) :
  List.length (filter p (x :: l)) =
  ((if p x then 1 else 0) + List.length (filter p l))%nat.
Proof. simpl. now destruct (p x). Qed.

Lemma list_sum_cons (a : nat) (l : list nat) :
  list_sum (a :: l) = (a + list_sum l)%nat.
Proof. reflexivity. Qed.

Lemma count_cons (f : FileUploadStatus) (l : list FileUploadStatus)
    (ks : list string) :
  list_sum (map (fun k => List.length
                            (filter (fun e => String.eqb (categoryOf e) k) (f :: l)))
                ks) =
  (list_sum (map (fun k => if String.eqb (categoryOf f) k then 1 else 0)%nat ks) +
   list_sum (map (fun k => List.length
                             (filter (fun e => String.eqb (categoryOf e) k) l))
                 ks))%nat.
Proof.
  induction ks as [| k ks IH]; [reflexivity |].
  rewrite !map_cons, !list_sum_cons, IH, length_filter_cons. lia.
Qed.

Lemma folders_hold_all (uploadStatus : list FileUploadStatus) :
  list_sum (map (fun k => List.length (filesOf k (getDeliverablesStructure uploadStatus)))
                (map fst categories0)) =
  List.length uploadStatus.
Proof.
  rewrite (map_ext _ (fun k => List.length
                                 (filter (fun f => String.eqb (categoryOf f) k)
                                         uploadStatus)))
    by (intro k; now rewrite filesOf_folder, length_map).
  induction uploadStatus as [| f l IH]; [reflexivity |].
  rewrite count_cons, IH, one_folder. reflexivity.
Qed.

(** X17: with no file in the list the tree is the default one; otherwise
    the tree has a line for its title, a line for its root, a line for each
    folder that holds a file and a line for each file of the list, the
    names being free of line breaks. *)
Theorem X17_tree_lines (f : FileUploadStatus) (l : list FileUploadStatus) :
  Forall (fun e => lineBreaks (fs_name e) = 0%nat) (f :: l) ->
  generateTreeFromUploads [] = DEFAULT_TREE /\
  S (lineBreaks (generateTreeFromUploads (f :: l))) =
  (2 + List.length (activeFolders (getDeliverablesStructure (f :: l))) +
   List.length (f :: l))%nat.
Proof.
  intro N. split; [reflexivity |].
  unfold generateTreeFromUploads. cbv zeta.
  set (cats := getDeliverablesStructure (f :: l)).
  assert (K : map fst cats = map fst categories0) by now apply folders_filled.
  rewrite K.
  pose proof (sort_perm _ byCode (map fst categories0)) as P.
  rewrite folderLines_breaks.
  - rewrite (filter_sum (fun k => List.length (filesOf k cats))).
    rewrite (list_sum_perm _ _ (Permutation_map _ P)).
    rewrite (Permutation_length (filter_perm _ _ _ _ P)).
    unfold cats. rewrite folders_hold_all.
    unfold activeFolders. rewrite lineBreaks_app. simpl. lia.
  - apply Forall_forall. intros cat I. apply filter_In in I.
    destruct I as [I _]. apply (Permutation_in _ P) in I. simpl in I.
    repeat (destruct I as [<- | I]; [reflexivity |]). contradiction.
  - intro cat. unfold cats. rewrite filesOf_folder.
    apply Forall_forall. intros name I. apply in_map_iff in I.
    destruct I as (e & <- & I). apply filter_In in I. destruct I as [I _].
    revert e I. now apply Forall_forall.
Qed.

End TreeFacts.

Section WizardFacts.
Import App WizardSpec.

Lemma press_in_range (s : Z) (c : Click) :
  (0 <= s <= 4)%Z -> (0 <= press s c <= 4)%Z.
Proof. destruct c; unfold press, nextStep, prevStep; lia. Qed.

(** X18: whatever buttons are pressed, the step stays one of the five, from
    0 to 4: a press of Next at the last step and a press of Back at the first
    change nothing; and the wizard marks exactly one label as the current
    one, those before it as completed. *)
Theorem X18_wizard_steps (clicks : list Click) :
  (0 <= fold_left press clicks 0 <= 4)%Z /\
  press 4 Next = 4%Z /\ press 0 Back = 0%Z /\
  exists before label after,
    StepWizard (fold_left press clicks 0%Z) stepLabels =
      (map (fun l => (l, completed)) before ++ (label, current) ::
       map (fun l => (l, upcoming)) after)%list /\
    Z.of_nat (List.length before) = fold_left press clicks 0%Z.
Proof.
  assert (R : forall l s, (0 <= s <= 4)%Z -> (0 <= fold_left press l s <= 4)%Z).
  { induction l as [| c l IH]; intros s H; [exact H |].
    apply IH. now apply press_in_range. }
  specialize (R clicks 0%Z ltac:(lia)).
  split; [exact R |]. split; [reflexivity |]. split; [reflexivity |].
  generalize dependent (fold_left press clicks 0%Z). intros s R.
  assert (C : (s = 0 \/ s = 1 \/ s = 2 \/ s = 3 \/ s = 4)%Z) by lia.
  destruct C as [-> | [-> | [-> | [-> | ->]]]].
  - now exists [], "Metadata", ["Key Stats"; "Data Upload"; "Deliverables"; "Generate"].
  - now exists ["Metadata"], "Key Stats", ["Data Upload"; "Deliverables"; "Generate"].
  - now exists ["Metadata"; "Key Stats"], "Data Upload", ["Deliverables"; "Generate"].
  - now exists ["Metadata"; "Key Stats"; "Data Upload"], "Deliverables", ["Generate"].
  - now exists ["Metadata"; "Key Stats"; "Data Upload"; "Deliverables"], "Generate", [].
Qed.

End WizardFacts.

(** ** The summary of an annotation *)

Section GtfLineFacts.
Context {rt : Runtime} {en : Engine}.
Import JsObject Upload Gtf GtfSpec.

Lemma exonOf_skipped (line : string) : skipped line = true -> exonOf line = None.
Proof.
  unfold skipped, exonOf. cbv zeta. intro H.
  destruct (String.eqb line "" || startsWith line "#"); [reflexivity |].
  simpl in H.
  destruct (List.length (split "009" line) <? 9)%nat; [reflexivity |].
  simpl in H. now rewrite H.
Qed.

Lemma tally_exons (lines : list string) :
  tally lines = fold_left bump (exons lines) empty.
Proof.
  unfold tally, exons. generalize empty as o.
  induction lines as [| line lines IH]; intro o; [reflexivity |].
  cbn [fold_left flat_map]. rewrite fold_left_app, IH.
  now destruct (exonOf line).
Qed.

Lemma exons_filter (lines : list string) :
  exons (filter (fun l => negb (skipped l)) lines) = exons lines.
Proof.
  unfold exons. induction lines as [| line lines IH]; [reflexivity |].
  cbn [filter flat_map]. destruct (skipped line) eqn:S; cbn [negb].
  - now rewrite (exonOf_skipped line S), IH.
  - cbn [flat_map]. now rewrite IH.
Qed.

Lemma exons_skipped (lines : list string) :
  forallb skipped lines = true -> exons lines = [].
Proof.
  unfold exons. induction lines as [| line lines IH]; [reflexivity |].
  cbn [forallb flat_map]. intro H. apply andb_true_iff in H. destruct H as [S H].
  now rewrite (exonOf_skipped line S), IH.
Qed.

(** X19: blank lines, comment lines, lines of fewer than nine fields and
    features other than exons have no part in the summary of an annotation;
    a text that holds no other line, the empty text for one, gives the
    summary with count and lengths zero. *)
Theorem X19_gtf_passed_over (name : string) (lines : list string)
    (sheet : outcome (option Sheet.rawgrid)) :
  summaryOf name lines =
    summaryOf name (filter (fun l => negb (skipped l)) lines) /\
  (forallb skipped lines = true ->
   summaryOf name lines = Returned (mkSummary name zero (VNum zero) zero zero)) /\
  parseGTF (mkFile name (Returned "") sheet) =
    Returned (mkSummary name zero (VNum zero) zero zero).
Proof.
  split; [| split].
  - unfold summaryOf. now rewrite !tally_exons, exons_filter.
  - intro H. unfold summaryOf. now rewrite tally_exons, (exons_skipped lines H).
  - reflexivity.
Qed.

End GtfLineFacts.

Section GtfRestart.
Context {rt : Runtime} {en : Engine}.
Import JsObject Upload Gtf GtfSpec.

Lemma has_put (k : string) (v : value) (o : obj) : has k (put k v o) = true.
Proof.
  induction o as [| [k' v'] o IH]; simpl.
  - now rewrite String.eqb_refl.
  - destruct (String.eqb k k') eqn:E; simpl; rewrite E; [reflexivity | exact IH].
Qed.

Lemma not_inherited (k : string) : is_inherited k = false -> k <> "__proto__".
Proof. intros H ->. discriminate H. Qed.

Lemma add_NaN (a : num) : add a NaN = NaN.
Proof. now destruct a. Qed.

Lemma bump_unset (o : obj) (k : string) (len : num) :
  is_inherited k = false -> unset k o = true ->
  bump o (k, len) = put k (VNum (add zero len)) (put k (VNum zero) o).
Proof.
  intros I U. pose proof (not_inherited k I) as N.
  unfold bump. rewrite U. unfold raised, set.
  rewrite (proj2 (String.eqb_neq _ _) N), has_put, get_put_same. reflexivity.
Qed.

(** X20: an exon whose coordinates do not give a number leaves the length
    of its transcript [NaN], and the next exon of the transcript starts the
    length again from zero: what the transcript had before is lost. *)
Theorem X20_gtf_restart (o : obj) (k : string) (len : num) :
  is_inherited k = false -> (forall s, get k o <> VStr s) ->
  get k (bump o (k, NaN)) = VNum NaN /\
  get k (bump (bump o (k, NaN)) (k, len)) = VNum (add zero len).
Proof.
  intros I S. pose proof (not_inherited k I) as N.
  assert (B : has k (bump o (k, NaN)) = true /\ get k (bump o (k, NaN)) = VNum NaN).
  { destruct (unset k o) eqn:U.
    - rewrite (bump_unset o k NaN I U). now rewrite has_put, get_put_same.
    - unfold bump. rewrite U. unfold raised, set.
      rewrite (proj2 (String.eqb_neq _ _) N), has_put, get_put_same.
      split; [reflexivity |].
      unfold unset in U. rewrite I in U.
      destruct (has k o); [| discriminate U].
      unfold plus. destruct (get k o) eqn:G; try (now rewrite add_NaN).
      now contradiction (S s). }
  destruct B as [H G]. split; [exact G |].
  rewrite bump_unset; [now rewrite get_put_same | exact I |].
  unfold unset. now rewrite H, G.
Qed.

End GtfRestart.

Section KeyFacts.
Import JsObject.

Lemma has_In (k : string) (o : obj) : has k o = true <-> In k (map fst o).
Proof.
  induction o as [| [k' v] o IH]; simpl; [split; [discriminate | tauto] |].
  rewrite orb_true_iff, IH. split.
  - intros [E | I]; [left; symmetry; now apply String.eqb_eq | now right].
  - intros [E | I]; [left; subst; apply String.eqb_refl | now right].
Qed.

Lemma names_put_has (k : string) (v : value) (o : obj) :
  has k o = true -> map fst (put k v o) = map fst o.
Proof.
  induction o as [| [k' v'] o IH]; simpl; [discriminate |].
  destruct (String.eqb k k'); simpl; [reflexivity |].
  intro H. now rewrite IH.
Qed.

Lemma insert_index_perm (e : N * string) (l : list (N * string)) :
  Permutation (insert_index e l) (e :: l).
Proof.
  induction l as [| e' l IH]; simpl; [reflexivity |].
  destruct (fst e <? fst e')%N; [reflexivity |].
  rewrite IH. apply perm_swap.
Qed.

Lemma keys_perm (o : obj) : Permutation (keys o) (map fst o).
Proof.
  unfold keys. induction o as [| [k v] o IH]; simpl; [reflexivity |].
  destruct (array_index k) as [n |].
  - rewrite (Permutation_map snd (insert_index_perm (n, k) (index_names o))).
    simpl. now apply perm_skip.
  - rewrite <- Permutation_middle. now apply perm_skip.
Qed.

Lemma get_names (o : obj) :
  NoDup (map fst o) -> map (fun k => get k o) (map fst o) = map snd o.
Proof.
  induction o as [| [k v] o IH]; simpl; [reflexivity |].
  intro D. inversion D as [| ? ? N D']; subst.
  rewrite String.eqb_refl. f_equal. rewrite <- (IH D').
  apply map_ext_in. intros k' I.
  destruct (String.eqb_spec k' k) as [-> | _]; [contradiction | reflexivity].
Qed.

End KeyFacts.

Section SumFacts.
Import GtfSpec.

Lemma zsum_app (a b : list Z) : zsum (a ++ b) = (zsum a + zsum b)%Z.
Proof.
  induction a as [| x a IH]; simpl; [reflexivity | rewrite IH; lia].
Qed.

Lemma zsum_perm (a b : list Z) : Permutation a b -> zsum a = zsum b.
Proof. induction 1; simpl; lia. Qed.

End SumFacts.

Section TallyFacts.
Context {rt : Runtime} {en : Engine}.
Import JsObject Upload Gtf GtfSpec.
Hypothesis Exact : whole_numbers_exact.

Lemma inject_add (a b : Z) : (inject_Z a + inject_Z b)%Q = inject_Z (a + b).
Proof. unfold Qplus, inject_Z. simpl. now rewrite !Z.mul_1_r. Qed.

Lemma add_exact (a b : Z) :
  (Z.abs (a + b) <= 9007199254740992)%Z ->
  add (Fin (inject_Z a)) (Fin (inject_Z b)) = Fin (inject_Z (a + b)).
Proof. intro L. unfold add. rewrite inject_add. now apply Exact. Qed.

Lemma amount_whole (z : Z) : amount (VNum (Fin (inject_Z z))) = z.
Proof. unfold amount, Qfloor, inject_Z. apply Z.div_1_r. Qed.

Lemma lengthOf_app (k : string) (a b : list (string * Z)) :
  lengthOf k (a ++ b) = (lengthOf k a + lengthOf k b)%Z.
Proof.
  induction a as [| [k' n] a IH]; simpl; [reflexivity |].
  destruct (String.eqb k k'); rewrite IH; lia.
Qed.

Lemma totalOf_app (a b : list (string * Z)) :
  totalOf (a ++ b) = (totalOf a + totalOf b)%Z.
Proof.
  induction a as [| [k' n] a IH]; simpl; [reflexivity | rewrite IH; lia].
Qed.

Lemma lengthOf_absent (k : string) (a : list (string * Z)) :
  ~ In k (map fst a) -> lengthOf k a = 0%Z.
Proof.
  induction a as [| [k' n] a IH]; simpl; [reflexivity |].
  intro N. destruct (String.eqb_spec k k') as [-> | _]; [tauto |].
  apply IH. tauto.
Qed.

Lemma lengthOf_bounds (k : string) (a : list (string * Z)) :
  Forall regular a -> (0 <= lengthOf k a <= totalOf a)%Z.
Proof.
  induction 1 as [| [k' n] a [_ P] _ IH]; simpl in *; [lia |].
  destruct (String.eqb k k'); lia.
Qed.

Lemma amounts_put (k : string) (x y : Z) (o : obj) :
  has k o = true -> get k o = VNum (Fin (inject_Z x)) ->
  (zsum (map (fun e => amount (snd e)) (put k (VNum (Fin (inject_Z y))) o)) + x =
   zsum (map (fun e => amount (snd e)) o) + y)%Z.
Proof.
  induction o as [| [k' v] o IH]; cbn [has get put]; [discriminate |].
  destruct (String.eqb k k'); cbn [orb map snd]; unfold zsum in *;
    cbn [fold_right].
  - intros _ ->. rewrite !amount_whole. lia.
  - intros H G. specialize (IH H G). lia.
Qed.

Lemma amounts_put_fresh (k : string) (v : value) (o : obj) :
  has k o = false ->
  map (fun e => amount (snd e)) (put k v o) =
  (map (fun e => amount (snd e)) o ++ [amount v])%list.
Proof.
  induction o as [| [k' v'] o IH]; simpl; [reflexivity |].
  destruct (String.eqb k k'); simpl; [discriminate |].
  intro H. now rewrite IH.
Qed.

Lemma whole_truthy (x : Z) :
  (0 < x)%Z -> JsValue.truthy (VNum (Fin (inject_Z x))) = true.
Proof.
  intro P. simpl. unfold zero.
  destruct (Qeq_bool (inject_Z x) 0) eqn:E; [| reflexivity].
  apply Qeq_bool_eq in E. unfold Qeq in E. simpl in E. lia.
Qed.

Lemma bump_regular (o : obj) (done : list (string * Z)) (e : string * Z) :
  Forall regular done -> regular e ->
  (totalOf (done ++ [e]) <= 9007199254740992)%Z ->
  tallied o done -> tallied (bump o (exonOfLength e)) (done ++ [e]).
Proof.
  destruct e as [k q]. intros R [I P] B (D & M & V & T).
  simpl in I, P. pose proof (not_inherited k I) as N.
  rewrite totalOf_app in B. cbn [totalOf] in B.
  pose proof (lengthOf_bounds k done R) as Bk.
  unfold exonOfLength. cbn [fst snd].
  destruct (has k o) eqn:H.
  - (* the transcript has a length *)
    pose proof (proj1 (has_In k o) H) as Ik.
    destruct (V k Ik) as (x & G & Px & Lx).
    assert (Bm : bump o (k, Fin (inject_Z q)) =
                 put k (VNum (Fin (inject_Z (x + q)))) o).
    { unfold bump, unset. rewrite H, G, (whole_truthy x Px). cbn [negb].
      unfold raised, set. rewrite H, G, (proj2 (String.eqb_neq _ _) N).
      unfold plus. cbn [JsValue.toNumber].
      rewrite add_exact by lia. reflexivity. }
    rewrite Bm. unfold tallied. rewrite (names_put_has k _ o H).
    split; [exact D |]. split; [| split].
    + intro k'. rewrite M, map_app, in_app_iff. simpl. split; [tauto |].
      intros [? | [<- | []]]; [assumption | now apply M].
    + intros k' I'. destruct (String.eqb_spec k' k) as [-> | N'].
      * exists (x + q)%Z. rewrite get_put_same. split; [reflexivity |].
        split; [lia |]. rewrite lengthOf_app. simpl.
        rewrite String.eqb_refl. lia.
      * destruct (V k' I') as (x' & G' & Px' & Lx'). exists x'.
        rewrite get_put_other by exact N'. split; [exact G' |].
        split; [exact Px' |]. rewrite lengthOf_app. simpl.
        rewrite (proj2 (String.eqb_neq _ _) N'). lia.
    + rewrite totalOf_app. simpl. rewrite <- T.
      pose proof (amounts_put k x (x + q) o H G) as A. lia.
  - (* the transcript is new *)
    assert (Nk : ~ In k (map fst o)).
    { intro Ik. apply has_In in Ik. congruence. }
    assert (U : unset k o = true) by (unfold unset; now rewrite H, I).
    rewrite (bump_unset o k (Fin (inject_Z q)) I U).
    change zero with (Fin (inject_Z 0)). rewrite add_exact by (simpl; lia).
    cbn [Z.add].
    set (o1 := put k (VNum (Fin (inject_Z 0))) o).
    assert (H1 : has k o1 = true) by apply has_put.
    assert (N1 : map fst o1 = (map fst o ++ [k])%list)
      by now apply names_put_fresh.
    unfold tallied. rewrite (names_put_has k _ o1 H1), N1.
    split; [| split; [| split]].
    + apply NoDup_app; [exact D | repeat constructor; simpl; tauto |].
      intros a Ia [<- | []]. contradiction.
    + intro k'. rewrite !map_app, !in_app_iff, M. reflexivity.
    + intros k' I'. apply in_app_iff in I'.
      destruct (String.eqb_spec k' k) as [-> | N'].
      * exists q. rewrite get_put_same. split; [reflexivity |].
        split; [exact P |].
        rewrite lengthOf_app. simpl. rewrite String.eqb_refl.
        rewrite (lengthOf_absent k done) by (rewrite <- M; exact Nk). lia.
      * destruct I' as [I' | [E | []]]; [| congruence].
        destruct (V k' I') as (x' & G' & Px' & Lx'). exists x'.
        unfold o1. rewrite !get_put_other by exact N'. split; [exact G' |].
        split; [exact Px' |]. rewrite lengthOf_app. simpl.
        rewrite (proj2 (String.eqb_neq _ _) N'). lia.
    + rewrite totalOf_app. simpl. rewrite <- T.
      pose proof (amounts_put k 0 q o1 H1 (get_put_same k _ o)) as A.
      unfold o1 in A at 2.
      rewrite (amounts_put_fresh k _ o H), zsum_app, amount_whole in A.
      simpl in A. lia.
Qed.

Lemma tally_regular (es done : list (string * Z)) (o : obj) :
  Forall regular done -> Forall regular es ->
  (totalOf (done ++ es) <= 9007199254740992)%Z ->
  tallied o done ->
  tallied (fold_left bump (map exonOfLength es) o) (done ++ es).
Proof.
  revert done o. induction es as [| e es IH]; intros done o Rd R B T.
  - now rewrite app_nil_r.
  - inversion R as [| ? ? Re Res]; subst. cbn [map fold_left].
    replace (done ++ e :: es)%list with ((done ++ [e]) ++ es)%list in *
      by now rewrite <- app_assoc.
    assert (Rd' : Forall regular (done ++ [e])).
    { apply Forall_app. split; [exact Rd | now constructor]. }
    apply IH; [exact Rd' | exact Res | exact B |].
    apply bump_regular; [exact Rd | exact Re | | exact T].
    rewrite totalOf_app in B.
    assert (0 <= totalOf es)%Z.
    { pose proof (lengthOf_bounds "" es Res). lia. }
    lia.
Qed.

End TallyFacts.

Section TotalFacts.
Context {rt : Runtime} {en : Engine}.
Import JsObject Upload Gtf GtfSpec.

Lemma tallied_empty : tallied empty [].
Proof.
  unfold tallied, empty. simpl. repeat split; try tauto. constructor.
Qed.

Lemma as_numbers (vs : list value) :
  Forall (fun v => exists x, v = VNum (Fin (inject_Z x)) /\ (0 < x)%Z) vs ->
  exists xs, vs = map (fun x => VNum (Fin (inject_Z x))) xs /\
             Forall (fun x => (0 < x)%Z) xs.
Proof.
  induction 1 as [| v vs (x & -> & Px) _ (xs & -> & Pxs)].
  - now exists [].
  - exists (x :: xs). split; [reflexivity | now constructor].
Qed.

Lemma zsum_positive (xs : list Z) :
  Forall (fun x => (0 < x)%Z) xs -> (0 <= zsum xs)%Z.
Proof. induction 1; simpl; lia. Qed.

Lemma plus_fold (xs : list Z) (a : Z) :
  whole_numbers_exact ->
  Forall (fun x => (0 < x)%Z) xs -> (0 <= a)%Z ->
  (a + zsum xs <= 9007199254740992)%Z ->
  fold_left plus (map (fun x => VNum (Fin (inject_Z x))) xs)
            (VNum (Fin (inject_Z a))) =
  VNum (Fin (inject_Z (a + zsum xs))).
Proof.
  intro Exact. revert a. induction xs as [| x xs IH]; intros a F A B.
  - simpl. now rewrite Z.add_0_r.
  - inversion F as [| ? ? Px Pxs]; subst. cbn [map fold_left zsum fold_right] in *.
    fold (zsum xs) in B. pose proof (zsum_positive xs Pxs) as Z0.
    unfold plus at 2. cbn [JsValue.toNumber].
    rewrite (add_exact Exact) by lia.
    rewrite IH by (assumption || lia). do 3 f_equal. fold (zsum xs). lia.
Qed.

Lemma lt_whole (a b : Z) :
  lt (Fin (inject_Z a)) (Fin (inject_Z b)) = (a <? b)%Z.
Proof.
  cbn [lt]. unfold Qltb, Qcompare, inject_Z. cbn [Qnum Qden].
  now rewrite !Z.mul_1_r.
Qed.

Lemma max_fold (xs : list Z) (a : Z) :
  exists m, fold_left max (map (fun x => Fin (inject_Z x)) xs) (Fin (inject_Z a)) =
            Fin (inject_Z m) /\
            (m = a \/ In m xs) /\ (a <= m)%Z /\ (forall x, In x xs -> (x <= m)%Z).
Proof.
  revert a. induction xs as [| x xs IH]; intro a; cbn [map fold_left].
  - exists a. repeat split; [now left | lia | intros x []].
  - unfold max at 2. cbn [isNaN orb]. rewrite lt_whole.
    destruct (Z.ltb_spec a x) as [L | L].
    + destruct (IH x) as (m & E & W & Lm & A).
      exists m. split; [exact E |]. split; [| split].
      * right. destruct W as [-> | W]; [now left | now right].
      * lia.
      * intros y [<- | I]; [exact Lm | now apply A].
    + destruct (IH a) as (m & E & W & Lm & A).
      exists m. split; [exact E |]. split; [| split].
      * destruct W as [-> | W]; [now left | right; now right].
      * exact Lm.
      * intros y [<- | I]; [lia | now apply A].
Qed.

(** X21: on exons whose ids name no member of [Object.prototype] and whose
    lengths are positive whole numbers with a sum of 2^53 at most, and on an
    engine whose arithmetic gives the whole numbers up to 2^53 as they are
    and accepts a call with one argument for each transcript, the summary
    counts the transcripts, each once; its total is the sum of the lengths
    of all exons, its largest length is the length of one transcript and no
    transcript is longer, and its mean is [Math.round] of the total by the
    count as the engine divides them. *)
Theorem X21_gtf_totals (name : string) (lines : list string)
    (es : list (string * Z)) :
  exons lines = map exonOfLength es ->
  Forall regular es ->
  es <> [] ->
  (totalOf es <= 9007199254740992)%Z ->
  whole_numbers_exact ->
  callAccepts (List.length (transcripts es)) = true ->
  exists longest,
    summaryOf name lines =
      Returned
        (mkSummary name
           (of_nat (List.length (transcripts es)))
           (VNum (Fin (inject_Z (totalOf es))))
           (round (div (Fin (inject_Z (totalOf es)))
                       (of_nat (List.length (transcripts es)))))
           (Fin (inject_Z longest))) /\
    (exists k, In k (transcripts es) /\ longest = lengthOf k es) /\
    (forall k, In k (transcripts es) -> (lengthOf k es <= longest)%Z).
Proof.
  intros E R Ne B Exact Acc. unfold summaryOf. cbv zeta.
  rewrite tally_exons, E.
  pose proof (tally_regular Exact es [] empty (Forall_nil _) R B tallied_empty)
    as T.
  cbn [app] in T.
  set (o := fold_left bump (map exonOfLength es) empty) in *.
  destruct T as (D & M & V & S).
  pose proof (keys_perm o) as K.
  assert (Len : List.length (values o) = List.length (transcripts es)).
  { unfold values. rewrite length_map, (Permutation_length K).
    apply Permutation_length, NoDup_Permutation;
      [exact D | apply NoDup_nodup |].
    intro k. unfold transcripts. rewrite nodup_In. apply M. }
  assert (F : Forall (fun v => exists x, v = VNum (Fin (inject_Z x)) /\ (0 < x)%Z)
                     (values o)).
  { apply Forall_forall. intros v I. unfold values in I.
    apply in_map_iff in I. destruct I as (k & <- & I).
    apply (Permutation_in _ K) in I.
    destruct (V k I) as (x & G & P & _). now exists x. }
  destruct (as_numbers _ F) as (xs & Ev & Pxs).
  assert (Nz : transcripts es <> []).
  { unfold transcripts. destruct es as [| [k n] es']; [congruence |].
    intro C. assert (I : In k (nodup string_dec (map fst ((k, n) :: es'))))
      by (apply nodup_In; now left).
    rewrite C in I. exact I. }
  assert (Nn : List.length (transcripts es) <> 0%nat)
    by (destruct (transcripts es); [congruence | discriminate]).
  assert (Sum : zsum xs = totalOf es).
  { rewrite <- S.
    replace xs with (map amount (values o)).
    - rewrite <- (map_map snd amount o), <- (get_names o D).
      apply zsum_perm, Permutation_map. unfold values.
      now apply Permutation_map.
    - rewrite Ev, map_map. rewrite <- (map_id xs) at 2.
      apply map_ext. intro x. apply amount_whole. }
  rewrite Len, (proj2 (Nat.eqb_neq _ _) Nn), Acc, Ev.
  change (VNum zero) with (VNum (Fin (inject_Z 0))).
  rewrite (plus_fold xs 0 Exact Pxs) by (rewrite ?Sum; lia).
  cbn [Z.add]. rewrite Sum.
  rewrite map_map. cbn [JsValue.toNumber].
  assert (Nx : xs <> []).
  { intro C. rewrite C in Ev. rewrite Ev in Len. simpl in Len. congruence. }
  destruct xs as [| x0 xs']; [congruence |]. cbn [map fold_left].
  change (max NegInf (Fin (inject_Z x0))) with (Fin (inject_Z x0)).
  destruct (max_fold xs' x0) as (m & Em & W & L0 & A). rewrite Em.
  exists m. split; [reflexivity |].
  assert (Key : forall x, In x (x0 :: xs') <->
                          exists k, In k (map fst o) /\
                                    get k o = VNum (Fin (inject_Z x))).
  { intro x. split.
    - intro I. assert (Iv : In (VNum (Fin (inject_Z x))) (values o))
        by (rewrite Ev; now apply (in_map (fun y => VNum (Fin (inject_Z y))))).
      unfold values in Iv. apply in_map_iff in Iv.
      destruct Iv as (k & G & Ik). exists k.
      split; [now apply (Permutation_in _ K) | exact G].
    - intros (k & Ik & G).
      assert (Iv : In (VNum (Fin (inject_Z x))) (values o)).
      { unfold values. apply in_map_iff. exists k. split; [exact G |].
        now apply (Permutation_in _ (Permutation_sym K)). }
      rewrite Ev in Iv. apply in_map_iff in Iv.
      destruct Iv as (y & Ey & Iy). inversion Ey; subst. exact Iy. }
  split.
  - assert (Im : In m (x0 :: xs'))
      by (destruct W as [-> | W]; [now left | now right]).
    apply Key in Im. destruct Im as (k & Ik & G). exists k.
    split; [unfold transcripts; apply nodup_In; now apply M |].
    destruct (V k Ik) as (x & G' & _ & Lx). rewrite G in G'.
    inversion G'; subst. reflexivity.
  - intros k Ik. unfold transcripts in Ik. apply nodup_In, M in Ik.
    destruct (V k Ik) as (x & G & _ & Lx). rewrite <- Lx.
    assert (Ix : In x (x0 :: xs')) by (apply Key; now exists k).
    destruct Ix as [<- | Ix]; [exact L0 | now apply A].
Qed.

End TotalFacts.

(** ** The properties on more examples *)

Section OnMoreExamples.
#[local] Existing Instance Ref.runtime.
#[local] Existing Instance MoreExamples.engine.
Import JsObject Sheet SheetSpec Dge DgeSpec Upload UploadSpec.
Import Examples UploadExamples MoreExamples.

Lemma X1_classifier_ignores_case_witness :
  toLowerCase "Comparison1_DGE.XLSX" = toLowerCase "comparison1_dge.xlsx" /\
  detectFileType "Comparison1_DGE.XLSX" = detectFileType "comparison1_dge.xlsx" /\
  detectComparisonId "Comparison1_DGE.XLSX" =
    detectComparisonId "comparison1_dge.xlsx".
Proof.
  split; [reflexivity |].
  apply (X1_classifier_ignores_case "Comparison1_DGE.XLSX" "comparison1_dge.xlsx").
  reflexivity.
Defined.

Lemma X3_rows_share_keys_witness :
  List.length (smartSheetToJson two_rows ["logfc"]) = 2%nat /\
  keys (rowObject (headersOf (nth 0 two_rows [])) (nth 1 two_rows [])) =
  keys (rowObject (headersOf (nth 0 two_rows [])) (nth 2 two_rows [])).
Proof.
  split; [reflexivity |].
  apply (X3_rows_share_keys two_rows ["logfc"]);
    [intros [H | [H | [H | []]]]; discriminate H | left | right; left];
    reflexivity.
Defined.

Lemma X8_failed_upload_keeps_data_witness :
  In (mkStatus "f1" "C2_GO_enrichment.xlsx" comparison_go (Some "C2") error
               (Some "Unsupported file"))
     (uploadStatus (processFile no_exons initialApp ("f1", broken_file))) /\
  dgeSummaryTable
    (processedData (data (processFile no_exons initialApp ("f1", broken_file)))) =
  dgeSummaryTable (processedData (data initialApp)).
Proof.
  split; [left; reflexivity |].
  apply (X8_failed_upload_keeps_data no_exons initialApp "f1" broken_file
           (mkStatus "f1" "C2_GO_enrichment.xlsx" comparison_go (Some "C2") error
                     (Some "Unsupported file")));
    [intros [] | left; reflexivity | reflexivity | reflexivity].
Defined.

Lemma X9_removeFile_after_upload_witness :
  uploadStatus
    (App.removeFile "f1"
       (handleSmartUpload no_exons
          [("f0", gtf_file); ("f1", go_file); ("f2", gtf_file)] initialApp)) =
  uploadStatus
    (handleSmartUpload no_exons [("f0", gtf_file); ("f2", gtf_file)] initialApp).
Proof.
  apply (X9_removeFile_after_upload no_exons [("f0", gtf_file)] [("f2", gtf_file)]
           "f1" go_file initialApp);
    solve [intros [] | intros [H | []]; discriminate H].
Defined.

Lemma X10_enrichment_upload_is_local_witness :
  detectFileType (file_name go_file) = comparison_go /\
  detectComparisonId (file_name go_file) = Some "C1" /\
  exists c,
    lookup "C1"
      (comparisons (processedData (data (processFile no_exons initialApp
                                           ("f1", go_file))))) = Some c /\
    cd_goTerms c =
      [Enrichment.mkTerm "apoptosis" (Fin 12) (Fin (1 # 100)) None].
Proof.
  split; [reflexivity |]. split; [reflexivity |].
  destruct (X10_enrichment_upload_is_local no_exons initialApp "f1" go_file "C1"
              [Enrichment.mkTerm "apoptosis" (Fin 12) (Fin (1 # 100)) None])
    as (_ & _ & _ & _ & _ & _ & _ & _ & c & L & G & _);
    [left; reflexivity | reflexivity | reflexivity |].
  exists c. split; [exact L |]. now apply G.
Defined.

Lemma X11_summary_keeps_comparisons_witness :
  lookup "C1" (comparisons with_comparison1) = Some comparison1 /\
  exists c',
    lookup "C1"
      (comparisons
         (applySummary
            [mkRow (VStr "C1") (VStr "Drug vs Control") (Fin 100) zero zero
                   zero zero (Fin 9)]
            with_comparison1)) = Some c' /\
    cd_name c' = "Comparison 1" /\ cd_sigCount c' = Fin 7.
Proof.
  split; [reflexivity |].
  destruct (X11_summary_keeps_comparisons
              [mkRow (VStr "C1") (VStr "Drug vs Control") (Fin 100) zero zero
                     zero zero (Fin 9)]
              with_comparison1 "C1" comparison1 eq_refl)
    as (c' & L & _ & N & S & _).
  exists c'. now repeat split.
Defined.

Lemma X12_dge_upload_counts_witness :
  detectFileType (file_name dge_file) = comparison_dge /\
  detectComparisonId (file_name dge_file) = Some "C1" /\
  exists c row,
    lookup "C1"
      (comparisons (processedData (data (processFile no_exons initialApp
                                           ("f1", dge_file))))) = Some c /\
    In row (dgeSummaryTable
              (processedData (data (processFile no_exons initialApp
                                      ("f1", dge_file))))) /\
    row_comp row = VStr "C1" /\ row_sig row = cd_sigCount c /\
    cd_sigCount c = Fin 1.
Proof.
  split; [reflexivity |]. split; [reflexivity |].
  destruct (X12_dge_upload_counts no_exons initialApp "f1" dge_file "C1"
              (Dge.parseComparisonDGE (Some two_rows)) eq_refl eq_refl eq_refl
              (Forall_nil _))
    as (c & row & L & _ & _ & _ & S & I & C & _ & _ & _ & _ & _ & _ & R).
  exists c, row. repeat split; try assumption.
Defined.

Lemma X13_dge_reupload_keeps_rows_witness :
  List.length
    (dgeSummaryTable (applyDge "C1" Dge.emptyResult with_summary_row)) = 2%nat /\
  List.length
    (dgeSummaryTable
       (applyDge "C1" Dge.emptyResult
          (applyDge "C1" Dge.emptyResult with_summary_row))) = 2%nat.
Proof.
  assert (T : Forall textual (dgeSummaryTable with_summary_row))
    by (apply Forall_cons; [exists "C2"; reflexivity | apply Forall_nil]).
  destruct (X13_dge_reupload_keeps_rows "C1" Dge.emptyResult Dge.emptyResult
              with_summary_row T) as [A B].
  split; [exact A | rewrite B; exact A].
Defined.

Lemma X21_gtf_totals_witness :
  GtfSpec.exons gtf_lines =
    map GtfSpec.exonOfLength [("T1", 100%Z); ("T1", 50%Z); ("T2", 10%Z)] /\
  exists longest,
    Gtf.summaryOf "merged.gtf" gtf_lines =
      Returned
        (Gtf.mkSummary "merged.gtf"
           (of_nat (List.length
                      (GtfSpec.transcripts
                         [("T1", 100%Z); ("T1", 50%Z); ("T2", 10%Z)])))
           (VNum (Fin (inject_Z
                         (GtfSpec.totalOf
                            [("T1", 100%Z); ("T1", 50%Z); ("T2", 10%Z)]))))
           (Gtf.round
              (Gtf.div
                 (Fin (inject_Z
                         (GtfSpec.totalOf
                            [("T1", 100%Z); ("T1", 50%Z); ("T2", 10%Z)])))
                 (of_nat (List.length
                            (GtfSpec.transcripts
                               [("T1", 100%Z); ("T1", 50%Z); ("T2", 10%Z)])))))
           (Fin (inject_Z longest))) /\
    (exists k, In k (GtfSpec.transcripts
                       [("T1", 100%Z); ("T1", 50%Z); ("T2", 10%Z)]) /\
               longest =
               GtfSpec.lengthOf k [("T1", 100%Z); ("T1", 50%Z); ("T2", 10%Z)]) /\
    (forall k, In k (GtfSpec.transcripts
                       [("T1", 100%Z); ("T1", 50%Z); ("T2", 10%Z)]) ->
               (GtfSpec.lengthOf k [("T1", 100%Z); ("T1", 50%Z); ("T2", 10%Z)] <=
                longest)%Z).
Proof.
  split; [vm_compute; reflexivity |].
  apply (X21_gtf_totals "merged.gtf" gtf_lines
           [("T1", 100%Z); ("T1", 50%Z); ("T2", 10%Z)]).
  - vm_compute. reflexivity.
  - repeat constructor.
  - discriminate.
  - vm_compute. discriminate.
  - intros z L. unfold double, engine, nearest. cbn [inject_Z Qden Qnum].
    rewrite Pos.eqb_refl, (proj2 (Z.leb_le _ _) L). reflexivity.
  - reflexivity.
Defined.

Lemma X20_gtf_restart_witness :
  get "T1" (Gtf.bump (Gtf.bump [("T1", VNum (Fin 100))] ("T1", NaN))
                     ("T1", Fin 50)) =
  VNum (Fin (0 + 50)).
Proof.
  destruct (X20_gtf_restart [("T1", VNum (Fin 100))] "T1" (Fin 50)) as [_ E].
  - reflexivity.
  - intros s H. discriminate H.
  - exact E.
Defined.

Lemma X15_summary_order_witness :
  detectFileType (file_name summary_file) = dge_summary /\
  List.length
    (dgeSummaryTable
       (processedData
          (data (handleSmartUpload no_exons
                   [("f1", dge_file); ("f2", summary_file)] initialApp)))) =
  1%nat.
Proof.
  split; [reflexivity |].
  assert (T : Forall textual
                (map summaryRowOf
                   (smartSheetToJson
                      [[text "Comparison"; text "Description"; text "Total"];
                       [text "C1"; text "Drug vs Control"; text "100"]]
                      summaryKeywords)))
    by (apply Forall_cons; [exists "C1"; reflexivity | apply Forall_nil]).
  destruct (X15_summary_order no_exons initialApp "f2" "f1" summary_file dge_file
              (smartSheetToJson
                 [[text "Comparison"; text "Description"; text "Total"];
                  [text "C1"; text "Drug vs Control"; text "100"]]
                 summaryKeywords)
              "C1" (Dge.parseComparisonDGE (Some two_rows))
              eq_refl eq_refl eq_refl eq_refl eq_refl (Forall_nil _) T)
    as [E _].
  rewrite E. reflexivity.
Defined.

Lemma X17_tree_lines_witness :
  S (TreeSpec.lineBreaks (App.generateTreeFromUploads three_files)) = 7%nat.
Proof.
  destruct (X17_tree_lines (nth 0 three_files (newStatus "" gtf_file))
                           (tl three_files)) as [_ E].
  - repeat constructor.
  - exact E.
Defined.

Lemma X22_unparsed_files_succeed_witness :
  detectFileType (file_name notes_file) = unknown /\
  uploadStatus (processFile no_exons initialApp ("f1", notes_file)) =
    [mkStatus "f1" "notes.docx" deliverable_only None success
              (Some "Type unknown, added to tree only")] /\
  data (processFile no_exons initialApp ("f1", notes_file)) = data initialApp.
Proof.
  split; [vm_compute; reflexivity |]. split; [vm_compute; reflexivity |].
  assert (K : detectFileType (file_name notes_file) = unknown \/
              detectFileType (file_name notes_file) = deliverable_only)
    by (left; vm_compute; reflexivity).
  destruct (X22_unparsed_files_succeed no_exons initialApp "f1" notes_file K)
    as [D _].
  exact D.
Defined.


Lemma X24_second_pass_changes_nothing_witness :
  detectFileType (file_name go_file) = comparison_go /\
  data (handleSmartUpload no_exons [("f2", go_file)]
          (handleSmartUpload no_exons [("f1", go_file)] initialApp)) =
  data (handleSmartUpload no_exons [("f1", go_file)] initialApp).
Proof.
  split; [reflexivity |].
  apply (X24_second_pass_changes_nothing no_exons "f1" "f2" go_file initialApp).
  right. right. right. left. reflexivity.
Defined.

End OnMoreExamples.
